(** * Provider ranking, receptionist negotiation and swarm dispatch

    A shallow embedding of [src/lib/rankingLogic.ts],
    [src/lib/receptionistSimulator.ts] and [src/lib/swarmOrchestrator.ts].

    Conventions of the embedding.
    - JavaScript numbers that carry scores, ratings, distances and
      probabilities are rationals ([Q]); delays and epoch milliseconds are
      integers ([Z]).  A number that may be [NaN] (the result of parsing a
      date) is an [option]: [None] is [NaN], and every comparison with it
      is false, as in JavaScript.
    - Strings are [string]; the helpers of module [JS] follow the
      ECMAScript definitions of the [String.prototype] methods the sources
      call, on the ASCII characters the sources search for.
    - The host's [Date] parser, [Math.random], the locale formatter and the
      provider directory ([data/directory.json]) are not part of the three
      files: they are the [Variable]s of the sections below. *)

From Stdlib Require Import List String Ascii ZArith QArith Qminmax Bool Lia Arith.
From Stdlib Require Import Permutation Sorted Lqa.
Import ListNotations.

Local Open Scope string_scope.
Local Open Scope Z_scope.

(** ** The [String.prototype] and global functions the sources use *)

Module JS.

(** [s.startsWith(p)] *)
Definition startsWith (p s : string) : bool := String.prefix p s.

(** [s.slice(n)] for a non-negative [n]. *)
Fixpoint drop (n : nat) (s : string) : string :=
  match n, s with
  | O, _ => s
  | S _, EmptyString => EmptyString
  | S n', String _ s' => drop n' s'
  end.

(** The first occurrence of [pat] in [s], as the text before it and the
    text after it. *)
Fixpoint firstOccurrence (pat s : string) : option (string * string) :=
  if String.prefix pat s then Some (EmptyString, drop (String.length pat) s)
  else match s with
       | EmptyString => None
       | String c s' =>
           match firstOccurrence pat s' with
           | Some (before, after) => Some (String c before, after)
           | None => None
           end
       end.

(** [s.includes(pat)] *)
Definition includes (pat s : string) : bool :=
  match firstOccurrence pat s with Some _ => true | None => false end.

(** GetSubstitution for a string pattern (no capture groups): [$$] is a
    dollar, [$&] the matched text, [$`] the text before the match, [$']
    the text after it; any other [$] stands for itself. *)
Fixpoint getSubstitution (replacement matched before after : string) : string :=
  match replacement with
  | EmptyString => EmptyString
  | String c rest =>
      if Ascii.eqb c "$" then
        match rest with
        | String d rest' =>
            if Ascii.eqb d "$" then String "$" (getSubstitution rest' matched before after)
            else if Ascii.eqb d "&" then matched ++ getSubstitution rest' matched before after
            else if Ascii.eqb d "`" then before ++ getSubstitution rest' matched before after
            else if Ascii.eqb d "'" then after ++ getSubstitution rest' matched before after
            else String c (getSubstitution rest matched before after)
        | EmptyString => String c EmptyString
        end
      else String c (getSubstitution rest matched before after)
  end.

(** [s.replace(pat, replacement)] with a string pattern: only the first
    occurrence is replaced. *)
Definition replace (pat replacement s : string) : string :=
  match firstOccurrence pat s with
  | None => s
  | Some (before, after) =>
      before ++ getSubstitution replacement pat before after ++ after
  end.

(** [s.split(sep)] for a one-character separator. *)
Fixpoint split (sep : ascii) (s : string) : list string :=
  match s with
  | EmptyString => [EmptyString]
  | String c s' =>
      if Ascii.eqb c sep then EmptyString :: split sep s'
      else match split sep s' with
           | piece :: pieces => String c piece :: pieces
           | [] => [String c EmptyString]
           end
  end.

Definition isDigit (c : ascii) : bool :=
  let n := N_of_ascii c in (48 <=? n)%N && (n <=? 57)%N.

Definition digitValue (c : ascii) : Z := Z.of_N (N_of_ascii c) - 48.

Fixpoint rev_string (s acc : string) : string :=
  match s with
  | EmptyString => acc
  | String c s' => rev_string s' (String c acc)
  end.

(** Reversed view of the regular expression
    [/(\.\d+)?([Zz]|[+-]\d{2}:\d{2})$/]: given the reversed string,
    the reversed remainder once the zone designator is taken off its
    front, if there is one. *)
Definition dropZoneRev (r : string) : option string :=
  match r with
  | String z r1 =>
      if Ascii.eqb z "Z" || Ascii.eqb z "z" then Some r1
      else
        match r with
        | String m2 (String m1 (String colon (String h2 (String h1 (String sign r6))))) =>
            if isDigit m2 && isDigit m1 && Ascii.eqb colon ":" && isDigit h2
               && isDigit h1 && (Ascii.eqb sign "+" || Ascii.eqb sign "-")
            then Some r6 else None
        | _ => None
        end
  | EmptyString => None
  end.

Fixpoint dropDigits (r : string) : string :=
  match r with
  | String c r' => if isDigit c then dropDigits r' else r
  | EmptyString => r
  end.

(** The optional group [(\.\d+)?] read backwards: a non-empty run of
    digits that ends (going left) on a dot. *)
Definition dropFractionRev (r : string) : string :=
  match r with
  | String c _ =>
      if isDigit c then
        match dropDigits r with
        | String dot r' => if Ascii.eqb dot "." then r' else r
        | EmptyString => r
        end
      else r
  | EmptyString => r
  end.

(** [s.replace(/(\.\d+)?([Zz]|[+-]\d{2}:\d{2})$/, '')] *)
Definition stripZone (s : string) : string :=
  match dropZoneRev (rev_string s EmptyString) with
  | Some r => rev_string (dropFractionRev r) EmptyString
  | None => s
  end.

Definition isWhiteSpace (c : ascii) : bool :=
  let n := N_of_ascii c in
  ((9 <=? n)%N && (n <=? 13)%N) || (n =? 32)%N.

Fixpoint trimStart (s : string) : string :=
  match s with
  | String c s' => if isWhiteSpace c then trimStart s' else s
  | EmptyString => s
  end.

Definition hexValue (c : ascii) : option Z :=
  let n := N_of_ascii c in
  if isDigit c then Some (Z.of_N n - 48)
  else if (97 <=? n)%N && (n <=? 102)%N then Some (Z.of_N n - 87)
  else if (65 <=? n)%N && (n <=? 70)%N then Some (Z.of_N n - 55)
  else None.

Fixpoint readDigits (radix16 : bool) (s : string) (acc : option Z) : option Z :=
  match s with
  | EmptyString => acc
  | String c s' =>
      let v := if radix16 then hexValue c
               else if isDigit c then Some (digitValue c) else None in
      match v with
      | Some d =>
          let base := if radix16 then 16 else 10 in
          readDigits radix16 s' (Some (match acc with Some a => a * base + d | None => d end))
      | None => acc
      end
  end.

(** [parseInt(s)] without a radix argument: leading white space, an
    optional sign, an optional [0x] prefix, then the longest run of
    digits; [None] ([NaN]) when there is no digit. *)
Definition parseInt (s : string) : option Z :=
  let t := trimStart s in
  let '(negative, u) :=
    match t with
    | String c t' =>
        if Ascii.eqb c "-" then (true, t')
        else if Ascii.eqb c "+" then (false, t') else (false, t)
    | EmptyString => (false, t)
    end in
  let '(radix16, digits) :=
    match u with
    | String z (String x u') =>
        if Ascii.eqb z "0" && (Ascii.eqb x "x" || Ascii.eqb x "X") then (true, u')
        else (false, u)
    | _ => (false, u)
    end in
  match readDigits radix16 digits None with
  | Some n => Some (if negative then - n else n)
  | None => None
  end.

(** [c.toUpperCase()] on the ASCII letters. *)
Definition toUpperCaseChar (c : ascii) : ascii :=
  let n := N_of_ascii c in
  if (97 <=? n)%N && (n <=? 122)%N then ascii_of_N (n - 32) else c.

(** [s.charAt(0).toUpperCase() + s.slice(1)] *)
Definition capitalize (s : string) : string :=
  match s with
  | String c s' => String (toUpperCaseChar c) s'
  | EmptyString => EmptyString
  end.

(** [parts[i] || fallback] for an array of strings: a missing element
    and the empty string are both falsy. *)
Definition nthOr (parts : list string) (i : nat) (fallback : string) : string :=
  match nth_error parts i with
  | Some EmptyString | None => fallback
  | Some s => s
  end.

(** Comparisons of numbers that may be [NaN]. *)
Definition num_le (a b : option Z) : bool :=
  match a, b with Some x, Some y => x <=? y | _, _ => false end.
Definition num_ge (a b : option Z) : bool := num_le b a.
Definition num_lt (a b : option Z) : bool :=
  match a, b with Some x, Some y => x <? y | _, _ => false end.
Definition num_gt (a b : option Z) : bool := num_lt b a.

(** [Math.max(a, b)] on rationals. *)
Definition Math_max (a b : Q) : Q := if Qle_bool a b then b else a.

(** [xs.slice(start, end)] with the relative-index rule for negative
    arguments. *)
Definition slice {A} (xs : list A) (start stop : Z) : list A :=
  let len := Z.of_nat (List.length xs) in
  let k := if start <? 0 then Z.max (len + start) 0 else Z.min start len in
  let final := if stop <? 0 then Z.max (len + stop) 0 else Z.min stop len in
  firstn (Z.to_nat (final - k)) (skipn (Z.to_nat k) xs).

End JS.

(** ** Data model ([src/lib/schema.ts]) *)

Record ProviderMetadata := {
  accepts_insurance : option bool;
  parking : option string;
  specialty : option string;
  waitlist : option bool;
  same_day : option bool;
  notes : option string
}.

Record Provider := {
  id : string;
  name : string;
  phone : string;
  category : string;
  rating : Q;
  address : string;
  distanceMiles : Q;
  availableSlots : list string;
  metadata : option ProviderMetadata
}.

Record TimeRange := { range_start : string; range_end : string }.

Inductive IntentStatus := searching | intent_calling | booked | intent_failed.

Record AppointmentIntent := {
  userId : string;
  serviceType : string;
  userLocation : option string;
  preferredTimeRange : TimeRange;
  maxDistanceMiles : Q;
  intent_status : IntentStatus
}.

(** ** Ranking ([src/lib/rankingLogic.ts]) *)

Record RankingWeights := {
  ratingMultiplier : Q;
  maxDistanceScore : Q;
  distanceDecayPerMile : Q;
  slotMatchBonus : Q
}.

Definition DEFAULT_WEIGHTS : RankingWeights :=
  {| ratingMultiplier := 10; maxDistanceScore := 30;
     distanceDecayPerMile := 5; slotMatchBonus := 20 |}.

(** [RankedProvider extends Provider]: the provider's own fields, then the
    two derived ones. *)
Record RankedProvider := {
  provider : Provider;
  finalScore : Q;
  matchingSlots : list string
}.

(** [Array.prototype.sort(compare)].  ECMAScript requires the sort to be
    stable, and for a consistent comparator the stable ordering is unique;
    insertion from the right computes it.  [x] is placed before [y] when
    [compare x y <= 0]. *)
Section ArraySort.
Context {A : Type} (compare : A -> A -> Q).

Fixpoint sort_insert (x : A) (sorted : list A) : list A :=
  match sorted with
  | [] => [x]
  | y :: rest =>
      if Qle_bool (compare x y) 0 then x :: y :: rest
      else y :: sort_insert x rest
  end.

Fixpoint Array_sort (xs : list A) : list A :=
  match xs with
  | [] => []
  | x :: rest => sort_insert x (Array_sort rest)
  end.
End ArraySort.

Section Ranking.
(** [new Date(s).getTime()] of the host. *)
Variable getTime : string -> option Z.

(** The predicate of the [filter] in [scoreProvider]. *)
Definition slotInRange (intent : AppointmentIntent) (slot : string) : bool :=
  let slotTime := getTime slot in
  let startTime := getTime (range_start (preferredTimeRange intent)) in
  let endTime := getTime (range_end (preferredTimeRange intent)) in
  JS.num_ge slotTime startTime && JS.num_le slotTime endTime.

Definition scoreProvider (p : Provider) (intent : AppointmentIntent)
    (weights : RankingWeights) : RankedProvider :=
  let score := 0%Q in
  let score := (score + rating p * ratingMultiplier weights)%Q in
  let distanceScore :=
    JS.Math_max 0 (maxDistanceScore weights
                   - distanceMiles p * distanceDecayPerMile weights)%Q in
  let score := (score + distanceScore)%Q in
  let matching := filter (slotInRange intent) (availableSlots p) in
  let score :=
    if (0 <? List.length matching)%nat then (score + slotMatchBonus weights)%Q
    else score in
  {| provider := p; finalScore := score; matchingSlots := matching |}.

(** The comparator of [rankProviders]: [b.finalScore - a.finalScore]. *)
Definition byScoreDesc (a b : RankedProvider) : Q :=
  (finalScore b - finalScore a)%Q.

Definition rankProviders (providers : list Provider) (intent : AppointmentIntent)
    (weights : RankingWeights) : list RankedProvider :=
  Array_sort byScoreDesc
    (map (fun p => scoreProvider p intent weights) providers).

(** [batchProvidersForCalling] and [createBatches] share one loop:
    [for (i = 0; i < items.length; i += batchSize) push(slice(i, i + batchSize))].
    A loop that does not advance never ends; [None] is the run that is
    still going when the fuel is spent. *)
Fixpoint batchLoop {T} (fuel : nat) (items : list T) (batchSize i : Z)
    (batches : list (list T)) : option (list (list T)) :=
  match fuel with
  | O => None
  | S fuel' =>
      if i <? Z.of_nat (List.length items)
      then batchLoop fuel' items batchSize (i + batchSize)
             (batches ++ [JS.slice items i (i + batchSize)])
      else Some batches
  end.


End Ranking.

(** ** Receptionist simulator ([src/lib/receptionistSimulator.ts]) *)

Module Receptionist.

Inductive Role := receptionist | alfred.

Record TranscriptLine := {
  role : Role;
  line_message : string;
  delay : Z
}.

Record CallResult := {
  success : bool;
  providerId : string;
  providerName : string;
  message : string;
  bookedSlot : option string;
  alternativeSlots : option (list string);
  waitTime : Z;
  transcript : list TranscriptLine
}.

Inductive Friendliness := friendly | neutral | busy.

Record ReceptionistPersonality := {
  friendliness : Friendliness;
  responseDelay : Z;
  availabilityRate : Q
}.

Definition PERSONALITIES (k : Friendliness) : ReceptionistPersonality :=
  match k with
  | friendly => {| friendliness := friendly; responseDelay := 1200; availabilityRate := 8 # 10 |}
  | neutral => {| friendliness := neutral; responseDelay := 1800; availabilityRate := 6 # 10 |}
  | busy => {| friendliness := busy; responseDelay := 2500; availabilityRate := 4 # 10 |}
  end.

Record Script := {
  greeting : string;
  requestResponse : string;
  available : string;
  unavailable : string;
  booked : string;
  noSlots : string
}.

Definition SCRIPTS (k : Friendliness) : Script :=
  match k with
  | friendly =>
      {| greeting := "Good morning! Thank you for calling {providerName}, how can I help you today?";
         requestResponse := "Of course! Let me check our schedule for {slot}...";
         available := "Yes! We have that slot available. I'll book that for you right now.";
         unavailable := "I'm sorry, that specific time is taken. Would {alternative} work for you instead?";
         booked := "Perfect! You're all set for {slot}. We'll see you then!";
         noSlots := "Unfortunately, we're fully booked for that day. Can I put you on our waitlist?" |}
  | neutral =>
      {| greeting := "Hello, {providerName}. How may I assist you?";
         requestResponse := "One moment while I look at the calendar...";
         available := "Yes, that time is open. Shall I book it?";
         unavailable := "That slot is not available. We have {alternative} open.";
         booked := "Confirmed for {slot}. Is there anything else?";
         noSlots := "We don't have availability then. Would you like to try another day?" |}
  | busy =>
      {| greeting := "{providerName}, please hold... Okay, what do you need?";
         requestResponse := "Hold on... checking...";
         available := "Yeah, we can do that. Booking now.";
         unavailable := "No, that's taken. {alternative} is the only option.";
         booked := "Done. {slot}. Anything else?";
         noSlots := "Nothing available. Call back next week." |}
  end.

(** [transcript.reduce((sum, t) => sum + t.delay, 0)] *)
Definition sumDelays (transcript : list TranscriptLine) : Z :=
  fold_left (fun sum t => sum + delay t) transcript 0.

(** A string used as a condition: only the empty string is falsy. *)
Definition truthy (s : string) : bool :=
  match s with EmptyString => false | String _ _ => true end.

Section Simulator.
(** [providersData.providers] of [data/directory.json]. *)
Variable directory : list Provider.
(** [toLocaleDateString('sv-SE', ...)] of now and of now + 86400000. *)
Variables todayStr tomorrowStr : string.
(** [new Date(s).getTime()] and [new Date(s).getHours()]. *)
Variable getTime : string -> option Z.
Variable getHours : string -> option Z.
(** [new Date(Date.UTC(y, mon - 1, d, h, m, s || 0)).toLocaleString('en-US', ...)]
    of the [Number]s of the pieces of the date part and of the time part. *)
Variable toLocaleStringUTC : list string -> list string -> string.

Definition getProvider (providerId : string) : option Provider :=
  match find (fun p => String.eqb (id p) providerId) directory with
  | Some realProvider => Some realProvider
  | None =>
      if JS.startsWith "synth_" providerId then
        let parts := JS.split "_" providerId in
        let category := JS.nthOr parts 1 "service" in
        let index := JS.nthOr parts 2 "01" in
        let first := String.eqb index "01" in
        Some {| id := providerId;
                name := if first then JS.capitalize category ++ " of Boston"
                        else "Elite " ++ JS.capitalize category ++ " Care";
                category := category;
                phone := if first then "+1-617-555-9901" else "+1-617-555-9902";
                rating := if first then 47 # 10 else 49 # 10;
                address := if first then "100 Main St, Boston, MA"
                           else "250 Common Ave, Boston, MA";
                distanceMiles := if first then 5 # 10 else 12 # 10;
                availableSlots := [todayStr ++ "T10:00:00";
                                   todayStr ++ "T14:30:00";
                                   tomorrowStr ++ "T09:00:00"];
                metadata := Some {| accepts_insurance := None; parking := None;
                                    specialty := None; waitlist := None;
                                    same_day := None;
                                    notes := Some "Dynamically generated provider" |} |}
      else None
  end.

Definition formatSlot (isoString : string) : string :=
  let clean := JS.stripZone isoString in
  let parts := JS.split "T" clean in
  let datePart := nth 0 parts EmptyString in
  let timePart := match nth_error parts 1 with
                  | Some t => t
                  | None => "00:00:00"
                  end in
  toLocaleStringUTC (JS.split "-" datePart) (JS.split ":" timePart).

(** The personality tier of a rating. *)
Definition personalityOf (r : Q) : Friendliness :=
  if Qle_bool (45 # 10) r then friendly
  else if Qle_bool 4 r then neutral else busy.

(** The predicate of the [find] over [availableSlots]. *)
Definition withinFlexibility (requestedTime : option Z) (slot : string) : bool :=
  match getTime slot, requestedTime with
  | Some slotTime, Some requested => Z.abs (slotTime - requested) <=? 60 * 60 * 1000
  | _, _ => false
  end.

(** The alternative offered on a failed call, from
    [provider.availableSlots[0]]. *)
Definition alternativeFor (slot0 : string) : string :=
  let alternative := JS.replace "Z" "" slot0 in
  let clean := JS.stripZone alternative in
  let altDatePart := nth 0 (JS.split "T" clean) EmptyString in
  let altTimePart := if JS.includes "T" clean
                     then nth 1 (JS.split "T" clean) EmptyString
                     else "00:00:00" in
  let altHour := JS.parseInt (nth 0 (JS.split ":" altTimePart) EmptyString) in
  if JS.num_lt altHour (Some 8) || JS.num_gt altHour (Some 18)
  then altDatePart ++ "T10:00:00"
  else alternative.

(** [simulateProviderCall]; [random] is the value [Math.random()]
    yields if it is drawn. *)
Definition simulateProviderCall (pid requestedSlot : string)
    (serviceDescription : option string) (random : Q) : CallResult :=
  let formattedRequestedSlot := formatSlot requestedSlot in
  match getProvider pid with
  | None =>
      {| success := false;
         providerId := pid;
         providerName := "Unknown";
         message := "Provider not found in directory";
         bookedSlot := None;
         alternativeSlots := None;
         waitTime := 500;
         transcript := [ {| role := receptionist; line_message := "Unknown provider";
                            delay := 0 |} ] |}
  | Some p =>
      let personalityType := personalityOf (rating p) in
      let personality := PERSONALITIES personalityType in
      let scripts := SCRIPTS personalityType in
      let service := match serviceDescription with
                     | Some d => if truthy d then d else "appointment"
                     | None => "appointment"
                     end in
      let opening :=
        [ {| role := receptionist;
             line_message := JS.replace "{providerName}" (name p) (greeting scripts);
             delay := 500 |};
          {| role := alfred;
             line_message := "Hi, I'm calling to book a " ++ service ++ " for "
                             ++ formattedRequestedSlot ++ ".";
             delay := 800 |};
          {| role := receptionist;
             line_message := JS.replace "{slot}" formattedRequestedSlot
                               (requestResponse scripts);
             delay := responseDelay personality |} ] in
      let requestedTime := getTime requestedSlot in
      let hour := getHours requestedSlot in
      let isAfterHours := JS.num_ge hour (Some 22) || JS.num_le hour (Some 7) in
      let availableSlot :=
        if isAfterHours then None
        else find (withinFlexibility requestedTime) (availableSlots p) in
      let isAvailable :=
        match availableSlot with
        | Some slot => truthy slot
                       && negb (Qle_bool (availabilityRate personality + (1 # 10)) random)
        | None => false
        end in
      match (if isAvailable then availableSlot else None) with
      | Some slot =>
          let lines := (opening ++
            [ {| role := receptionist; line_message := available scripts; delay := 1000 |};
              {| role := alfred;
                 line_message := "That sounds perfect. Please confirm the booking.";
                 delay := 500 |};
              {| role := receptionist;
                 line_message := JS.replace "{slot}" (formatSlot slot) (booked scripts);
                 delay := 800 |} ])%list in
          {| success := true;
             providerId := pid;
             providerName := name p;
             message := JS.replace "{slot}" (formatSlot slot) (booked scripts);
             bookedSlot := Some (JS.replace "Z" "" slot);
             alternativeSlots := None;
             waitTime := sumDelays lines;
             transcript := lines |}
      | None =>
          match availableSlots p with
          | slot0 :: _ =>
              let alternative := alternativeFor slot0 in
              let lines := (opening ++
                [ {| role := receptionist;
                     line_message := JS.replace "{alternative}" (formatSlot alternative)
                                       (unavailable scripts);
                     delay := 1000 |};
                  {| role := alfred;
                     line_message := "Let me check with the user and get back to you.";
                     delay := 500 |} ])%list in
              {| success := false;
                 providerId := pid;
                 providerName := name p;
                 message := JS.replace "{alternative}" (formatSlot alternative)
                              (unavailable scripts);
                 bookedSlot := None;
                 alternativeSlots := Some [alternative];
                 waitTime := sumDelays lines;
                 transcript := lines |}
          | [] =>
              let lines := (opening ++
                [ {| role := receptionist; line_message := noSlots scripts;
                     delay := 1000 |} ])%list in
              {| success := false;
                 providerId := pid;
                 providerName := name p;
                 message := noSlots scripts;
                 bookedSlot := None;
                 alternativeSlots := None;
                 waitTime := sumDelays lines;
                 transcript := lines |}
          end
      end
  end.

End Simulator.

End Receptionist.

(** ** Swarm orchestrator ([src/lib/swarmOrchestrator.ts]) *)

Module Swarm.

Record SwarmConfig := {
  maxConcurrentCalls : Z;
  timeoutMs : Z;
  stopOnFirstSuccess : bool;
  retryFailedCalls : bool
}.

Definition DEFAULT_CONFIG : SwarmConfig :=
  {| maxConcurrentCalls := 5; timeoutMs := 15000;
     stopOnFirstSuccess := true; retryFailedCalls := false |}.

Inductive CallState := pending | calling | success | failed | timeout | cancelled.

Definition CallState_eqb (a b : CallState) : bool :=
  match a, b with
  | pending, pending | calling, calling | success, success
  | failed, failed | timeout, timeout | cancelled, cancelled => true
  | _, _ => false
  end.

Record SwarmCallStatus := {
  providerId : string;
  providerName : string;
  status : CallState;
  startedAt : option Z;
  completedAt : option Z;
  result : option Receptionist.CallResult
}.

Record SwarmResult := {
  totalProviders : nat;
  successfulBookings : list SwarmCallStatus;
  failedCalls : list SwarmCallStatus;
  cancelledCalls : list SwarmCallStatus;
  bestMatch : option SwarmCallStatus;
  totalDurationMs : Z;
  callStatuses : list SwarmCallStatus
}.

(** A [Map<string, SwarmCallStatus>]: keys in insertion order. *)
Definition StatusMap := list (string * SwarmCallStatus).

Fixpoint Map_get (m : StatusMap) (key : string) : option SwarmCallStatus :=
  match m with
  | [] => None
  | (k, v) :: rest => if String.eqb k key then Some v else Map_get rest key
  end.

(** [m.set(key, value)]: an existing key keeps its place. *)
Fixpoint Map_set (m : StatusMap) (key : string) (value : SwarmCallStatus) : StatusMap :=
  match m with
  | [] => [(key, value)]
  | (k, v) :: rest =>
      if String.eqb k key then (k, value) :: rest
      else (k, v) :: Map_set rest key value
  end.

Definition Map_values (m : StatusMap) : list SwarmCallStatus := map snd m.

(** The fields of a [SwarmOrchestrator] that a run touches, the
    invocations of the [onStatusUpdate] callback (oldest first), and the
    number of [Date.now()] readings taken so far. *)
Record Orchestrator := {
  statuses : StatusMap;
  aborted : bool;
  notified : list SwarmCallStatus;
  clock : nat
}.

(** What settles the race of [executeCall]: the timer, or the call with
    the value its [Math.random()] yields. *)
Inductive RaceOutcome := TimerFirst | CallFirst (random : Q).

Definition with_status (s : SwarmCallStatus) (c : CallState) : SwarmCallStatus :=
  {| providerId := providerId s; providerName := providerName s; status := c;
     startedAt := startedAt s; completedAt := completedAt s; result := result s |}.

(** The status map whose keys are [keys], in that order, with the values
    [g] gives them; and [g] changed at one key. *)
Definition tabulate (g : string -> SwarmCallStatus) (keys : list string) : StatusMap :=
  map (fun k => (k, g k)) keys.



Section Run.
Variable directory : list Provider.
Variables todayStr tomorrowStr : string.
Variable getTime : string -> option Z.
Variable getHours : string -> option Z.
Variable toLocaleStringUTC : list string -> list string -> string.
(** The successive values of [Date.now()]. *)
Variable Date_now : nat -> Z.
(** The outcome of the race for the call to a provider id. *)
Variable race : string -> RaceOutcome.

Variable config : SwarmConfig.

Definition getProvider := Receptionist.getProvider directory todayStr tomorrowStr.

Definition simulateProviderCall :=
  Receptionist.simulateProviderCall directory todayStr tomorrowStr
    getTime getHours toLocaleStringUTC.

(** [updateStatus]: store under the status's id, then call back. *)
Definition updateStatus (o : Orchestrator) (s : SwarmCallStatus) : Orchestrator :=
  {| statuses := Map_set (statuses o) (providerId s) s;
     aborted := aborted o;
     notified := notified o ++ [s];
     clock := clock o |}.

Definition tick (o : Orchestrator) : Orchestrator :=
  {| statuses := statuses o; aborted := aborted o;
     notified := notified o; clock := S (clock o) |}.

(** [executeCall] up to its [await]: the status becomes [calling]. *)
Definition launchCall (o : Orchestrator) (p : Provider) : Orchestrator :=
  match Map_get (statuses o) (id p) with
  | None => o
  | Some s =>
      updateStatus (tick o)
        {| providerId := providerId s; providerName := providerName s;
           status := calling;
           startedAt := Some (Date_now (clock o));
           completedAt := completedAt s; result := result s |}
  end.

(** [executeCall] after its [await]: the race is decided.  The [catch]
    branch has no counterpart: [simulateProviderCall] returns a result for
    every input. *)
Definition settleCall (requestedSlot : string) (serviceDescription : option string)
    (o : Orchestrator) (p : Provider) : Orchestrator :=
  match Map_get (statuses o) (id p) with
  | None => o
  | Some s =>
      let done := Some (Date_now (clock o)) in
      match race (id p) with
      | TimerFirst =>
          updateStatus (tick o)
            {| providerId := providerId s; providerName := providerName s;
               status := timeout;
               startedAt := startedAt s; completedAt := done; result := result s |}
      | CallFirst random =>
          let r := simulateProviderCall (id p) requestedSlot serviceDescription random in
          updateStatus (tick o)
            {| providerId := providerId s; providerName := providerName s;
               status := if Receptionist.success r then success else failed;
               startedAt := startedAt s; completedAt := done; result := Some r |}
      end
  end.

(** One batch: every call is launched, in input order, and the batch is
    awaited until every call has settled. *)
Definition executeBatch (requestedSlot : string) (serviceDescription : option string)
    (o : Orchestrator) (batch : list Provider) : Orchestrator :=
  fold_left (settleCall requestedSlot serviceDescription) batch
    (fold_left launchCall batch o).

(** [cancelRemainingCalls] *)
Definition cancelRemainingCalls (o : Orchestrator) : Orchestrator :=
  let o' :=
    fold_left (fun acc (entry : string * SwarmCallStatus) =>
                 match Map_get (statuses acc) (fst entry) with
                 | Some s =>
                     if CallState_eqb (status s) pending
                     then updateStatus acc (with_status s cancelled)
                     else acc
                 | None => acc
                 end)
              (statuses o) o in
  {| statuses := statuses o'; aborted := true;
     notified := notified o'; clock := clock o' |}.

(** The loop over the settled results of a batch. *)
Fixpoint scanResults (results : list SwarmCallStatus) (o : Orchestrator)
    (firstSuccess : option SwarmCallStatus)
    : Orchestrator * option SwarmCallStatus :=
  match results with
  | [] => (o, firstSuccess)
  | r :: rest =>
      if CallState_eqb (status r) success then
        match firstSuccess with
        | None =>
            if stopOnFirstSuccess config
            then (cancelRemainingCalls o, Some r)
            else scanResults rest o (Some r)
        | Some _ => scanResults rest o firstSuccess
        end
      else scanResults rest o firstSuccess
  end.

(** The values the batch's promises are fulfilled with: the status
    objects of its providers. *)
Definition batchResults (o : Orchestrator) (batch : list Provider)
    : list SwarmCallStatus :=
  flat_map (fun p => match Map_get (statuses o) (id p) with
                     | Some s => [s]
                     | None => []
                     end) batch.

(** The loop over the batches. *)
Fixpoint runBatches (requestedSlot : string) (serviceDescription : option string)
    (batches : list (list Provider)) (o : Orchestrator)
    (firstSuccess : option SwarmCallStatus) : Orchestrator :=
  match batches with
  | [] => o
  | batch :: rest =>
      if aborted o then o
      else if stopOnFirstSuccess config
              && match firstSuccess with Some _ => true | None => false end
      then o
      else
        let o1 := executeBatch requestedSlot serviceDescription o batch in
        let '(o2, firstSuccess') := scanResults (batchResults o1 batch) o1 firstSuccess in
        runBatches requestedSlot serviceDescription rest o2 firstSuccess'
  end.

Definition bookedTime (s : SwarmCallStatus) : option Z :=
  match result s with
  | Some r => match Receptionist.bookedSlot r with
              | Some slot => getTime slot
              | None => None
              end
  | None => None
  end.

(** [getProvider(s.providerId)?.rating || 0] *)
Definition ratingOf (s : SwarmCallStatus) : Q :=
  match getProvider (providerId s) with
  | Some p => rating p
  | None => 0
  end.

(** The comparator of [selectBestMatch]; a [NaN] result counts as [+0]
    in [Array.prototype.sort]. *)
Definition bestCompare (a b : SwarmCallStatus) : Q :=
  match bookedTime a, bookedTime b with
  | Some aTime, Some bTime =>
      if aTime =? bTime then (ratingOf b - ratingOf a)%Q
      else inject_Z (aTime - bTime)
  | _, _ => 0
  end.

Definition hasBooking (s : SwarmCallStatus) : bool :=
  CallState_eqb (status s) success
  && match result s with
     | Some r => match Receptionist.bookedSlot r with
                 | Some slot => Receptionist.truthy slot
                 | None => false
                 end
     | None => false
     end.

Definition selectBestMatch (all : list SwarmCallStatus) : option SwarmCallStatus :=
  let successful := filter hasBooking all in
  match successful with
  | [] => None
  | _ => hd_error (Array_sort bestCompare successful)
  end.

(** [createBatches] *)
Definition createBatches (fuel : nat) (items : list Provider) (batchSize : Z)
    : option (list (list Provider)) :=
  batchLoop fuel items batchSize 0 [].

(** The orchestrator after [callStatuses.clear()] and the [forEach]
    that registers every provider as [pending]. *)
Definition initialStatuses (providers : list Provider) : StatusMap :=
  fold_left (fun m p =>
               Map_set m (id p)
                 {| providerId := id p; providerName := name p; status := pending;
                    startedAt := None; completedAt := None; result := None |})
            providers [].

(** [executeSwarm]; the orchestrator is returned next to the result so
    that the callback invocations of the run can be inspected. *)
Definition executeSwarm (fuel : nat) (providers : list Provider)
    (requestedSlot : string) (serviceDescription : option string)
    : option (SwarmResult * Orchestrator) :=
  let startTime := Date_now 0%nat in
  let o0 := {| statuses := initialStatuses providers; aborted := false;
               notified := []; clock := 1%nat |} in
  match createBatches fuel providers (maxConcurrentCalls config) with
  | None => None
  | Some batches =>
      let o := runBatches requestedSlot serviceDescription batches o0 None in
      let totalDurationMs := Date_now (clock o) - startTime in
      let allStatuses := Map_values (statuses o) in
      Some ({| totalProviders := List.length providers;
               successfulBookings :=
                 filter (fun s => CallState_eqb (status s) success) allStatuses;
               failedCalls :=
                 filter (fun s => CallState_eqb (status s) failed
                                  || CallState_eqb (status s) timeout) allStatuses;
               cancelledCalls :=
                 filter (fun s => CallState_eqb (status s) cancelled) allStatuses;
               bestMatch := selectBestMatch allStatuses;
               totalDurationMs := totalDurationMs;
               callStatuses := allStatuses |}, tick o)
  end.


(** The state in which the race of [executeCall] leaves the status of
    a provider: [timeout] if the timer is first, else what the call's
    result says. *)
Definition settledState (requestedSlot : string) (serviceDescription : option string)
    (pid : string) : CallState :=
  match race pid with
  | TimerFirst => timeout
  | CallFirst random =>
      if Receptionist.success
           (simulateProviderCall pid requestedSlot serviceDescription random)
      then success else failed
  end.

(** The batches a run gets to launch: with [stopOnFirstSuccess], those
    up to the first one in which a call succeeds; all of them
    otherwise. *)
Fixpoint launchedBatches (requestedSlot : string) (serviceDescription : option string)
    (batches : list (list Provider)) : list (list Provider) :=
  match batches with
  | [] => []
  | batch :: rest =>
      batch ::
      (if stopOnFirstSuccess config
          && existsb (fun p => CallState_eqb
                                 (settledState requestedSlot serviceDescription (id p))
                                 success) batch
       then [] else launchedBatches requestedSlot serviceDescription rest)
  end.

(** A status that [selectBestMatch] can compare: it carries a result
    whose booked slot is a non-empty string that denotes a date. *)
Definition wellBooked (s : SwarmCallStatus) : Prop :=
  exists r slot t,
    result s = Some r
    /\ Receptionist.bookedSlot r = Some slot
    /\ slot <> EmptyString
    /\ getTime slot = Some t.

(** [s] is a successful status that ties with [best] on the booked
    instant and on the provider's rating. *)
Definition tiesWith (best s : SwarmCallStatus) : bool :=
  CallState_eqb (status s) success
  && match bookedTime s, bookedTime best with
     | Some ts, Some tb => ts =? tb
     | _, _ => false
     end
  && Qeq_bool (ratingOf s) (ratingOf best).


(** The element that [Array_sort bestCompare] puts first, computed
    from the right end of the array. *)
Fixpoint firstBest (l : list SwarmCallStatus) : option SwarmCallStatus :=
  match l with
  | [] => None
  | x :: rest =>
      match firstBest rest with
      | None => Some x
      | Some y => if Qle_bool (bestCompare x y) 0 then Some x else Some y
      end
  end.


(** [a] is at least as good a match as [b]: its slot is earlier, or
    the two slots are the same instant and its provider's rating is
    not lower. *)
Definition atLeastAsGood (a b : SwarmCallStatus) : Prop :=
  exists ta tb,
    bookedTime a = Some ta /\ bookedTime b = Some tb
    /\ (ta < tb \/ (ta = tb /\ (ratingOf b <= ratingOf a)%Q)).

(** The orchestrator [o] holds, for the ids [keys] in that order, the
    statuses [g], each filed under its own id. *)
Definition holds (keys : list string) (o : Orchestrator)
    (g : string -> SwarmCallStatus) : Prop :=
  statuses o = tabulate g keys
  /\ forall k, In k keys -> providerId (g k) = k.

(** The state of a run in which the calls to the ids [launched] have been
    launched and have settled: their statuses are what their races
    decided, the others are [pending], or [cancelled] once the run is
    aborted; and every callback invocation so far reports a launched id
    or a cancellation. *)
Definition tracks (requestedSlot : string) (serviceDescription : option string)
    (keys launched : list string) (o : Orchestrator)
    (g : string -> SwarmCallStatus) : Prop :=
  holds keys o g
  /\ (forall k, In k keys -> In k launched ->
                status (g k) = settledState requestedSlot serviceDescription k)
  /\ (forall k, In k keys -> ~ In k launched ->
                status (g k) = if aborted o then cancelled else pending)
  /\ (forall e, In e (notified o) ->
                In (providerId e) launched \/ status e = cancelled).

(** A status that is [success] carries the result of a call that
    succeeded. *)
Definition bookedByCall (requestedSlot : string) (serviceDescription : option string)
    (s : SwarmCallStatus) : Prop :=
  status s = success ->
  exists pid random,
    result s = Some (simulateProviderCall pid requestedSlot serviceDescription random)
    /\ Receptionist.success
         (simulateProviderCall pid requestedSlot serviceDescription random) = true.

End Run.

End Swarm.

(** ** Ranking on a store of objects

    [rankProviders] receives references: the array of providers, the
    provider objects in it and their [availableSlots] arrays are shared
    with the caller.  This second embedding keeps the objects in a store,
    so that what the function writes, and where, can be stated. *)

Module Store.

Definition ref := nat.

(** The own properties of a provider object; arrays and nested objects
    are held by reference. *)
Record ProviderFields := {
  f_id : string;
  f_name : string;
  f_phone : string;
  f_category : string;
  f_rating : Q;
  f_address : string;
  f_distanceMiles : Q;
  f_availableSlots : ref;
  f_metadata : option ref
}.

Inductive object :=
| StringArray (items : list string)
| MetadataObject (m : ProviderMetadata)
| ProviderObject (fields : ProviderFields)
| RankedObject (fields : ProviderFields) (score : Q) (matching : ref)
| RefArray (items : list ref).

Definition store := list object.

(** Computations on the store; [None] is a reference that does not hold
    what the static type promises. *)
Definition M (A : Type) : Type := store -> option (A * store).

Definition ret {A} (a : A) : M A := fun h => Some (a, h).

Definition bind {A B} (m : M A) (k : A -> M B) : M B :=
  fun h => match m h with
           | Some (a, h') => k a h'
           | None => None
           end.

Notation "x <- m ;; k" := (bind m (fun x => k))
  (at level 61, m at next level, right associativity).

Definition alloc (o : object) : M ref :=
  fun h => Some (List.length h, (h ++ [o])%list).

Definition load (r : ref) : M object :=
  fun h => match nth_error h r with
           | Some o => Some (o, h)
           | None => None
           end.

Fixpoint update (h : store) (r : ref) (o : object) : store :=
  match h, r with
  | [], _ => []
  | _ :: rest, O => o :: rest
  | x :: rest, S r' => x :: update rest r' o
  end.

Definition write (r : ref) (o : object) : M unit :=
  fun h => match nth_error h r with
           | Some _ => Some (tt, update h r o)
           | None => None
           end.

Definition fail {A} : M A := fun _ => None.

Definition loadStrings (r : ref) : M (list string) :=
  o <- load r ;;
  match o with StringArray items => ret items | _ => fail end.

Definition loadRefs (r : ref) : M (list ref) :=
  o <- load r ;;
  match o with RefArray items => ret items | _ => fail end.

(** The provider properties of an object: a ranked provider is a
    provider too. *)
Definition loadProviderFields (r : ref) : M ProviderFields :=
  o <- load r ;;
  match o with
  | ProviderObject fields | RankedObject fields _ _ => ret fields
  | _ => fail
  end.

Fixpoint mapM {A B} (f : A -> M B) (xs : list A) : M (list B) :=
  match xs with
  | [] => ret []
  | x :: rest => y <- f x ;; ys <- mapM f rest ;; ret (y :: ys)
  end.

Section Ranking.
Variable getTime : string -> option Z.

(** [scoreProvider]: [filter] builds a new array, the object literal
    with the spread a new object. *)
Definition scoreProvider (p : ref) (intent : AppointmentIntent)
    (weights : RankingWeights) : M ref :=
  fields <- loadProviderFields p ;;
  let score := 0%Q in
  let score := (score + f_rating fields * ratingMultiplier weights)%Q in
  let distanceScore :=
    JS.Math_max 0 (maxDistanceScore weights
                   - f_distanceMiles fields * distanceDecayPerMile weights)%Q in
  let score := (score + distanceScore)%Q in
  slots <- loadStrings (f_availableSlots fields) ;;
  let matching := filter (slotInRange getTime intent) slots in
  matchingSlots <- alloc (StringArray matching) ;;
  let score :=
    if (0 <? List.length matching)%nat then (score + slotMatchBonus weights)%Q
    else score in
  alloc (RankedObject fields score matchingSlots).

(** [finalScore] of the object a reference points to. *)
Definition scoreAt (h : store) (r : ref) : Q :=
  match nth_error h r with
  | Some (RankedObject _ score _) => score
  | _ => 0
  end.

(** [rankProviders]: [map] fills a new array and [sort] reorders that
    array in place. *)
Definition rankProviders (providers : ref) (intent : AppointmentIntent)
    (weights : RankingWeights) : M ref :=
  items <- loadRefs providers ;;
  mapped <- alloc (RefArray []) ;;
  ranked <- mapM (fun p => scoreProvider p intent weights) items ;;
  _ <- write mapped (RefArray ranked) ;;
  fun h =>
    let sorted := Array_sort (fun a b => (scoreAt h b - scoreAt h a)%Q) ranked in
    (_ <- write mapped (RefArray sorted) ;; ret mapped) h.

End Ranking.

(** Reading the store back into the values of the first embedding. *)
Definition readMetadata (h : store) (m : option ref) : option (option ProviderMetadata) :=
  match m with
  | None => Some None
  | Some r => match nth_error h r with
              | Some (MetadataObject md) => Some (Some md)
              | _ => None
              end
  end.

Definition readFields (h : store) (fields : ProviderFields) : option Provider :=
  match nth_error h (f_availableSlots fields), readMetadata h (f_metadata fields) with
  | Some (StringArray slots), Some md =>
      Some {| id := f_id fields; name := f_name fields; phone := f_phone fields;
              category := f_category fields; rating := f_rating fields;
              address := f_address fields; distanceMiles := f_distanceMiles fields;
              availableSlots := slots; metadata := md |}
  | _, _ => None
  end.

Definition readProvider (h : store) (r : ref) : option Provider :=
  match nth_error h r with
  | Some (ProviderObject fields) | Some (RankedObject fields _ _) => readFields h fields
  | _ => None
  end.

Definition readRanked (h : store) (r : ref) : option RankedProvider :=
  match nth_error h r with
  | Some (RankedObject fields score matching) =>
      match readFields h fields, nth_error h matching with
      | Some p, Some (StringArray slots) =>
          Some {| provider := p; finalScore := score; matchingSlots := slots |}
      | _, _ => None
      end
  | _ => None
  end.

Fixpoint readAll {A} (read : ref -> option A) (rs : list ref) : option (list A) :=
  match rs with
  | [] => Some []
  | r :: rest =>
      match read r, readAll read rest with
      | Some a, Some l => Some (a :: l)
      | _, _ => None
      end
  end.

Definition readProviderArray (h : store) (r : ref) : option (list Provider) :=
  match nth_error h r with
  | Some (RefArray items) => readAll (readProvider h) items
  | _ => None
  end.

Definition readRankedArray (h : store) (r : ref) : option (list RankedProvider) :=
  match nth_error h r with
  | Some (RefArray items) => readAll (readRanked h) items
  | _ => None
  end.

End Store.

(** ** A host to run the definitions on

    [Date] as it behaves on a machine whose time zone is UTC, for date-time
    strings of the form [YYYY-MM-DDTHH:MM:SS] with an optional final [Z]. *)

Module UTCHost.

Fixpoint allDigits (s : string) : bool :=
  match s with
  | EmptyString => true
  | String c s' => JS.isDigit c && allDigits s'
  end.

(** The number written by exactly [n] digits. *)
Definition field (n : nat) (s : string) : option Z :=
  if (String.length s =? n)%nat && allDigits s
  then JS.readDigits false s None else None.

(** Days from 1970-01-01 to a date of the proleptic Gregorian calendar. *)
Definition daysFromCivil (y m d : Z) : Z :=
  let y' := if m <=? 2 then y - 1 else y in
  let era := y' / 400 in
  let yoe := y' - era * 400 in
  let mp := (m + 9) mod 12 in
  let doy := (153 * mp + 2) / 5 + d - 1 in
  let doe := yoe * 365 + yoe / 4 - yoe / 100 + doy in
  era * 146097 + doe - 719468.

Definition dropFinalZ (s : string) : string :=
  match JS.rev_string s EmptyString with
  | String c r => if Ascii.eqb c "Z" then JS.rev_string r EmptyString else s
  | EmptyString => s
  end.

Definition parse (s : string) : option (Z * Z * Z * Z * Z * Z) :=
  match JS.split "T" (dropFinalZ s) with
  | [datePart; timePart] =>
      match JS.split "-" datePart, JS.split ":" timePart with
      | [ys; ms; ds], [hs; mins; ss] =>
          match field 4 ys, field 2 ms, field 2 ds,
                field 2 hs, field 2 mins, field 2 ss with
          | Some y, Some m, Some d, Some h, Some mi, Some sec =>
              if (1 <=? m) && (m <=? 12) && (1 <=? d) && (d <=? 31)
                 && (h <=? 23) && (mi <=? 59) && (sec <=? 59)
              then Some (y, m, d, h, mi, sec) else None
          | _, _, _, _, _, _ => None
          end
      | _, _ => None
      end
  | _ => None
  end.

Definition getTime (s : string) : option Z :=
  match parse s with
  | Some (y, m, d, h, mi, sec) =>
      Some ((daysFromCivil y m d * 86400 + h * 3600 + mi * 60 + sec) * 1000)
  | None => None
  end.

Definition getHours (s : string) : option Z :=
  match parse s with
  | Some (_, _, _, h, _, _) => Some h
  | None => None
  end.

(** A stand-in for the locale formatter: the pieces joined by spaces. *)
Definition toLocaleStringUTC (dateParts timeParts : list string) : string :=
  String.concat " " (dateParts ++ timeParts).

Definition Date_now (n : nat) : Z := 1772445600000 + Z.of_nat n.

End UTCHost.

(** ** Vocabulary of the specification *)

(** A slot falls within the intent's preferred time range: the three
    strings denote dates and the slot's instant lies between the two
    bounds, both included. *)
Definition withinWindow (getTime : string -> option Z) (intent : AppointmentIntent)
    (slot : string) : Prop :=
  exists t lo hi,
    getTime slot = Some t
    /\ getTime (range_start (preferredTimeRange intent)) = Some lo
    /\ getTime (range_end (preferredTimeRange intent)) = Some hi
    /\ lo <= t <= hi.



(** The sum of the delays of the lines of a transcript. *)
Fixpoint totalDelay (lines : list Receptionist.TranscriptLine) : Z :=
  match lines with
  | [] => 0
  | t :: rest => Receptionist.delay t + totalDelay rest
  end.

(** The date part and the hour that the text of a slot shows, once a zone
    designator at its end is set aside. *)
Definition dateOfText (slot : string) : string :=
  nth 0 (JS.split "T" (JS.stripZone slot)) EmptyString.

Definition hourOfText (slot : string) : option Z :=
  let clean := JS.stripZone slot in
  let timePart := if JS.includes "T" clean
                  then nth 1 (JS.split "T" clean) EmptyString
                  else "00:00:00" in
  JS.parseInt (nth 0 (JS.split ":" timePart) EmptyString).

(** The after-hours window: from 22:00 to 07:00, both hours included. *)
Definition afterHours (hour : Z) : Prop := 22 <= hour \/ hour <= 7.

(** The statements of the specification about a negotiation, for one
    directory and one host. *)
Section NegotiationStatements.
Variable directory : list Provider.
Variables todayStr tomorrowStr : string.
Variable getTime : string -> option Z.
Variable getHours : string -> option Z.
Variable toLocaleStringUTC : list string -> list string -> string.

Let call := Receptionist.simulateProviderCall directory todayStr tomorrowStr
              getTime getHours toLocaleStringUTC.
Let lookup := Receptionist.getProvider directory todayStr tomorrowStr.




(** [waitTime] is the sum of the transcript's delays, for every call. *)
Definition waitTimeIsTotalDelay : Prop :=
  forall (pid slot : string) (desc : option string) (random : Q),
    let r := call pid slot desc random in
    Receptionist.waitTime r = totalDelay (Receptionist.transcript r).

(** The reply to an unknown provider id. *)
Definition unknownProviderReply (text : string) : Prop :=
  forall (pid slot : string) (desc : option string) (random : Q),
    lookup pid = None ->
    let r := call pid slot desc random in
    Receptionist.success r = false
    /\ Receptionist.message r = text
    /\ List.length (Receptionist.transcript r) = 1%nat.
End NegotiationStatements.

(** ** Sample data *)

Module Sample.

Definition mkProvider (i n : string) (r d : Q) (slots : list string) : Provider :=
  {| id := i; name := n; phone := "+1-617-555-0100"; category := "dentist";
     rating := r; address := "1 Beacon St, Boston, MA"; distanceMiles := d;
     availableSlots := slots; metadata := None |}.

Definition brightSmile : Provider :=
  mkProvider "dent_01" "Bright Smile Dental" 5 0
    ["2026-03-02T10:00:00"; "2026-03-02T19:00:00"].

Definition harborDental : Provider :=
  mkProvider "dent_02" "Harbor Dental" (42 # 10) 2
    ["2026-03-02T19:00:00"; "2026-03-02T23:00:00"].

Definition quickFix : Provider :=
  mkProvider "dent_03" "Quick Fix Dental" (35 # 10) 3 ["2026-03-02T10:00:00Z"].

Definition directory : list Provider := [brightSmile; harborDental; quickFix].

Definition morning : AppointmentIntent :=
  {| userId := "user_1"; serviceType := "dentist"; userLocation := None;
     preferredTimeRange := {| range_start := "2026-03-02T09:00:00";
                              range_end := "2026-03-02T12:00:00" |};
     maxDistanceMiles := 10; intent_status := searching |}.

Definition today : string := "2026-03-02".
Definition tomorrow : string := "2026-03-03".

Definition getProvider := Receptionist.getProvider directory today tomorrow.

Definition simulateProviderCall :=
  Receptionist.simulateProviderCall directory today tomorrow
    UTCHost.getTime UTCHost.getHours UTCHost.toLocaleStringUTC.

(** Every race is won by the call, whose random draw is 0. *)
Definition race (pid : string) : Swarm.RaceOutcome := Swarm.CallFirst 0%Q.

(** One call at a time, stopping at the first success. *)
Definition oneByOne : Swarm.SwarmConfig :=
  {| Swarm.maxConcurrentCalls := 1; Swarm.timeoutMs := 15000;
     Swarm.stopOnFirstSuccess := true; Swarm.retryFailedCalls := false |}.

(** All calls in one batch, none cancelled. *)
Definition allAtOnce : Swarm.SwarmConfig :=
  {| Swarm.maxConcurrentCalls := 5; Swarm.timeoutMs := 15000;
     Swarm.stopOnFirstSuccess := false; Swarm.retryFailedCalls := false |}.

Definition executeSwarm (config : Swarm.SwarmConfig) :=
  Swarm.executeSwarm directory today tomorrow UTCHost.getTime UTCHost.getHours
    UTCHost.toLocaleStringUTC UTCHost.Date_now race config.

Definition settledState :=
  Swarm.settledState directory today tomorrow UTCHost.getTime UTCHost.getHours
    UTCHost.toLocaleStringUTC race.

Definition selectBestMatch :=
  Swarm.selectBestMatch directory today tomorrow UTCHost.getTime.

(** Quick Fix, then Harbor Dental, then Bright Smile. *)
Definition callOrder : list Provider := [quickFix; harborDental; brightSmile].


(** A store with Bright Smile and Harbor Dental, their slot arrays, and
    the array that lists them. *)
Definition fieldsOf (p : Provider) (slots : Store.ref) : Store.ProviderFields :=
  {| Store.f_id := id p; Store.f_name := name p; Store.f_phone := phone p;
     Store.f_category := category p; Store.f_rating := rating p;
     Store.f_address := address p; Store.f_distanceMiles := distanceMiles p;
     Store.f_availableSlots := slots; Store.f_metadata := None |}.

Definition store : Store.store :=
  [ Store.StringArray (availableSlots harborDental);
    Store.ProviderObject (fieldsOf harborDental 0%nat);
    Store.StringArray (availableSlots brightSmile);
    Store.ProviderObject (fieldsOf brightSmile 2%nat);
    Store.RefArray [1%nat; 3%nat] ].

End Sample.

(** ** More of [src/lib/rankingLogic.ts] *)

Section RankingHelpers.
Variable getTime : string -> option Z.


End RankingHelpers.

(** [batchProvidersForCalling]; the default batch size is 3. *)
Definition batchProvidersForCalling (fuel : nat) (providers : list RankedProvider)
    (batchSize : option Z) : option (list (list RankedProvider)) :=
  batchLoop fuel providers (match batchSize with Some n => n | None => 3 end) 0 [].

(** ** More of [src/lib/swarmOrchestrator.ts] *)

Module SwarmApi.


(** The [options] of [executeSwarmCalls]; the callback has no part in the
    result. *)
Record SwarmOptions := {
  maxConcurrent : option Z;
  stopOnFirstSuccess : option bool
}.

(** The configuration [executeSwarmCalls] builds:
    [{ ...DEFAULT_CONFIG, maxConcurrentCalls: options?.maxConcurrent || 5,
       stopOnFirstSuccess: options?.stopOnFirstSuccess ?? true }]. *)
Definition configOf (options : option SwarmOptions) : Swarm.SwarmConfig :=
  {| Swarm.maxConcurrentCalls :=
       match options with
       | Some opts =>
           match maxConcurrent opts with
           | Some n => if n =? 0 then 5 else n
           | None => 5
           end
       | None => 5
       end;
     Swarm.timeoutMs := Swarm.timeoutMs Swarm.DEFAULT_CONFIG;
     Swarm.stopOnFirstSuccess :=
       match options with
       | Some opts =>
           match stopOnFirstSuccess opts with
           | Some b => b
           | None => true
           end
       | None => true
       end;
     Swarm.retryFailedCalls := Swarm.retryFailedCalls Swarm.DEFAULT_CONFIG |}.

Section Api.
Variable directory : list Provider.
Variables todayStr tomorrowStr : string.
Variable getTime : string -> option Z.
Variable getHours : string -> option Z.
Variable toLocaleStringUTC : list string -> list string -> string.
Variable Date_now : nat -> Z.
Variable race : string -> Swarm.RaceOutcome.

(** [executeSwarmCalls]: no service description is passed on. *)
Definition executeSwarmCalls (fuel : nat) (providers : list Provider)
    (requestedSlot : string) (options : option SwarmOptions)
    : option (Swarm.SwarmResult * Swarm.Orchestrator) :=
  Swarm.executeSwarm directory todayStr tomorrowStr getTime getHours
    toLocaleStringUTC Date_now race (configOf options)
    fuel providers requestedSlot None.

End Api.

End SwarmApi.

(** ** [simulateSwarmCalls] of [src/lib/receptionistSimulator.ts] *)

Module SwarmCalls.

(** An element of [results]: the result of a call, or the object made for
    an id that is not found, which has the fields [success] (false),
    [providerId], [providerName], [message] and [waitTime], and no
    transcript. *)
Inductive Outcome :=
| NotFound (providerId : string)
| Called (r : Receptionist.CallResult).

Definition success (x : Outcome) : bool :=
  match x with
  | NotFound _ => false
  | Called r => Receptionist.success r
  end.

Definition providerId (x : Outcome) : string :=
  match x with
  | NotFound pid => pid
  | Called r => Receptionist.providerId r
  end.

Definition providerName (x : Outcome) : string :=
  match x with
  | NotFound _ => "Unknown"
  | Called r => Receptionist.providerName r
  end.

Definition message (x : Outcome) : string :=
  match x with
  | NotFound _ => "Provider not found"
  | Called r => Receptionist.message r
  end.

Definition waitTime (x : Outcome) : Z :=
  match x with
  | NotFound _ => 500
  | Called r => Receptionist.waitTime r
  end.

Definition bookedSlot (x : Outcome) : option string :=
  match x with
  | NotFound _ => None
  | Called r => Receptionist.bookedSlot r
  end.

Record SwarmCallsResult := {
  results : list Outcome;
  bestMatch : option Outcome;
  totalDuration : Z
}.

Section Simulation.
Variable directory : list Provider.
Variables todayStr tomorrowStr : string.
Variable getTime : string -> option Z.
Variable getHours : string -> option Z.
Variable toLocaleStringUTC : list string -> list string -> string.
Variable Date_now : nat -> Z.
(** The value [Math.random()] yields in the call to the provider at an
    index of [providerIds]. *)
Variable randomAt : nat -> Q.

Definition getProvider := Receptionist.getProvider directory todayStr tomorrowStr.

Definition simulateProviderCall :=
  Receptionist.simulateProviderCall directory todayStr tomorrowStr
    getTime getHours toLocaleStringUTC.

(** The predicate of the [find] for a slot within the time range. *)
Definition inRange (preferredTimeRange : TimeRange) (slot : string) : bool :=
  let rangeStart := getTime (range_start preferredTimeRange) in
  let rangeEnd := getTime (range_end preferredTimeRange) in
  let slotTime := getTime slot in
  JS.num_ge slotTime rangeStart && JS.num_le slotTime rangeEnd.

(** The slot a provider is asked for: its first slot within the range, or
    the start of the range. *)
Definition slotToRequest (preferredTimeRange : TimeRange) (p : Provider) : string :=
  match find (inRange preferredTimeRange) (availableSlots p) with
  | Some matchingSlot =>
      if Receptionist.truthy matchingSlot then matchingSlot
      else range_start preferredTimeRange
  | None => range_start preferredTimeRange
  end.

(** The callback of [providerIds.map]. *)
Definition callOne (preferredTimeRange : TimeRange)
    (serviceDescription : option string) (index : nat) (pid : string) : Outcome :=
  match getProvider pid with
  | None => NotFound pid
  | Some p =>
      Called (simulateProviderCall pid (slotToRequest preferredTimeRange p)
                serviceDescription (randomAt index))
  end.

Fixpoint mapFrom {A B} (f : nat -> A -> B) (index : nat) (xs : list A) : list B :=
  match xs with
  | [] => []
  | x :: rest => f index x :: mapFrom f (S index) rest
  end.

(** [new Date(r.bookedSlot!).getTime()] *)
Definition bookedTime (x : Outcome) : option Z :=
  match bookedSlot x with
  | Some slot => getTime slot
  | None => None
  end.

(** The callback of [successfulResults.reduce]. *)
Definition better (best current : Outcome) : Outcome :=
  match getProvider (providerId best), getProvider (providerId current) with
  | Some bestProvider, Some currentProvider =>
      let bestTime := bookedTime best in
      let currentTime := bookedTime current in
      if JS.num_lt currentTime bestTime then current
      else if match currentTime, bestTime with
              | Some c, Some b => c =? b
              | _, _ => false
              end
              && negb (Qle_bool (rating currentProvider) (rating bestProvider))
      then current
      else best
  | _, _ => best
  end.

Definition simulateSwarmCalls (providerIds : list string)
    (preferredTimeRange : TimeRange) (serviceDescription : option string)
    : SwarmCallsResult :=
  let startTime := Date_now 0%nat in
  let results := mapFrom (callOne preferredTimeRange serviceDescription) 0 providerIds in
  let totalDuration := Date_now 1%nat - startTime in
  let successfulResults := filter success results in
  let bestMatch :=
    match successfulResults with
    | [] => None
    | first :: rest => Some (fold_left better rest first)
    end in
  {| results := results; bestMatch := bestMatch; totalDuration := totalDuration |}.

End Simulation.

End SwarmCalls.

(** ** The webhook ([src/app/api/elevenlabs/route.ts]) *)

Module Webhook.

(** [stripTzSuffix]: the same regular expression as in [formatSlot]. *)
Definition stripTzSuffix (dt : string) : string := JS.stripZone dt.

Record SwarmCallLine := {
  provider_id : string;
  provider_name : string;
  line_success : bool;
  booked_slot : option string;
  booked_slot_iso : option string;
  line_message : string
}.

Record BestMatchLine := {
  best_provider_id : string;
  best_provider_name : string;
  best_booked_slot : string;
  best_booked_slot_iso : string
}.

Record SwarmResponse := {
  swarm_completed : bool;
  total_calls : nat;
  successful_bookings : nat;
  failed_or_unavailable : nat;
  total_duration_ms : Z;
  response_results : list SwarmCallLine;
  best_match : option BestMatchLine;
  recommendation : string;
  next_action : string
}.

Record AlternativeLine := {
  display : string;
  iso : string
}.

Record ProviderLine := {
  line_id : string;
  line_name : string;
  line_phone : option string;
  line_address : option string
}.

Record ProviderCallResponse := {
  call_completed : bool;
  call_success : bool;
  call_provider : ProviderLine;
  requested_slot : string;
  call_booked_slot : option string;
  call_booked_slot_iso : option string;
  alternative_slots : option (list AlternativeLine);
  receptionist_response : string;
  call_duration_ms : Z;
  call_next_action : string
}.

Section Handlers.
Variable directory : list Provider.
Variables todayStr tomorrowStr : string.
Variable getTime : string -> option Z.
Variable getHours : string -> option Z.
Variable toLocaleStringUTC : list string -> list string -> string.
(** The formatter of [formatForUser]: as for [formatSlot], with the year. *)
Variable toLocaleStringYear : list string -> list string -> string.
Variable Date_now : nat -> Z.
Variable randomAt : nat -> Q.

Definition formatForUser (dt : string) : string :=
  let clean := stripTzSuffix dt in
  let parts := JS.split "T" clean in
  let datePart := nth 0 parts EmptyString in
  let timePart := match nth_error parts 1 with
                  | Some t => t
                  | None => "00:00:00"
                  end in
  toLocaleStringYear (JS.split "-" datePart) (JS.split ":" timePart).

(** [r.bookedSlot ? f(r.bookedSlot) : null] *)
Definition whenBooked (slot : option string) (f : string -> string) : option string :=
  match slot with
  | Some s => if Receptionist.truthy s then Some (f s) else None
  | None => None
  end.

(** [handleSwarmCalls].  [formatForUser(bestMatch.bookedSlot!)] calls
    [replace] on its argument: with a best match whose [bookedSlot] is
    missing it throws, which is the result [None]. *)
Definition handleSwarmCalls (provider_ids : list string)
    (preferred_time_range : TimeRange) (service_description : option string)
    : option SwarmResponse :=
  let outcome :=
    SwarmCalls.simulateSwarmCalls directory todayStr tomorrowStr getTime getHours
      toLocaleStringUTC Date_now randomAt
      provider_ids preferred_time_range service_description in
  let results := SwarmCalls.results outcome in
  let bestMatch := SwarmCalls.bestMatch outcome in
  let successCount := List.length (filter SwarmCalls.success results) in
  let failCount := List.length (filter (fun r => negb (SwarmCalls.success r)) results) in
  let lines :=
    map (fun r =>
           {| provider_id := SwarmCalls.providerId r;
              provider_name := SwarmCalls.providerName r;
              line_success := SwarmCalls.success r;
              booked_slot := whenBooked (SwarmCalls.bookedSlot r) formatForUser;
              booked_slot_iso := whenBooked (SwarmCalls.bookedSlot r) stripTzSuffix;
              line_message := SwarmCalls.message r |}) results in
  match bestMatch with
  | Some b =>
      match SwarmCalls.bookedSlot b with
      | Some slot =>
          Some {| swarm_completed := true;
                  total_calls := List.length provider_ids;
                  successful_bookings := successCount;
                  failed_or_unavailable := failCount;
                  total_duration_ms := SwarmCalls.totalDuration outcome;
                  response_results := lines;
                  best_match :=
                    Some {| best_provider_id := SwarmCalls.providerId b;
                            best_provider_name := SwarmCalls.providerName b;
                            best_booked_slot := formatForUser slot;
                            best_booked_slot_iso := stripTzSuffix slot |};
                  recommendation :=
                    "I was able to book at " ++ SwarmCalls.providerName b ++ " for "
                    ++ formatForUser slot ++ ". This was the earliest available slot.";
                  next_action :=
                    "Use confirm_booking to finalize the best match and add to calendar" |}
      | None => None
      end
  | None =>
      Some {| swarm_completed := true;
              total_calls := List.length provider_ids;
              successful_bookings := successCount;
              failed_or_unavailable := failCount;
              total_duration_ms := SwarmCalls.totalDuration outcome;
              response_results := lines;
              best_match := None;
              recommendation :=
                "Unfortunately, none of the providers had availability in your preferred time range. Would you like to try different times?";
              next_action := "Expand time range or try different providers" |}
  end.

(** [handleProviderCall]; [random] is the value [Math.random()] yields in
    the call. *)
Definition handleProviderCall (pid requestedSlot : string)
    (service_description : option string) (random : Q) : ProviderCallResponse :=
  let result :=
    Receptionist.simulateProviderCall directory todayStr tomorrowStr getTime getHours
      toLocaleStringUTC pid requestedSlot service_description random in
  let provider := Receptionist.getProvider directory todayStr tomorrowStr pid in
  {| call_completed := true;
     call_success := Receptionist.success result;
     call_provider :=
       {| line_id := pid;
          line_name := Receptionist.providerName result;
          line_phone := option_map phone provider;
          line_address := option_map address provider |};
     requested_slot := formatForUser requestedSlot;
     call_booked_slot := whenBooked (Receptionist.bookedSlot result) formatForUser;
     call_booked_slot_iso := whenBooked (Receptionist.bookedSlot result) stripTzSuffix;
     alternative_slots :=
       option_map (map (fun s => {| display := formatForUser s;
                                    iso := stripTzSuffix s |}))
         (Receptionist.alternativeSlots result);
     receptionist_response := Receptionist.message result;
     call_duration_ms := Receptionist.waitTime result;
     call_next_action :=
       if Receptionist.success result
       then "Use confirm_booking to finalize and add to calendar"
       else if match Receptionist.alternativeSlots result with
               | Some alts => negb (Nat.eqb (List.length alts) 0)
               | None => false
               end
            then "Ask user about alternative slots or try next provider"
            else "Try the next provider in the list" |}.

End Handlers.

End Webhook.

(** ** Vocabulary of the further properties *)

(** [batches] cuts [items] into consecutive batches of [size] elements,
    the last one possibly shorter and none empty. *)
Definition chunked {T} (size : Z) (items : list T) (batches : list (list T)) : Prop :=
  List.concat batches = items
  /\ Forall (fun b => b <> [] /\ Z.of_nat (List.length b) <= size) batches
  /\ (forall j b, nth_error batches j = Some b -> (S j < List.length batches)%nat ->
                  Z.of_nat (List.length b) = size)
  /\ (items <> [] ->
      Z.of_nat (List.length items) <= Z.of_nat (List.length batches) * size
      /\ Z.of_nat (List.length batches) * size < Z.of_nat (List.length items) + size).

(** The three sample providers called at once for the sample morning,
    every random draw being 0; and the best match of these calls. *)
Definition sampleSwarmCalls : SwarmCalls.SwarmCallsResult :=
  SwarmCalls.simulateSwarmCalls Sample.directory Sample.today Sample.tomorrow
    UTCHost.getTime UTCHost.getHours UTCHost.toLocaleStringUTC UTCHost.Date_now
    (fun _ => 0%Q) ["dent_03"; "dent_02"; "dent_01"]
    (preferredTimeRange Sample.morning) None.

Definition sampleBest : SwarmCalls.Outcome :=
  Eval vm_compute in
    match SwarmCalls.bestMatch sampleSwarmCalls with
    | Some b => b
    | None => SwarmCalls.NotFound EmptyString
    end.



(** * Properties *)


(** ** String helpers, on examples *)

Example stripZone_examples :
  JS.stripZone "2026-03-02T10:00:00.000Z" = "2026-03-02T10:00:00"
  /\ JS.stripZone "2026-03-02T10:00:00-05:00" = "2026-03-02T10:00:00"
  /\ JS.stripZone "2026-03-02T10:00:00" = "2026-03-02T10:00:00"
  /\ JS.replace "Z" "" "2026-03-02T10:00:00Z" = "2026-03-02T10:00:00"
  /\ JS.split "T" "2026-03-02T10:00:00" = ["2026-03-02"; "10:00:00"]
  /\ JS.parseInt "19" = Some 19
  /\ JS.parseInt "xx" = None
  /\ JS.replace "{n}" "a$&b" "hi {n}!" = "hi a{n}b!".
Proof. repeat split; reflexivity. Qed.

(** ** Ranking *)


Lemma slotInRange_spec getTime intent slot :
  slotInRange getTime intent slot = true <-> withinWindow getTime intent slot.
Proof.
  unfold slotInRange, withinWindow, JS.num_ge, JS.num_le.
  destruct (getTime slot) as [t |],
           (getTime (range_start (preferredTimeRange intent))) as [lo |],
           (getTime (range_end (preferredTimeRange intent))) as [hi |];
    cbn; split; intro H;
    try discriminate;
    try (destruct H as (t' & lo' & hi' & H1 & H2 & H3 & H4); discriminate).
  - apply andb_true_iff in H. destruct H as [H1 H2].
    apply Z.leb_le in H1, H2. exists t, lo, hi. repeat split; auto.
  - destruct H as (t' & lo' & hi' & H1 & H2 & H3 & H4 & H5).
    injection H1 as <-. injection H2 as <-. injection H3 as <-.
    apply andb_true_iff. split; now apply Z.leb_le.
  - rewrite andb_false_r in H. discriminate.
Qed.




(** *** Sorting by score *)


Lemma sort_insert_perm {A} (cmp : A -> A -> Q) (x : A) (l : list A) :
  Permutation (sort_insert cmp x l) (x :: l).
Proof.
  induction l as [| y rest IH]; cbn; [reflexivity |].
  destruct (Qle_bool (cmp x y) 0); [reflexivity |].
  rewrite IH. apply perm_swap.
Qed.

Lemma Array_sort_perm {A} (cmp : A -> A -> Q) (l : list A) :
  Permutation (Array_sort cmp l) l.
Proof.
  induction l as [| x rest IH]; cbn; [constructor |].
  rewrite sort_insert_perm. now constructor.
Qed.






(** ** Receptionist simulator *)

Section SimulatorProperties.
Variable directory : list Provider.
Variables todayStr tomorrowStr : string.
Variable getTime : string -> option Z.
Variable getHours : string -> option Z.
Variable toLocaleStringUTC : list string -> list string -> string.

Let getProvider := Receptionist.getProvider directory todayStr tomorrowStr.
Let simulateProviderCall :=
  Receptionist.simulateProviderCall directory todayStr tomorrowStr
    getTime getHours toLocaleStringUTC.

Lemma sumDelays_from (lines : list Receptionist.TranscriptLine) (start : Z) :
  fold_left (fun sum t => sum + Receptionist.delay t) lines start
  = start + totalDelay lines.
Proof.
  revert start. induction lines as [| t rest IH]; intro start; cbn.
  - lia.
  - rewrite IH. lia.
Qed.

Lemma sumDelays_totalDelay (lines : list Receptionist.TranscriptLine) :
  Receptionist.sumDelays lines = totalDelay lines.
Proof. unfold Receptionist.sumDelays. now rewrite sumDelays_from. Qed.

(** The three results a call to a known provider can end in. *)
Lemma simulateProviderCall_known (pid slot : string) (desc : option string)
    (random : Q) (p : Provider) :
  getProvider pid = Some p ->
  let r := simulateProviderCall pid slot desc random in
  Receptionist.waitTime r = Receptionist.sumDelays (Receptionist.transcript r)
  /\ ((Receptionist.success r = true
       /\ Receptionist.alternativeSlots r = None
       /\ JS.num_ge (getHours slot) (Some 22) || JS.num_le (getHours slot) (Some 7) = false
       /\ exists s, find (Receptionist.withinFlexibility getTime (getTime slot))
                      (availableSlots p) = Some s
                    /\ Receptionist.bookedSlot r = Some (JS.replace "Z" "" s))
      \/ (Receptionist.success r = false
          /\ Receptionist.bookedSlot r = None
          /\ exists s0 rest, availableSlots p = s0 :: rest
               /\ Receptionist.alternativeSlots r
                  = Some [Receptionist.alternativeFor s0])
      \/ (Receptionist.success r = false
          /\ Receptionist.bookedSlot r = None
          /\ availableSlots p = []
          /\ Receptionist.alternativeSlots r = None)).
Proof.
  intros Hp r. subst r. unfold simulateProviderCall, Receptionist.simulateProviderCall.
  fold getProvider. rewrite Hp.
  destruct (JS.num_ge (getHours slot) (Some 22) || JS.num_le (getHours slot) (Some 7))
    eqn:Hh.
  - cbn match. destruct (availableSlots p) as [| s0 rest] eqn:Hs.
    + split; [reflexivity |]. right. right. cbn. auto.
    + split; [reflexivity |]. right. left. cbn. repeat split; eauto.
  - destruct (find (Receptionist.withinFlexibility getTime (getTime slot))
                (availableSlots p)) as [s |] eqn:Hf.
    + destruct (Receptionist.truthy s
                && negb (Qle_bool
                           (Receptionist.availabilityRate
                              (Receptionist.PERSONALITIES
                                 (Receptionist.personalityOf (rating p))) + (1 # 10))
                           random)) eqn:Hd.
      * split; [reflexivity |]. left. cbn. repeat split; eauto.
      * cbn match. destruct (availableSlots p) as [| s0 rest] eqn:Hs.
        -- split; [reflexivity |]. right. right. cbn. auto.
        -- split; [reflexivity |]. right. left. cbn. repeat split; eauto.
    + cbn match. destruct (availableSlots p) as [| s0 rest] eqn:Hs.
      * split; [reflexivity |]. right. right. cbn. auto.
      * split; [reflexivity |]. right. left. cbn. repeat split; eauto.
Qed.

Lemma simulateProviderCall_unknown (pid slot : string) (desc : option string)
    (random : Q) :
  getProvider pid = None ->
  simulateProviderCall pid slot desc random
  = {| Receptionist.success := false;
       Receptionist.providerId := pid;
       Receptionist.providerName := "Unknown";
       Receptionist.message := "Provider not found in directory";
       Receptionist.bookedSlot := None;
       Receptionist.alternativeSlots := None;
       Receptionist.waitTime := 500;
       Receptionist.transcript :=
         [ {| Receptionist.role := Receptionist.receptionist;
              Receptionist.line_message := "Unknown provider";
              Receptionist.delay := 0 |} ] |}.
Proof.
  intro Hp. unfold simulateProviderCall, Receptionist.simulateProviderCall.
  fold getProvider. now rewrite Hp.
Qed.


Lemma alternativeFor_spec (slot0 : string) :
  let unzoned := JS.replace "Z" "" slot0 in
  match hourOfText unzoned with
  | Some h =>
      (h < 8 \/ 18 < h ->
       Receptionist.alternativeFor slot0 = dateOfText unzoned ++ "T10:00:00")
      /\ (8 <= h <= 18 -> Receptionist.alternativeFor slot0 = unzoned)
  | None => Receptionist.alternativeFor slot0 = unzoned
  end.
Proof.
  unfold Receptionist.alternativeFor, hourOfText, dateOfText. cbn zeta.
  destruct (JS.parseInt _) as [h |]; [| reflexivity].
  unfold JS.num_gt, JS.num_lt.
  destruct (h <? 8) eqn:E1; destruct (18 <? h) eqn:E2; cbn [orb];
    try apply Z.ltb_lt in E1; try apply Z.ltb_lt in E2;
    try apply Z.ltb_ge in E1; try apply Z.ltb_ge in E2;
    split; intro H; try reflexivity; lia.
Qed.


(** C6. Whatever the provider and the random draw, a request whose local
    hour lies in the after-hours window is not booked. *)
Theorem after_hours_never_succeeds :
  forall (pid slot : string) (desc : option string) (random : Q) (hour : Z),
    getHours slot = Some hour ->
    afterHours hour ->
    Receptionist.success (simulateProviderCall pid slot desc random) = false.
Proof.
  intros pid slot desc random hour Hh Hwin.
  destruct (getProvider pid) as [p |] eqn:Hp.
  - destruct (simulateProviderCall_known pid slot desc random p Hp)
      as [_ [(_ & _ & Hno & _) | [(Hs & _) | (Hs & _)]]]; try exact Hs.
    exfalso. rewrite Hh in Hno. unfold JS.num_ge, JS.num_le in Hno.
    apply orb_false_iff in Hno. destruct Hno as [H1 H2].
    apply Z.leb_gt in H1, H2. unfold afterHours in Hwin. lia.
  - now rewrite (simulateProviderCall_unknown pid slot desc random Hp).
Qed.

(** C7, as the code has it.  For a provider that is found, [waitTime] is
    the sum of the delays of the transcript returned with it; for an
    unknown provider [waitTime] is 500 and the only line has delay 0. *)
Theorem waitTime_sums_delays :
  forall (pid slot : string) (desc : option string) (random : Q),
    let r := simulateProviderCall pid slot desc random in
    (forall p, getProvider pid = Some p ->
               Receptionist.waitTime r = totalDelay (Receptionist.transcript r))
    /\ (getProvider pid = None ->
        Receptionist.waitTime r = 500
        /\ totalDelay (Receptionist.transcript r) = 0).
Proof.
  intros pid slot desc random r. split.
  - intros p Hp.
    destruct (simulateProviderCall_known pid slot desc random p Hp) as [Hw _].
    fold r in Hw. now rewrite Hw, sumDelays_totalDelay.
  - intro Hp. unfold r.
    now rewrite (simulateProviderCall_unknown pid slot desc random Hp).
Qed.

(** C8, as the code has it.  For an unknown provider id the call returns
    a result (nothing is thrown): [success] is false, the message is
    "Provider not found in directory", and the transcript has one line. *)
Theorem unknown_provider_result :
  forall (pid slot : string) (desc : option string) (random : Q),
    getProvider pid = None ->
    let r := simulateProviderCall pid slot desc random in
    Receptionist.success r = false
    /\ Receptionist.message r = "Provider not found in directory"
    /\ List.length (Receptionist.transcript r) = 1%nat.
Proof.
  intros pid slot desc random Hp r. unfold r.
  now rewrite (simulateProviderCall_unknown pid slot desc random Hp).
Qed.

(** An id is unknown exactly when the directory has no provider of that
    id and the id does not start with [synth_]. *)
Lemma getProvider_None_iff (pid : string) :
  getProvider pid = None
  <-> (forall p, In p directory -> id p <> pid) /\ JS.startsWith "synth_" pid = false.
Proof.
  unfold getProvider, Receptionist.getProvider.
  destruct (find (fun p => String.eqb (id p) pid) directory) as [q |] eqn:Hf.
  - split; [discriminate |]. intros [Hall _]. exfalso.
    apply find_some in Hf. destruct Hf as [Hin He].
    apply String.eqb_eq in He. exact (Hall q Hin He).
  - destruct (JS.startsWith "synth_" pid) eqn:Hs.
    + split; [discriminate | intros [_ H]; discriminate].
    + split; [| reflexivity]. intros _. split; [| reflexivity].
      intros p Hin He. apply (find_none _ _ Hf) in Hin.
      apply String.eqb_neq in Hin. contradiction.
Qed.

End SimulatorProperties.

(** *** The simulator on the sample directory *)



Example booking_drops_Z :
  let r := Sample.simulateProviderCall "dent_03" "2026-03-02T10:00:00" None 0%Q in
  Receptionist.success r = true
  /\ Receptionist.bookedSlot r = Some "2026-03-02T10:00:00"
  /\ availableSlots Sample.quickFix = ["2026-03-02T10:00:00Z"].
Proof. repeat split; reflexivity. Qed.

Lemma after_hours_never_succeeds_witness :
  Receptionist.success
    (Sample.simulateProviderCall "dent_02" "2026-03-02T23:00:00" None 0%Q) = false.
Proof.
  apply (after_hours_never_succeeds Sample.directory Sample.today Sample.tomorrow
           UTCHost.getTime UTCHost.getHours UTCHost.toLocaleStringUTC
           "dent_02" "2026-03-02T23:00:00" None 0%Q 23).
  - reflexivity.
  - left. lia.
Defined.

Lemma waitTime_sums_delays_witness :
  Receptionist.waitTime
    (Sample.simulateProviderCall "dent_01" "2026-03-02T10:30:00" None (1 # 2))
  = totalDelay
      (Receptionist.transcript
         (Sample.simulateProviderCall "dent_01" "2026-03-02T10:30:00" None (1 # 2))).
Proof.
  apply (proj1 (waitTime_sums_delays Sample.directory Sample.today Sample.tomorrow
                  UTCHost.getTime UTCHost.getHours UTCHost.toLocaleStringUTC
                  "dent_01" "2026-03-02T10:30:00" None (1 # 2)) Sample.brightSmile).
  reflexivity.
Defined.

(** The claim C7 as worded fails for an unknown id: [waitTime] is 500 and
    the delays of the transcript add up to 0. *)
Lemma waitTimeIsTotalDelay_counterexample :
  ~ waitTimeIsTotalDelay Sample.directory Sample.today Sample.tomorrow
      UTCHost.getTime UTCHost.getHours UTCHost.toLocaleStringUTC.
Proof.
  intro H. specialize (H "nobody" "2026-03-02T10:00:00" None 0%Q).
  cbn in H. discriminate.
Qed.

Lemma unknown_provider_result_witness :
  Receptionist.message
    (Sample.simulateProviderCall "nobody" "2026-03-02T10:00:00" None 0%Q)
  = "Provider not found in directory".
Proof.
  apply (unknown_provider_result Sample.directory Sample.today Sample.tomorrow
           UTCHost.getTime UTCHost.getHours UTCHost.toLocaleStringUTC
           "nobody" "2026-03-02T10:00:00" None 0%Q).
  reflexivity.
Defined.

(** The claim C8 as worded fails on the message text. *)
Lemma unknownProviderReply_counterexample :
  ~ unknownProviderReply Sample.directory Sample.today Sample.tomorrow
      UTCHost.getTime UTCHost.getHours UTCHost.toLocaleStringUTC
      "Provider not found".
Proof.
  intro H.
  destruct (H "nobody" "2026-03-02T10:00:00" None 0%Q eq_refl) as (_ & Hm & _).
  cbn in Hm. discriminate.
Qed.

(** ** Swarm orchestrator *)

Section BestMatch.
Variable directory : list Provider.
Variables todayStr tomorrowStr : string.
Variable getTime : string -> option Z.

Let bookedTime := Swarm.bookedTime getTime.
Let ratingOf := Swarm.ratingOf directory todayStr tomorrowStr.
Let bestCompare := Swarm.bestCompare directory todayStr tomorrowStr getTime.
Let selectBestMatch := Swarm.selectBestMatch directory todayStr tomorrowStr getTime.
Let wellBooked := Swarm.wellBooked getTime.
Let tiesWith := Swarm.tiesWith directory todayStr tomorrowStr getTime.
Let firstBest := Swarm.firstBest directory todayStr tomorrowStr getTime.

Let atLeastAsGood := Swarm.atLeastAsGood directory todayStr tomorrowStr getTime.











End BestMatch.

(** *** Status maps *)







(** *** Batches *)

Lemma slice_window {T} (items : list T) (i size : Z) :
  0 <= i < Z.of_nat (List.length items) -> 0 < size ->
  (JS.slice items i (i + size) ++ skipn (Z.to_nat (i + size)) items)%list
  = skipn (Z.to_nat i) items.
Proof.
  intros Hi Hs. unfold JS.slice.
  replace (i <? 0) with false by (symmetry; apply Z.ltb_ge; lia).
  replace (i + size <? 0) with false by (symmetry; apply Z.ltb_ge; lia).
  rewrite (Z.min_l i) by lia.
  set (len := Z.of_nat (List.length items)) in *.
  destruct (Z.le_gt_cases (i + size) len) as [Hle | Hgt].
  - rewrite Z.min_l by lia.
    replace (Z.to_nat (i + size)) with (Z.to_nat (i + size - i) + Z.to_nat i)%nat by lia.
    rewrite <- skipn_skipn. apply firstn_skipn.
  - rewrite Z.min_r by lia.
    rewrite (@skipn_all2 _ (Z.to_nat (i + size)) items) by (unfold len in *; lia).
    rewrite app_nil_r. apply firstn_all2.
    rewrite length_skipn. unfold len in *. lia.
Qed.

Lemma batchLoop_concat {T} (fuel : nat) :
  forall (items : list T) (size i : Z) (acc r : list (list T)),
    0 < size -> 0 <= i ->
    batchLoop fuel items size i acc = Some r ->
    exists batches, r = (acc ++ batches)%list
                    /\ List.concat batches = skipn (Z.to_nat i) items.
Proof.
  induction fuel as [| fuel IH]; intros items size i acc r Hs Hi; cbn; [discriminate |].
  destruct (i <? Z.of_nat (List.length items)) eqn:E.
  - apply Z.ltb_lt in E. intro H.
    assert (Hi' : 0 <= i + size) by lia.
    destruct (IH _ _ _ _ _ Hs Hi' H) as (batches & -> & Hc).
    exists (JS.slice items i (i + size) :: batches). split.
    + now rewrite <- app_assoc.
    + cbn [List.concat]. rewrite Hc. apply slice_window; lia.
  - apply Z.ltb_ge in E. intro H. injection H as <-. exists []. split.
    + now rewrite app_nil_r.
    + cbn. symmetry. apply skipn_all2. lia.
Qed.

Lemma batchLoop_terminates {T} (fuel : nat) :
  forall (items : list T) (size i : Z) (acc : list (list T)),
    0 < size -> 0 <= i ->
    (Z.to_nat (Z.of_nat (List.length items) - i) < fuel)%nat ->
    exists r, batchLoop fuel items size i acc = Some r.
Proof.
  induction fuel as [| fuel IH]; intros items size i acc Hs Hi Hf; [lia |]. cbn.
  destruct (i <? Z.of_nat (List.length items)) eqn:E; [| eauto].
  apply Z.ltb_lt in E. apply IH; lia.
Qed.




(** *** One run of the orchestrator *)

Section SwarmRun.
Variable directory : list Provider.
Variables todayStr tomorrowStr : string.
Variable getTime : string -> option Z.
Variable getHours : string -> option Z.
Variable toLocaleStringUTC : list string -> list string -> string.
Variable Date_now : nat -> Z.
Variable race : string -> Swarm.RaceOutcome.
Variable config : Swarm.SwarmConfig.
Variable requestedSlot : string.
Variable serviceDescription : option string.
Variable keys : list string.
Hypothesis keys_distinct : NoDup keys.

Let launchCall := Swarm.launchCall Date_now.
Let settleCall :=
  Swarm.settleCall directory todayStr tomorrowStr getTime getHours
    toLocaleStringUTC Date_now race requestedSlot serviceDescription.
Let executeBatch :=
  Swarm.executeBatch directory todayStr tomorrowStr getTime getHours
    toLocaleStringUTC Date_now race requestedSlot serviceDescription.
Let runBatches :=
  Swarm.runBatches directory todayStr tomorrowStr getTime getHours
    toLocaleStringUTC Date_now race config requestedSlot serviceDescription.
Let launchedBatches :=
  Swarm.launchedBatches directory todayStr tomorrowStr getTime getHours
    toLocaleStringUTC race config requestedSlot serviceDescription.
Let tracks :=
  Swarm.tracks directory todayStr tomorrowStr getTime getHours
    toLocaleStringUTC race requestedSlot serviceDescription keys.








Lemma CallState_eqb_true (a b : Swarm.CallState) :
  Swarm.CallState_eqb a b = true <-> a = b.
Proof. destruct a, b; cbn; split; congruence. Qed.








End SwarmRun.



Section SwarmResults.
Variable directory : list Provider.
Variables todayStr tomorrowStr : string.
Variable getTime : string -> option Z.
Variable getHours : string -> option Z.
Variable toLocaleStringUTC : list string -> list string -> string.
Variable Date_now : nat -> Z.
Variable race : string -> Swarm.RaceOutcome.
Variable config : Swarm.SwarmConfig.
Variable requestedSlot : string.
Variable serviceDescription : option string.

Let launchedBatches :=
  Swarm.launchedBatches directory todayStr tomorrowStr getTime getHours
    toLocaleStringUTC race config requestedSlot serviceDescription.
Let executeSwarm :=
  Swarm.executeSwarm directory todayStr tomorrowStr getTime getHours
    toLocaleStringUTC Date_now race config.
Let tracks :=
  Swarm.tracks directory todayStr tomorrowStr getTime getHours
    toLocaleStringUTC race requestedSlot serviceDescription.


(** The best match of a run is [selectBestMatch] of the statuses the run
    returns. *)
Lemma executeSwarm_bestMatch (fuel : nat) (providers : list Provider)
    (res : Swarm.SwarmResult) (o : Swarm.Orchestrator) :
  executeSwarm fuel providers requestedSlot serviceDescription = Some (res, o) ->
  Swarm.bestMatch res
  = Swarm.selectBestMatch directory todayStr tomorrowStr getTime (Swarm.callStatuses res).
Proof.
  unfold executeSwarm, Swarm.executeSwarm.
  destruct (Swarm.createBatches fuel providers (Swarm.maxConcurrentCalls config));
    [| discriminate].
  intros [= <- _]. reflexivity.
Qed.



End SwarmResults.

(** *** What a successful status carries *)

Lemma Map_set_Forall (P : Swarm.SwarmCallStatus -> Prop) (m : Swarm.StatusMap)
    (k : string) (v : Swarm.SwarmCallStatus) :
  Forall P (Swarm.Map_values m) -> P v ->
  Forall P (Swarm.Map_values (Swarm.Map_set m k v)).
Proof.
  unfold Swarm.Map_values. intros Hm Hv.
  induction m as [| [k0 v0] rest IH]; cbn.
  - repeat constructor. exact Hv.
  - inversion Hm as [| ? ? Hv0 Hrest]; subst.
    destruct (String.eqb k0 k); cbn; constructor; auto.
Qed.

Section SuccessfulStatuses.
Variable directory : list Provider.
Variables todayStr tomorrowStr : string.
Variable getTime : string -> option Z.
Variable getHours : string -> option Z.
Variable toLocaleStringUTC : list string -> list string -> string.
Variable Date_now : nat -> Z.
Variable race : string -> Swarm.RaceOutcome.
Variable config : Swarm.SwarmConfig.
Variable requestedSlot : string.
Variable serviceDescription : option string.

Let good :=
  Swarm.bookedByCall directory todayStr tomorrowStr getTime getHours
    toLocaleStringUTC requestedSlot serviceDescription.
Let sound (o : Swarm.Orchestrator) : Prop :=
  Forall good (Swarm.Map_values (Swarm.statuses o)).

Lemma updateStatus_sound (o : Swarm.Orchestrator) (v : Swarm.SwarmCallStatus) :
  sound o -> good v -> sound (Swarm.updateStatus o v).
Proof. intros Ho Hv. unfold sound. cbn. now apply Map_set_Forall. Qed.

Lemma launchCall_sound (o : Swarm.Orchestrator) (p : Provider) :
  sound o -> sound (Swarm.launchCall Date_now o p).
Proof.
  intro Ho. unfold Swarm.launchCall.
  destruct (Swarm.Map_get (Swarm.statuses o) (id p)) as [s |]; [| exact Ho].
  apply updateStatus_sound; [exact Ho |]. intro H. discriminate H.
Qed.

Lemma settleCall_sound (o : Swarm.Orchestrator) (p : Provider) :
  sound o ->
  sound (Swarm.settleCall directory todayStr tomorrowStr getTime getHours
           toLocaleStringUTC Date_now race requestedSlot serviceDescription o p).
Proof.
  intro Ho. unfold Swarm.settleCall.
  destruct (Swarm.Map_get (Swarm.statuses o) (id p)) as [s |]; [| exact Ho].
  destruct (race (id p)) as [| random].
  - apply updateStatus_sound; [exact Ho |]. intro H. discriminate H.
  - apply updateStatus_sound; [exact Ho |]. intro H. cbn in H.
    exists (id p), random. cbn [Swarm.result]. split; [reflexivity |].
    unfold Swarm.simulateProviderCall in *.
    destruct (Receptionist.success _); [reflexivity | discriminate H].
Qed.

Lemma fold_sound {A} (step : Swarm.Orchestrator -> A -> Swarm.Orchestrator)
    (xs : list A) :
  (forall o x, sound o -> sound (step o x)) ->
  forall o, sound o -> sound (fold_left step xs o).
Proof.
  intro Hstep. induction xs as [| x rest IH]; intros o Ho; cbn; [exact Ho |].
  apply IH, Hstep, Ho.
Qed.

Lemma cancelRemainingCalls_sound (o : Swarm.Orchestrator) :
  sound o -> sound (Swarm.cancelRemainingCalls o).
Proof.
  intro Ho. unfold Swarm.cancelRemainingCalls, sound. cbn [Swarm.statuses].
  apply (fold_sound _ (Swarm.statuses o)); [| exact Ho].
  intros acc entry Hacc.
  destruct (Swarm.Map_get (Swarm.statuses acc) (fst entry)) as [s |]; [| exact Hacc].
  destruct (Swarm.CallState_eqb (Swarm.status s) Swarm.pending); [| exact Hacc].
  apply updateStatus_sound; [exact Hacc |]. intro H. discriminate H.
Qed.

Lemma scanResults_sound (results : list Swarm.SwarmCallStatus) :
  forall (o : Swarm.Orchestrator) (fs : option Swarm.SwarmCallStatus),
    sound o -> sound (fst (Swarm.scanResults config results o fs)).
Proof.
  induction results as [| r rest IH]; intros o fs Ho; cbn; [exact Ho |].
  destruct (Swarm.CallState_eqb (Swarm.status r) Swarm.success); [| now apply IH].
  destruct fs; [now apply IH |].
  destruct (Swarm.stopOnFirstSuccess config); [| now apply IH].
  cbn. now apply cancelRemainingCalls_sound.
Qed.

Lemma runBatches_sound (batches : list (list Provider)) :
  forall (o : Swarm.Orchestrator) (fs : option Swarm.SwarmCallStatus),
    sound o ->
    sound (Swarm.runBatches directory todayStr tomorrowStr getTime getHours
             toLocaleStringUTC Date_now race config requestedSlot serviceDescription
             batches o fs).
Proof.
  induction batches as [| batch rest IH]; intros o fs Ho; cbn; [exact Ho |].
  destruct (Swarm.aborted o); [exact Ho |].
  destruct (Swarm.stopOnFirstSuccess config
            && match fs with Some _ => true | None => false end); [exact Ho |].
  set (o1 := Swarm.executeBatch _ _ _ _ _ _ _ _ _ _ o batch).
  assert (H1 : sound o1).
  { unfold o1, Swarm.executeBatch.
    apply fold_sound; [intros; now apply settleCall_sound |].
    apply fold_sound; [intros; now apply launchCall_sound | exact Ho]. }
  pose proof (scanResults_sound (Swarm.batchResults o1 batch) o1 fs H1) as H2.
  destruct (Swarm.scanResults config (Swarm.batchResults o1 batch) o1 fs) as [o2 fs'].
  now apply IH.
Qed.

Lemma initialStatuses_pending (ps : list Provider) :
  Forall (fun s => Swarm.status s = Swarm.pending)
    (Swarm.Map_values (Swarm.initialStatuses ps)).
Proof.
  unfold Swarm.initialStatuses.
  assert (H : forall m,
             Forall (fun s => Swarm.status s = Swarm.pending) (Swarm.Map_values m) ->
             Forall (fun s => Swarm.status s = Swarm.pending)
               (Swarm.Map_values
                  (fold_left (fun m p =>
                                Swarm.Map_set m (id p)
                                  {| Swarm.providerId := id p;
                                     Swarm.providerName := name p;
                                     Swarm.status := Swarm.pending;
                                     Swarm.startedAt := None;
                                     Swarm.completedAt := None;
                                     Swarm.result := None |}) ps m))).
  { induction ps as [| p rest IH]; intros m Hm; cbn; [exact Hm |].
    apply IH. now apply Map_set_Forall. }
  apply H. constructor.
Qed.

(** In the statuses a run returns, every [success] carries the result of
    a call that succeeded. *)
Lemma executeSwarm_success_carries_result (fuel : nat) (providers : list Provider)
    (res : Swarm.SwarmResult) (o : Swarm.Orchestrator) :
  Swarm.executeSwarm directory todayStr tomorrowStr getTime getHours
    toLocaleStringUTC Date_now race config fuel providers requestedSlot
    serviceDescription = Some (res, o) ->
  Forall good (Swarm.callStatuses res).
Proof.
  unfold Swarm.executeSwarm.
  destruct (Swarm.createBatches fuel providers (Swarm.maxConcurrentCalls config))
    as [batches |]; [| discriminate].
  intros [= <- _]. cbn [Swarm.callStatuses].
  apply runBatches_sound. unfold sound. cbn [Swarm.statuses].
  eapply Forall_impl; [| apply initialStatuses_pending].
  intros s Hs H. rewrite Hs in H. discriminate H.
Qed.

(** With a [Date] that still reads a slot once its [Z] is taken out, the
    successful statuses of a run are the ones [selectBestMatch] can
    compare. *)
Lemma executeSwarm_statuses_wellBooked (fuel : nat) (providers : list Provider)
    (res : Swarm.SwarmResult) (o : Swarm.Orchestrator) :
  (forall slot t,
      getTime slot = Some t ->
      JS.replace "Z" "" slot <> EmptyString
      /\ exists t', getTime (JS.replace "Z" "" slot) = Some t') ->
  Swarm.executeSwarm directory todayStr tomorrowStr getTime getHours
    toLocaleStringUTC Date_now race config fuel providers requestedSlot
    serviceDescription = Some (res, o) ->
  forall s, In s (Swarm.callStatuses res) -> Swarm.status s = Swarm.success ->
            Swarm.wellBooked getTime s.
Proof.
  intros Hhost Hrun s Hs Hst.
  pose proof (executeSwarm_success_carries_result fuel providers res o Hrun) as Hall.
  rewrite Forall_forall in Hall.
  destruct (Hall s Hs Hst) as (pid & random & Hres & Hok).
  unfold Swarm.simulateProviderCall, Swarm.getProvider in *.
  destruct (Receptionist.getProvider directory todayStr tomorrowStr pid) as [p |] eqn:Hp.
  - destruct (simulateProviderCall_known directory todayStr tomorrowStr getTime getHours
                toLocaleStringUTC pid requestedSlot serviceDescription random p Hp)
      as [_ [(_ & _ & _ & slot & Hfind & Hb) | [(Hf & _) | (Hf & _)]]];
      try (rewrite Hf in Hok; discriminate Hok).
    apply find_some in Hfind. destruct Hfind as [_ Hw].
    unfold Receptionist.withinFlexibility in Hw.
    destruct (getTime slot) as [t |] eqn:Ht; [| discriminate Hw].
    destruct (Hhost slot t Ht) as [Hne [t' Ht']].
    eexists. exists (JS.replace "Z" "" slot), t'. repeat split; eauto.
  - rewrite (simulateProviderCall_unknown directory todayStr tomorrowStr getTime getHours
               toLocaleStringUTC pid requestedSlot serviceDescription random Hp) in Hok.
    discriminate Hok.
Qed.

End SuccessfulStatuses.

(** ** Ranking on the store *)

Lemma nth_error_extend (h e : Store.store) (r : Store.ref) (o : Store.object) :
  nth_error h r = Some o -> nth_error (h ++ e)%list r = Some o.
Proof.
  intro H. rewrite nth_error_app1; [exact H |].
  apply nth_error_Some. congruence.
Qed.

Lemma readFields_extend (h e : Store.store) (fields : Store.ProviderFields) (p : Provider) :
  Store.readFields h fields = Some p -> Store.readFields (h ++ e)%list fields = Some p.
Proof.
  unfold Store.readFields, Store.readMetadata.
  destruct (nth_error h (Store.f_availableSlots fields)) as [[slots | | | |] |] eqn:Hs;
    try discriminate.
  rewrite (nth_error_extend h e _ _ Hs).
  destruct (Store.f_metadata fields) as [m |]; [| auto].
  destruct (nth_error h m) as [[| md | | |] |] eqn:Hm; try discriminate.
  now rewrite (nth_error_extend h e _ _ Hm).
Qed.

Lemma readProvider_extend (h e : Store.store) (r : Store.ref) (p : Provider) :
  Store.readProvider h r = Some p -> Store.readProvider (h ++ e)%list r = Some p.
Proof.
  unfold Store.readProvider.
  destruct (nth_error h r) as [[| | fields | fields score matching |] |] eqn:Hr;
    try discriminate; rewrite (nth_error_extend h e _ _ Hr); apply readFields_extend.
Qed.

Lemma readRanked_extend (h e : Store.store) (r : Store.ref) (v : RankedProvider) :
  Store.readRanked h r = Some v -> Store.readRanked (h ++ e)%list r = Some v.
Proof.
  unfold Store.readRanked.
  destruct (nth_error h r) as [[| | | fields score matching |] |] eqn:Hr;
    try discriminate.
  rewrite (nth_error_extend h e _ _ Hr).
  destruct (Store.readFields h fields) as [p |] eqn:Hf; [| discriminate].
  rewrite (readFields_extend h e _ _ Hf).
  destruct (nth_error h matching) as [[slots | | | |] |] eqn:Hm; try discriminate.
  now rewrite (nth_error_extend h e _ _ Hm).
Qed.

Lemma readAll_extend {A} (read read' : Store.ref -> option A) (rs : list Store.ref)
    (vs : list A) :
  (forall r v, read r = Some v -> read' r = Some v) ->
  Store.readAll read rs = Some vs -> Store.readAll read' rs = Some vs.
Proof.
  intro Hmono. revert vs. induction rs as [| r rest IH]; intros vs; cbn; [auto |].
  destruct (read r) as [a |] eqn:Hr; [| discriminate].
  destruct (Store.readAll read rest) as [l |]; [| discriminate].
  intro H. now rewrite (Hmono _ _ Hr), (IH l eq_refl).
Qed.

Lemma nth_error_update (h : Store.store) (a r : Store.ref) (o : Store.object) :
  nth_error (Store.update h a o) r
  = if (r =? a)%nat
    then match nth_error h a with Some _ => Some o | None => None end
    else nth_error h r.
Proof.
  revert a r. induction h as [| x rest IH]; intros a r.
  - cbn. destruct (r =? a)%nat; destruct a, r; reflexivity.
  - destruct a as [| a'], r as [| r']; cbn; try reflexivity. apply IH.
Qed.

Lemma nth_error_update_array (h : Store.store) (a : Store.ref)
    (old new : list Store.ref) (i : Store.ref) :
  nth_error h a = Some (Store.RefArray old) ->
  nth_error (Store.update h a (Store.RefArray new)) i = nth_error h i
  \/ (nth_error (Store.update h a (Store.RefArray new)) i = Some (Store.RefArray new)
      /\ nth_error h i = Some (Store.RefArray old)).
Proof.
  intro Ha. rewrite nth_error_update, Ha.
  destruct (i =? a)%nat eqn:E; [right | now left].
  apply Nat.eqb_eq in E. subst. auto.
Qed.

Lemma readMetadata_update (h : Store.store) (a : Store.ref) (old new : list Store.ref)
    (m : option Store.ref) :
  nth_error h a = Some (Store.RefArray old) ->
  Store.readMetadata (Store.update h a (Store.RefArray new)) m = Store.readMetadata h m.
Proof.
  intro Ha. destruct m as [r |]; [| reflexivity]. cbn.
  destruct (nth_error_update_array h a old new r Ha) as [E | [E E']];
    rewrite E; [reflexivity | now rewrite E'].
Qed.

Lemma readFields_update (h : Store.store) (a : Store.ref) (old new : list Store.ref)
    (fields : Store.ProviderFields) :
  nth_error h a = Some (Store.RefArray old) ->
  Store.readFields (Store.update h a (Store.RefArray new)) fields
  = Store.readFields h fields.
Proof.
  intro Ha. unfold Store.readFields.
  rewrite (readMetadata_update h a old new _ Ha).
  destruct (nth_error_update_array h a old new (Store.f_availableSlots fields) Ha)
    as [E | [E E']]; rewrite E; [reflexivity | now rewrite E'].
Qed.

(** Replacing one array of references by another changes nothing for a
    reader of provider objects. *)
Lemma readRanked_update (h : Store.store) (a : Store.ref) (old new : list Store.ref)
    (r : Store.ref) :
  nth_error h a = Some (Store.RefArray old) ->
  Store.readRanked (Store.update h a (Store.RefArray new)) r = Store.readRanked h r.
Proof.
  intro Ha. unfold Store.readRanked.
  destruct (nth_error_update_array h a old new r Ha) as [E | [E E']];
    rewrite E; [| now rewrite E'].
  destruct (nth_error h r) as [[| | | fields score matching |] |]; try reflexivity.
  rewrite (readFields_update h a old new fields Ha).
  destruct (nth_error_update_array h a old new matching Ha) as [Em | [Em Em']];
    rewrite Em; [reflexivity | now rewrite Em'].
Qed.

Lemma update_fresh (h e : Store.store) (o o' : Store.object) :
  Store.update (h ++ o :: e)%list (List.length h) o' = (h ++ o' :: e)%list.
Proof. induction h as [| x rest IH]; cbn; [reflexivity | now rewrite IH]. Qed.

Lemma readRanked_score (h : Store.store) (r : Store.ref) (v : RankedProvider) :
  Store.readRanked h r = Some v -> Store.scoreAt h r = finalScore v.
Proof.
  unfold Store.readRanked, Store.scoreAt.
  destruct (nth_error h r) as [[| | | fields score matching |] |]; try discriminate.
  destruct (Store.readFields h fields); [| discriminate].
  destruct (nth_error h matching) as [[slots | | | |] |]; try discriminate.
  now intros [= <-].
Qed.

Lemma readAll_sort (h : Store.store) (rs : list Store.ref) :
  forall vs,
    Store.readAll (Store.readRanked h) rs = Some vs ->
    Store.readAll (Store.readRanked h)
      (Array_sort (fun a b => (Store.scoreAt h b - Store.scoreAt h a)%Q) rs)
    = Some (Array_sort byScoreDesc vs).
Proof.
  induction rs as [| r rest IH]; intros vs; cbn [Store.readAll Array_sort].
  - now intros [= <-].
  - destruct (Store.readRanked h r) as [v |] eqn:Hr; [| discriminate].
    destruct (Store.readAll (Store.readRanked h) rest) as [l |]; [| discriminate].
    intros [= <-]. specialize (IH l eq_refl). cbn [Array_sort].
    revert IH. generalize (Array_sort byScoreDesc l).
    generalize (Array_sort (fun a b => (Store.scoreAt h b - Store.scoreAt h a)%Q) rest).
    intros srs. induction srs as [| y ys IHs]; intros svs; cbn [Store.readAll sort_insert].
    + intros [= <-]. cbn. now rewrite Hr.
    + destruct (Store.readRanked h y) as [vy |] eqn:Hy; [| discriminate].
      destruct (Store.readAll (Store.readRanked h) ys) as [lys |] eqn:Hys;
        [| discriminate].
      intros [= <-]. cbn [sort_insert]. unfold byScoreDesc at 1.
      rewrite (readRanked_score h r v Hr), (readRanked_score h y vy Hy).
      destruct (Qle_bool (finalScore vy - finalScore v) 0).
      * cbn [Store.readAll]. now rewrite Hr, Hy, Hys.
      * cbn [Store.readAll]. rewrite Hy. now rewrite (IHs lys eq_refl).
Qed.

Lemma readAll_ext {A} (read read' : Store.ref -> option A) (rs : list Store.ref) :
  (forall r, read r = read' r) -> Store.readAll read rs = Store.readAll read' rs.
Proof.
  intro H. induction rs as [| r rest IH]; [reflexivity |]. cbn. now rewrite H, IH.
Qed.

Section StoreRanking.
Variable getTime : string -> option Z.
Variable intent : AppointmentIntent.
Variable weights : RankingWeights.

Lemma scoreProvider_store (h : Store.store) (p : Store.ref) (prov : Provider) :
  Store.readProvider h p = Some prov ->
  exists cells,
    Store.scoreProvider getTime p intent weights h
    = Some (S (List.length h), (h ++ cells)%list)
    /\ List.length cells = 2%nat
    /\ Store.readRanked (h ++ cells)%list (S (List.length h))
       = Some (scoreProvider getTime prov intent weights).
Proof.
  intro Hread.
  assert (Hfields : exists fields,
             Store.loadProviderFields p h = Some (fields, h)
             /\ Store.readFields h fields = Some prov).
  { unfold Store.readProvider in Hread.
    unfold Store.loadProviderFields, Store.bind, Store.load.
    destruct (nth_error h p) as [[| | fields | fields score matching |] |];
      try discriminate; exists fields; auto. }
  destruct Hfields as (fields & Hload & Hf).
  pose proof Hf as Hf'. unfold Store.readFields in Hf'.
  destruct (nth_error h (Store.f_availableSlots fields)) as [[slots | | | |] |] eqn:Hs;
    try discriminate.
  destruct (Store.readMetadata h (Store.f_metadata fields)) as [md |]; [| discriminate].
  injection Hf' as <-.
  eexists. split; [| split].
  - unfold Store.scoreProvider, Store.bind at 1. rewrite Hload.
    unfold Store.bind at 1, Store.loadStrings, Store.bind at 1, Store.load.
    rewrite Hs. unfold Store.ret, Store.bind, Store.alloc.
    rewrite length_app, <- app_assoc. cbn [List.length app].
    rewrite Nat.add_1_r. reflexivity.
  - reflexivity.
  - unfold Store.readRanked.
    rewrite nth_error_app2 by lia.
    replace (S (List.length h) - List.length h)%nat with 1%nat by lia.
    cbn [nth_error].
    rewrite (readFields_extend h _ fields _ Hf).
    rewrite nth_error_app2 by lia. rewrite Nat.sub_diag. cbn [nth_error].
    reflexivity.
Qed.

Lemma mapM_scoreProvider (items : list Store.ref) :
  forall (h : Store.store) (provs : list Provider),
    Store.readAll (Store.readProvider h) items = Some provs ->
    exists ext rs,
      Store.mapM (fun p => Store.scoreProvider getTime p intent weights) items h
      = Some (rs, (h ++ ext)%list)
      /\ Store.readAll (Store.readRanked (h ++ ext)%list) rs
         = Some (map (fun p => scoreProvider getTime p intent weights) provs)
      /\ Forall (fun r => (List.length h < r)%nat) rs
      /\ NoDup rs.
Proof.
  induction items as [| p rest IH]; intros h provs; cbn [Store.readAll].
  - intros [= <-]. exists [], []. cbn. rewrite app_nil_r.
    repeat split; constructor.
  - destruct (Store.readProvider h p) as [prov |] eqn:Hp; [| discriminate].
    destruct (Store.readAll (Store.readProvider h) rest) as [provs' |] eqn:Hrest;
      [| discriminate].
    intros [= <-].
    destruct (scoreProvider_store h p prov Hp) as (cells & Hscore & Hlen & Hread).
    assert (Hrest' : Store.readAll (Store.readProvider (h ++ cells)%list) rest
                     = Some provs').
    { eapply readAll_extend; [| exact Hrest]. intros r v. apply readProvider_extend. }
    destruct (IH _ _ Hrest') as (ext & rs & Hmap & Hreads & Hfresh & Hnd).
    exists (cells ++ ext)%list, (S (List.length h) :: rs).
    rewrite app_assoc. split; [| split; [| split]].
    + cbn [Store.mapM]. unfold Store.bind at 1. rewrite Hscore.
      unfold Store.bind at 1. rewrite Hmap. reflexivity.
    + cbn [Store.readAll map]. rewrite (readRanked_extend _ ext _ _ Hread), Hreads.
      reflexivity.
    + constructor; [lia |]. eapply Forall_impl; [| exact Hfresh].
      intros r Hr. rewrite length_app in Hr. lia.
    + constructor; [| exact Hnd]. intro Hin.
      rewrite Forall_forall in Hfresh. specialize (Hfresh _ Hin).
      rewrite length_app in Hfresh. lia.
Qed.

(** C10. [rankProviders] writes nothing into what it was given: every
    object that existed before the call is unchanged afterwards, so the
    input array still lists the same providers, in the same order, with
    the same fields.  It returns a new array of new objects, and each of
    them carries the fields of its provider, [finalScore] and
    [matchingSlots]. *)
Theorem rankProviders_preserves_inputs :
  forall (h : Store.store) (providers : Store.ref) (ps : list Provider),
    Store.readProviderArray h providers = Some ps ->
    exists res h',
      Store.rankProviders getTime providers intent weights h = Some (res, h')
      /\ (forall r, (r < List.length h)%nat -> nth_error h' r = nth_error h r)
      /\ Store.readProviderArray h' providers = Some ps
      /\ (List.length h <= res)%nat
      /\ exists items,
           nth_error h' res = Some (Store.RefArray items)
           /\ Forall (fun r => (List.length h <= r)%nat) items
           /\ NoDup items
           /\ ~ In res items
           /\ Store.readRankedArray h' res
              = Some (rankProviders getTime ps intent weights).
Proof.
  intros h providers ps Hin. unfold Store.readProviderArray in Hin.
  destruct (nth_error h providers) as [[| | | | items] |] eqn:Hp; try discriminate.
  set (h1 := (h ++ [Store.RefArray []])%list).
  assert (Hin1 : Store.readAll (Store.readProvider h1) items = Some ps).
  { eapply readAll_extend; [| exact Hin]. intros r v. apply readProvider_extend. }
  destruct (mapM_scoreProvider items h1 ps Hin1) as (ext & rs & Hmap & Hreads & Hfresh & Hnd).
  set (mapped := List.length h).
  set (h2 := (h1 ++ ext)%list) in *.
  assert (Hshape2 : h2 = (h ++ Store.RefArray [] :: ext)%list).
  { unfold h2, h1. now rewrite <- app_assoc. }
  assert (Hat2 : nth_error h2 mapped = Some (Store.RefArray [])).
  { rewrite Hshape2. unfold mapped. rewrite nth_error_app2 by lia.
    now rewrite Nat.sub_diag. }
  set (h3 := Store.update h2 mapped (Store.RefArray rs)).
  assert (Hshape3 : h3 = (h ++ Store.RefArray rs :: ext)%list).
  { unfold h3, mapped. rewrite Hshape2. apply update_fresh. }
  assert (Hat3 : nth_error h3 mapped = Some (Store.RefArray rs)).
  { rewrite Hshape3. unfold mapped. rewrite nth_error_app2 by lia.
    now rewrite Nat.sub_diag. }
  set (sorted := Array_sort (fun a b => (Store.scoreAt h3 b - Store.scoreAt h3 a)%Q) rs).
  set (h4 := Store.update h3 mapped (Store.RefArray sorted)).
  assert (Hshape4 : h4 = (h ++ Store.RefArray sorted :: ext)%list).
  { unfold h4, mapped. rewrite Hshape3. apply update_fresh. }
  assert (Hrun : Store.rankProviders getTime providers intent weights h
                 = Some (mapped, h4)).
  { unfold Store.rankProviders, Store.bind at 1, Store.loadRefs, Store.bind at 1,
      Store.load. rewrite Hp. unfold Store.ret at 1.
    unfold Store.bind at 1, Store.alloc. fold h1. fold mapped.
    unfold Store.bind at 1. rewrite Hmap. fold h2.
    unfold Store.bind at 1, Store.write at 1. rewrite Hat2. fold h3.
    unfold Store.bind, Store.write. rewrite Hat3. reflexivity. }
  assert (Hperm : Permutation sorted rs) by apply Array_sort_perm.
  exists mapped, h4. split; [exact Hrun |]. split; [| split; [| split]].
  - intros r Hr. rewrite Hshape4. now apply nth_error_app1.
  - unfold Store.readProviderArray. rewrite Hshape4.
    rewrite (nth_error_extend h _ _ _ Hp).
    eapply readAll_extend; [| exact Hin]. intros r v. apply readProvider_extend.
  - unfold mapped. lia.
  - exists sorted. split; [| split; [| split; [| split]]].
    + rewrite Hshape4. unfold mapped. rewrite nth_error_app2 by lia.
      now rewrite Nat.sub_diag.
    + eapply Permutation_Forall; [symmetry; exact Hperm |].
      eapply Forall_impl; [| exact Hfresh]. intros r Hr. unfold h1 in Hr.
      rewrite length_app in Hr. cbn in Hr. lia.
    + eapply Permutation_NoDup; [symmetry; exact Hperm | exact Hnd].
    + intro Hself. apply (Permutation_in _ Hperm) in Hself.
      rewrite Forall_forall in Hfresh. specialize (Hfresh _ Hself).
      unfold h1 in Hfresh. rewrite length_app in Hfresh. unfold mapped in Hfresh. lia.
    + unfold Store.readRankedArray.
      replace (nth_error h4 mapped) with (Some (Store.RefArray sorted)).
      2:{ rewrite Hshape4. unfold mapped. rewrite nth_error_app2 by lia.
          now rewrite Nat.sub_diag. }
      rewrite (readAll_ext (Store.readRanked h4) (Store.readRanked h3))
        by (intro r; unfold h4; now apply (readRanked_update h3 mapped rs sorted)).
      unfold rankProviders. apply readAll_sort.
      rewrite (readAll_ext (Store.readRanked h3) (Store.readRanked h2))
        by (intro r; unfold h3; now apply (readRanked_update h2 mapped [] rs)).
      exact Hreads.
Qed.

End StoreRanking.

(** ** The orchestrator and the store on the sample data *)





Example cancelled_provider_is_never_called :
  match Sample.executeSwarm Sample.oneByOne 4
          [Sample.harborDental; Sample.brightSmile; Sample.quickFix]
          "2026-03-02T10:30:00" None with
  | Some (res, o) =>
      map (fun e => (Swarm.providerId e, Swarm.status e)) (Swarm.notified o)
      = [("dent_02", Swarm.calling); ("dent_02", Swarm.failed);
         ("dent_01", Swarm.calling); ("dent_01", Swarm.success);
         ("dent_03", Swarm.cancelled)]
      /\ option_map Swarm.providerId (Swarm.bestMatch res) = Some "dent_01"
  | None => False
  end.
Proof. vm_compute. split; reflexivity. Qed.

Lemma rankProviders_preserves_inputs_witness :
  exists res h',
    Store.rankProviders UTCHost.getTime 4%nat Sample.morning DEFAULT_WEIGHTS Sample.store
    = Some (res, h')
    /\ Store.readProviderArray h' 4%nat = Some [Sample.harborDental; Sample.brightSmile]
    /\ Store.readRankedArray h' res
       = Some (rankProviders UTCHost.getTime [Sample.harborDental; Sample.brightSmile]
                 Sample.morning DEFAULT_WEIGHTS).
Proof.
  destruct (rankProviders_preserves_inputs UTCHost.getTime Sample.morning DEFAULT_WEIGHTS
              Sample.store 4%nat [Sample.harborDental; Sample.brightSmile] eq_refl)
    as (res & h' & Hrun & _ & Hsame & _ & items & _ & _ & _ & _ & Hranked).
  exists res, h'. repeat split; assumption.
Defined.

Example ranking_on_the_store :
  match Store.rankProviders UTCHost.getTime 4%nat Sample.morning DEFAULT_WEIGHTS
          Sample.store with
  | Some (res, h') =>
      res = 5%nat
      /\ firstn 5 h' = Sample.store
      /\ nth_error h' res = Some (Store.RefArray [9%nat; 7%nat])
      /\ option_map (map (fun r => id (provider r))) (Store.readRankedArray h' res)
         = Some ["dent_01"; "dent_02"]
  | None => False
  end.
Proof. vm_compute. repeat split; reflexivity. Qed.

(** * Further properties *)

(** ** Scores *)





(** The matching slots of a scored provider are exactly its available
    slots that fall within the intent's time range, and the provider is
    carried over as it is. *)
Lemma scoreProvider_matchingSlots :
  forall (getTime : string -> option Z) (p : Provider) (intent : AppointmentIntent)
         (weights : RankingWeights) (slot : string),
    provider (scoreProvider getTime p intent weights) = p
    /\ (In slot (matchingSlots (scoreProvider getTime p intent weights))
        <-> In slot (availableSlots p) /\ withinWindow getTime intent slot).
Proof.
  intros getTime p intent weights slot. split; [reflexivity |].
  unfold scoreProvider. cbn [matchingSlots]. rewrite filter_In.
  now rewrite slotInRange_spec.
Qed.

(** ** The top of a ranking, and the ranking of one category *)









(** ** Batches *)

Lemma slice_length {T} (items : list T) (i size : Z) :
  0 <= i < Z.of_nat (List.length items) -> 0 < size ->
  Z.of_nat (List.length (JS.slice items i (i + size)))
  = Z.min (i + size) (Z.of_nat (List.length items)) - i.
Proof.
  intros Hi Hs. unfold JS.slice.
  replace (i <? 0) with false by (symmetry; apply Z.ltb_ge; lia).
  replace (i + size <? 0) with false by (symmetry; apply Z.ltb_ge; lia).
  rewrite (Z.min_l i) by lia.
  rewrite length_firstn, length_skipn. lia.
Qed.

Lemma batchLoop_shape {T} (fuel : nat) :
  forall (items : list T) (size i : Z) (acc r : list (list T)),
    0 < size -> 0 <= i ->
    batchLoop fuel items size i acc = Some r ->
    exists batches,
      r = (acc ++ batches)%list
      /\ Forall (fun b => b <> [] /\ Z.of_nat (List.length b) <= size) batches
      /\ (Z.of_nat (List.length items) <= i -> batches = [])
      /\ (forall j b, nth_error batches j = Some b ->
                      (S j < List.length batches)%nat ->
                      Z.of_nat (List.length b) = size)
      /\ (i < Z.of_nat (List.length items) ->
          Z.of_nat (List.length items) - i <= Z.of_nat (List.length batches) * size
          /\ Z.of_nat (List.length batches) * size
             < Z.of_nat (List.length items) - i + size).
Proof.
  induction fuel as [| fuel IH]; intros items size i acc r Hs Hi; cbn; [discriminate |].
  destruct (i <? Z.of_nat (List.length items)) eqn:E.
  - apply Z.ltb_lt in E. intro H.
    assert (Hi' : 0 <= i + size) by lia.
    destruct (IH _ _ _ _ _ Hs Hi' H) as (rest & -> & Hall & Hend & Hfull & Hcount).
    pose proof (slice_length items i size (conj Hi E) Hs) as Hlen.
    set (b0 := JS.slice items i (i + size)) in *.
    exists (b0 :: rest). split; [now rewrite <- app_assoc |].
    split; [| split; [| split]].
    + constructor; [| exact Hall]. split; [| lia].
      intro Hb. rewrite Hb in Hlen. cbn in Hlen. lia.
    + intro H'. lia.
    + intros j b Hj Hlast. destruct j as [| j'].
      * cbn in Hj. injection Hj as <-.
        destruct (Z.le_gt_cases (Z.of_nat (List.length items)) (i + size)) as [Hle | Hgt].
        -- rewrite (Hend Hle) in Hlast. cbn in Hlast. lia.
        -- lia.
      * cbn in Hj, Hlast. apply (Hfull j' b Hj). lia.
    + intros _. cbn [List.length]. rewrite Nat2Z.inj_succ, Z.mul_succ_l.
      destruct (Z.le_gt_cases (Z.of_nat (List.length items)) (i + size)) as [Hle | Hgt].
      * rewrite (Hend Hle). cbn [List.length]. change (Z.of_nat 0) with 0. lia.
      * specialize (Hcount Hgt). lia.
  - apply Z.ltb_ge in E. intro H. injection H as <-. exists [].
    rewrite app_nil_r. repeat split; auto; try lia.
    intros j b Hj. destruct j; discriminate.
Qed.

(** X5. With a positive batch size, [batchProvidersForCalling] and
    [createBatches] return, for every list: consecutive batches that put
    together give back the list, none of them empty, all of the given
    size except possibly the last; so a non-empty list of n elements gives
    the least number of batches that can hold n. *)
Theorem batches_are_chunks :
  forall (fuel : nat) (size : Z),
    0 < size ->
    (forall providers : list RankedProvider,
        (List.length providers < fuel)%nat ->
        exists batches,
          batchProvidersForCalling fuel providers (Some size) = Some batches
          /\ chunked size providers batches)
    /\ (forall items : list Provider,
           (List.length items < fuel)%nat ->
           exists batches,
             Swarm.createBatches fuel items size = Some batches
             /\ chunked size items batches).
Proof.
  intros fuel size Hs.
  assert (H : forall T (items : list T),
             (List.length items < fuel)%nat ->
             exists batches,
               batchLoop fuel items size 0 [] = Some batches
               /\ chunked size items batches).
  { intros T items Hf.
    assert (H0 : 0 <= 0) by lia.
    assert (Hlen : (Z.to_nat (Z.of_nat (List.length items) - 0) < fuel)%nat) by lia.
    destruct (batchLoop_terminates fuel items size 0 [] Hs H0 Hlen) as [r Hr].
    destruct (batchLoop_concat fuel items size 0 [] r Hs H0 Hr) as (b & Hb & Hc).
    destruct (batchLoop_shape fuel items size 0 [] r Hs H0 Hr)
      as (b' & Hb' & Hall & _ & Hfull & Hcount).
    cbn in Hb, Hb'. subst b b'. exists r. split; [exact Hr |].
    split; [exact Hc |]. split; [exact Hall |]. split; [exact Hfull |].
    intro Hne. assert (Hpos : 0 < Z.of_nat (List.length items)).
    { destruct items; [congruence | cbn; lia]. }
    specialize (Hcount Hpos). lia. }
  split; intros items Hf; apply H; exact Hf.
Qed.

Lemma batches_are_chunks_witness :
  exists batches,
    Swarm.createBatches 4 Sample.callOrder 2 = Some batches
    /\ chunked 2 Sample.callOrder batches.
Proof.
  apply (proj2 (batches_are_chunks 4 2 ltac:(lia)) Sample.callOrder).
  cbn. lia.
Defined.

(** X6. A batch size that is zero or negative never gets past a non-empty
    list: whatever the fuel, [createBatches] and [batchProvidersForCalling]
    are still looping. *)
Theorem batches_need_positive_size :
  forall (fuel : nat) (size : Z),
    size <= 0 ->
    (forall providers : list RankedProvider,
        providers <> [] ->
        batchProvidersForCalling fuel providers (Some size) = None)
    /\ (forall items : list Provider,
           items <> [] -> Swarm.createBatches fuel items size = None).
Proof.
  intros fuel size Hs.
  assert (H : forall T (items : list T) f i acc,
             items <> [] -> i <= 0 -> batchLoop f items size i acc = None).
  { intros T items f. induction f as [| f IH]; intros i acc Hne Hi; [reflexivity |].
    cbn. assert (Hlen : 0 < Z.of_nat (List.length items)).
    { destruct items; [congruence | cbn; lia]. }
    replace (i <? Z.of_nat (List.length items)) with true
      by (symmetry; apply Z.ltb_lt; lia).
    apply IH; [exact Hne | lia]. }
  split; intros items Hne; apply H; [exact Hne | lia | exact Hne | lia].
Qed.

Lemma batches_need_positive_size_witness :
  Swarm.createBatches 100 Sample.callOrder 0 = None.
Proof.
  apply (proj2 (batches_need_positive_size 100 0 ltac:(lia)) Sample.callOrder).
  discriminate.
Defined.

(** ** More on the receptionist simulator *)

Lemma NoDup_map_same {A B} (f : A -> B) (l : list A) (x y : A) :
  NoDup (map f l) -> In x l -> In y l -> f x = f y -> x = y.
Proof.
  induction l as [| a rest IH]; cbn; [contradiction |].
  intros Hnd Hx Hy He. inversion Hnd as [| ? ? Hnot Hrest]; subst.
  destruct Hx as [-> | Hx], Hy as [-> | Hy]; auto.
  - exfalso. apply Hnot. rewrite He. now apply in_map.
  - exfalso. apply Hnot. rewrite <- He. now apply in_map.
Qed.

Lemma afterHours_false_iff (h : option Z) :
  JS.num_ge h (Some 22) || JS.num_le h (Some 7) = false
  <-> forall hour, h = Some hour -> ~ afterHours hour.
Proof.
  unfold JS.num_ge, JS.num_le, afterHours. destruct h as [x |].
  - rewrite orb_false_iff, !Z.leb_gt. split.
    + intros [H1 H2] hour [= <-]. lia.
    + intro H. specialize (H x eq_refl). lia.
  - split; [intros _ hour H; discriminate | reflexivity].
Qed.

Lemma availability_draw (r random : Q) :
  negb (Qle_bool (Receptionist.availabilityRate
                    (Receptionist.PERSONALITIES (Receptionist.personalityOf r)) + (1 # 10))
          random) = true
  <-> (((45 # 10) <= r)%Q -> (random < 9 # 10)%Q)
      /\ ((4 <= r)%Q -> (r < 45 # 10)%Q -> (random < 7 # 10)%Q)
      /\ ((r < 4)%Q -> (random < 5 # 10)%Q).
Proof.
  rewrite negb_true_iff. unfold Receptionist.personalityOf.
  destruct (Qle_bool (45 # 10) r) eqn:E1; [| destruct (Qle_bool 4 r) eqn:E2].
  - apply Qle_bool_iff in E1. cbn [Receptionist.PERSONALITIES Receptionist.availabilityRate].
    split.
    + intro H. assert (Hlt : ~ ((8 # 10) + (1 # 10) <= random)%Q).
      { intro Hle. apply Qle_bool_iff in Hle. congruence. }
      repeat split; intros; lra.
    + intros (H & _ & _). specialize (H E1). apply not_true_is_false.
      intro Hle. apply Qle_bool_iff in Hle. lra.
  - apply Qle_bool_iff in E2.
    assert (H1 : ~ ((45 # 10) <= r)%Q) by (intro H; apply Qle_bool_iff in H; congruence).
    cbn [Receptionist.PERSONALITIES Receptionist.availabilityRate]. split.
    + intro H. assert (Hlt : ~ ((6 # 10) + (1 # 10) <= random)%Q).
      { intro Hle. apply Qle_bool_iff in Hle. congruence. }
      repeat split; intros; lra.
    + intros (_ & H & _). assert (Hr : (random < 7 # 10)%Q) by (apply H; lra).
      apply not_true_is_false. intro Hle. apply Qle_bool_iff in Hle. lra.
  - assert (H1 : ~ ((45 # 10) <= r)%Q) by (intro H; apply Qle_bool_iff in H; congruence).
    assert (H2 : ~ (4 <= r)%Q) by (intro H; apply Qle_bool_iff in H; congruence).
    cbn [Receptionist.PERSONALITIES Receptionist.availabilityRate]. split.
    + intro H. assert (Hlt : ~ ((4 # 10) + (1 # 10) <= random)%Q).
      { intro Hle. apply Qle_bool_iff in Hle. congruence. }
      repeat split; intros; lra.
    + intros (_ & _ & H). assert (Hr : (random < 5 # 10)%Q) by (apply H; lra).
      apply not_true_is_false. intro Hle. apply Qle_bool_iff in Hle. lra.
Qed.

Lemma truthy_nonempty (s : string) :
  Receptionist.truthy s = true <-> s <> EmptyString.
Proof. destruct s; cbn; split; congruence. Qed.

Lemma rev_string_app (a b acc : string) :
  JS.rev_string (a ++ b) acc = JS.rev_string b (JS.rev_string a acc).
Proof. revert acc. induction a as [| c a IH]; intro acc; cbn; auto. Qed.

Lemma prefix_empty (s : string) : String.prefix EmptyString s = true.
Proof. now destruct s. Qed.

Lemma includes_separator (sep : ascii) (d tail : string) :
  JS.includes (String sep EmptyString) (d ++ String sep tail) = true.
Proof.
  unfold JS.includes.
  assert (H : JS.firstOccurrence (String sep EmptyString) (d ++ String sep tail) <> None).
  { induction d as [| c d IH]; cbn.
    - destruct (ascii_dec sep sep) as [_ | Hne]; [| congruence].
      rewrite prefix_empty. discriminate.
    - destruct (ascii_dec sep c) as [_ | _].
      + rewrite prefix_empty. discriminate.
      + destruct (JS.firstOccurrence (String sep EmptyString) (d ++ String sep tail))
          as [[before after] |]; [discriminate | congruence]. }
  destruct (JS.firstOccurrence _ _); congruence.
Qed.

(** The first piece of a split, followed by the separator and more text,
    splits again into itself and the pieces of that text. *)
Lemma split_head (sep : ascii) (s : string) :
  exists d rest,
    JS.split sep s = d :: rest
    /\ forall tail, JS.split sep (d ++ String sep tail) = d :: JS.split sep tail.
Proof.
  induction s as [| c s IH]; cbn.
  - exists EmptyString, []. split; [reflexivity |]. intro tail. cbn.
    now rewrite Ascii.eqb_refl.
  - destruct (Ascii.eqb c sep) eqn:E.
    + exists EmptyString, (JS.split sep s). split; [reflexivity |]. intro tail. cbn.
      now rewrite Ascii.eqb_refl.
    + destruct IH as (d & rest & Hs & Hd). rewrite Hs.
      exists (String c d), rest. split; [reflexivity |]. intro tail. cbn.
      now rewrite E, Hd.
Qed.

Lemma hourOfText_ten (s : string) :
  hourOfText (nth 0 (JS.split "T" s) EmptyString ++ "T10:00:00") = Some 10.
Proof.
  destruct (split_head "T" s) as (d & rest & Hs & Hd). rewrite Hs. cbn [nth].
  unfold hourOfText.
  assert (Hz : JS.stripZone (d ++ "T10:00:00") = d ++ "T10:00:00").
  { unfold JS.stripZone. rewrite rev_string_app. reflexivity. }
  rewrite Hz, (includes_separator "T" d "10:00:00"), (Hd "10:00:00"). reflexivity.
Qed.

(** The alternative offered never shows an hour outside 8 to 18. *)
Lemma alternativeFor_hour (slot0 : string) (h : Z) :
  hourOfText (Receptionist.alternativeFor slot0) = Some h -> 8 <= h <= 18.
Proof.
  pose proof (alternativeFor_spec slot0) as H. cbn zeta in H.
  destruct (hourOfText (JS.replace "Z" "" slot0)) as [h0 |] eqn:E.
  - destruct H as [Hout Hin].
    destruct (Z_lt_dec h0 8) as [H8 | H8]; [| destruct (Z_lt_dec 18 h0) as [H18 | H18]].
    + rewrite (Hout (or_introl H8)). unfold dateOfText. rewrite hourOfText_ten.
      intros [= <-]. lia.
    + rewrite (Hout (or_intror H18)). unfold dateOfText. rewrite hourOfText_ten.
      intros [= <-]. lia.
    + rewrite Hin by lia. rewrite E. intros [= <-]. lia.
  - rewrite H, E. discriminate.
Qed.

Section FurtherSimulator.
Variable directory : list Provider.
Variables todayStr tomorrowStr : string.
Variable getTime : string -> option Z.
Variable getHours : string -> option Z.
Variable toLocaleStringUTC : list string -> list string -> string.

Let getProvider := Receptionist.getProvider directory todayStr tomorrowStr.
Let simulateProviderCall :=
  Receptionist.simulateProviderCall directory todayStr tomorrowStr
    getTime getHours toLocaleStringUTC.

Lemma getProvider_id (pid : string) (p : Provider) :
  getProvider pid = Some p -> id p = pid.
Proof.
  unfold getProvider, Receptionist.getProvider.
  destruct (find (fun q => String.eqb (id q) pid) directory) as [q |] eqn:Hf.
  - intros [= <-]. apply find_some in Hf. now apply String.eqb_eq.
  - destruct (JS.startsWith "synth_" pid); [| discriminate]. now intros [= <-].
Qed.

(** X7. The provider found for an id has that id.  Every id that starts
    with [synth_] is found.  The id of a directory entry is found in the
    directory, and the entry itself when the ids of the directory are
    pairwise distinct. *)
Theorem getProvider_resolves :
  (forall pid p, getProvider pid = Some p -> id p = pid)
  /\ (forall pid, JS.startsWith "synth_" pid = true ->
                  exists p, getProvider pid = Some p)
  /\ (forall p, In p directory ->
                exists q, getProvider (id p) = Some q /\ In q directory)
  /\ (NoDup (map id directory) ->
      forall p, In p directory -> getProvider (id p) = Some p).
Proof.
  assert (Hdir : forall p, In p directory ->
                   exists q, getProvider (id p) = Some q /\ In q directory
                             /\ id q = id p).
  { intros p Hp. unfold getProvider, Receptionist.getProvider.
    destruct (find (fun q => String.eqb (id q) (id p)) directory) as [q |] eqn:Hf.
    - exists q. apply find_some in Hf. destruct Hf as [Hq He].
      apply String.eqb_eq in He. auto.
    - exfalso. apply (find_none _ _ Hf) in Hp. now rewrite String.eqb_refl in Hp. }
  split; [exact getProvider_id |]. split; [| split].
  - intros pid Hs. unfold getProvider, Receptionist.getProvider. rewrite Hs.
    destruct (find _ directory); eauto.
  - intros p Hp. destruct (Hdir p Hp) as (q & Hq & Hin & _). eauto.
  - intros Hnd p Hp. destruct (Hdir p Hp) as (q & Hq & Hin & He).
    now rewrite Hq, (NoDup_map_same id directory q p Hnd Hin Hp He).
Qed.

(** X8. A call is booked exactly when the provider is found, the request
    is not after hours, the provider's first slot within an hour of the
    request exists and is not the empty string, and the random draw is
    below the chance of the provider's tier: 0.9 from a rating of 4.5,
    0.7 from 4.0, and 0.5 below. *)
Theorem call_succeeds_iff :
  forall (pid slot : string) (desc : option string) (random : Q),
    Receptionist.success (simulateProviderCall pid slot desc random) = true
    <-> exists p s,
          getProvider pid = Some p
          /\ (forall hour, getHours slot = Some hour -> ~ afterHours hour)
          /\ find (Receptionist.withinFlexibility getTime (getTime slot))
               (availableSlots p) = Some s
          /\ s <> EmptyString
          /\ (((45 # 10) <= rating p)%Q -> (random < 9 # 10)%Q)
          /\ ((4 <= rating p)%Q -> (rating p < 45 # 10)%Q -> (random < 7 # 10)%Q)
          /\ ((rating p < 4)%Q -> (random < 5 # 10)%Q).
Proof.
  intros pid slot desc random.
  unfold simulateProviderCall, Receptionist.simulateProviderCall. fold getProvider.
  destruct (getProvider pid) as [p |] eqn:Hp;
    [| cbn; split; [discriminate | intros (p & s & H & _); discriminate]].
  pose proof (afterHours_false_iff (getHours slot)) as Hwin.
  destruct (JS.num_ge (getHours slot) (Some 22) || JS.num_le (getHours slot) (Some 7)).
  - cbn match. split.
    + destruct (availableSlots p); cbn; discriminate.
    + intros (p' & s & _ & Hno & _). apply Hwin in Hno. discriminate.
  - destruct (find (Receptionist.withinFlexibility getTime (getTime slot))
                (availableSlots p)) as [s |] eqn:Hf.
    + pose proof (availability_draw (rating p) random) as Hdraw.
      pose proof (truthy_nonempty s) as Hne.
      destruct (Receptionist.truthy s); cbn [andb].
      * destruct (negb (Qle_bool _ random)).
        -- split; [| reflexivity]. intros _. exists p, s.
           split; [reflexivity |]. split; [now apply Hwin |]. split; [exact Hf |].
           split; [now apply Hne |]. now apply Hdraw.
        -- cbn match. split.
           ++ destruct (availableSlots p); cbn; discriminate.
           ++ intros (p' & s' & [= <-] & _ & _ & _ & Hd). apply Hdraw in Hd. discriminate.
      * cbn match. split.
        -- destruct (availableSlots p); cbn; discriminate.
        -- intros (p' & s' & [= <-] & _ & H & Hs & _). rewrite Hf in H.
           injection H as <-. apply Hne in Hs. discriminate.
    + cbn match. split.
      * destruct (availableSlots p); cbn; discriminate.
      * intros (p' & s' & [= <-] & _ & H & _). rewrite Hf in H. discriminate.
Qed.

(** The three ways a call to a known provider ends, with the length of
    the conversation. *)
Lemma simulateProviderCall_cases (pid slot : string) (desc : option string)
    (random : Q) (p : Provider) :
  getProvider pid = Some p ->
  let r := simulateProviderCall pid slot desc random in
  let d := Receptionist.responseDelay
             (Receptionist.PERSONALITIES (Receptionist.personalityOf (rating p))) in
  Receptionist.providerId r = pid
  /\ Receptionist.providerName r = name p
  /\ ((Receptionist.success r = true
       /\ (exists b, Receptionist.bookedSlot r = Some b)
       /\ Receptionist.alternativeSlots r = None
       /\ Receptionist.waitTime r = 3600 + d
       /\ List.length (Receptionist.transcript r) = 6%nat)
      \/ (Receptionist.success r = false
          /\ Receptionist.bookedSlot r = None
          /\ (exists a, Receptionist.alternativeSlots r = Some [a])
          /\ Receptionist.waitTime r = 2800 + d
          /\ List.length (Receptionist.transcript r) = 5%nat)
      \/ (Receptionist.success r = false
          /\ Receptionist.bookedSlot r = None
          /\ Receptionist.alternativeSlots r = None
          /\ Receptionist.waitTime r = 2300 + d
          /\ List.length (Receptionist.transcript r) = 4%nat)).
Proof.
  intros Hp r d. subst r.
  unfold simulateProviderCall, Receptionist.simulateProviderCall.
  fold getProvider. rewrite Hp. fold d.
  destruct (JS.num_ge (getHours slot) (Some 22) || JS.num_le (getHours slot) (Some 7)).
  - cbn match. destruct (availableSlots p) as [| s0 rest].
    + split; [reflexivity |]. split; [reflexivity |]. right. right.
      cbn [Receptionist.success Receptionist.bookedSlot Receptionist.alternativeSlots
           Receptionist.waitTime Receptionist.transcript Receptionist.sumDelays
           fold_left app List.length Receptionist.delay].
      repeat split; lia.
    + split; [reflexivity |]. split; [reflexivity |]. right. left.
      cbn [Receptionist.success Receptionist.bookedSlot Receptionist.alternativeSlots
           Receptionist.waitTime Receptionist.transcript Receptionist.sumDelays
           fold_left app List.length Receptionist.delay].
      repeat split; eauto; lia.
  - destruct (find (Receptionist.withinFlexibility getTime (getTime slot))
                (availableSlots p)) as [s |].
    + destruct (Receptionist.truthy s && negb (Qle_bool _ random)).
      * split; [reflexivity |]. split; [reflexivity |]. left.
        cbn [Receptionist.success Receptionist.bookedSlot Receptionist.alternativeSlots
             Receptionist.waitTime Receptionist.transcript Receptionist.sumDelays
             fold_left app List.length Receptionist.delay].
        repeat split; eauto; lia.
      * cbn match. destruct (availableSlots p) as [| s0 rest].
        -- split; [reflexivity |]. split; [reflexivity |]. right. right.
           cbn [Receptionist.success Receptionist.bookedSlot Receptionist.alternativeSlots
                Receptionist.waitTime Receptionist.transcript Receptionist.sumDelays
                fold_left app List.length Receptionist.delay].
           repeat split; lia.
        -- split; [reflexivity |]. split; [reflexivity |]. right. left.
           cbn [Receptionist.success Receptionist.bookedSlot Receptionist.alternativeSlots
                Receptionist.waitTime Receptionist.transcript Receptionist.sumDelays
                fold_left app List.length Receptionist.delay].
           repeat split; eauto; lia.
    + cbn match. destruct (availableSlots p) as [| s0 rest].
      * split; [reflexivity |]. split; [reflexivity |]. right. right.
        cbn [Receptionist.success Receptionist.bookedSlot Receptionist.alternativeSlots
             Receptionist.waitTime Receptionist.transcript Receptionist.sumDelays
             fold_left app List.length Receptionist.delay].
        repeat split; lia.
      * split; [reflexivity |]. split; [reflexivity |]. right. left.
        cbn [Receptionist.success Receptionist.bookedSlot Receptionist.alternativeSlots
             Receptionist.waitTime Receptionist.transcript Receptionist.sumDelays
             fold_left app List.length Receptionist.delay].
        repeat split; eauto; lia.
Qed.

Lemma responseDelay_values (r : Q) :
  let d := Receptionist.responseDelay
             (Receptionist.PERSONALITIES (Receptionist.personalityOf r)) in
  d = 1200 \/ d = 1800 \/ d = 2500.
Proof. destruct (Receptionist.personalityOf r); cbn; auto. Qed.

(** X9. The result of a call echoes the id it was given and names the
    provider found for it ([Unknown] if none).  It has a booked slot
    exactly when it is a success; alternatives come only with a failure,
    and then there is exactly one. *)
Theorem call_result_consistent :
  forall (pid slot : string) (desc : option string) (random : Q),
    let r := simulateProviderCall pid slot desc random in
    Receptionist.providerId r = pid
    /\ Receptionist.providerName r
       = match getProvider pid with Some p => name p | None => "Unknown" end
    /\ (Receptionist.success r = true <-> Receptionist.bookedSlot r <> None)
    /\ (forall alts, Receptionist.alternativeSlots r = Some alts ->
                     Receptionist.success r = false /\ exists a, alts = [a]).
Proof.
  intros pid slot desc random r.
  destruct (getProvider pid) as [p |] eqn:Hp.
  - destruct (simulateProviderCall_cases pid slot desc random p Hp)
      as (Hid & Hname & [(Hs & [b Hb] & Ha & _) | [(Hs & Hb & [a Ha] & _)
                                                  | (Hs & Hb & Ha & _)]]);
      fold r in Hid, Hname, Hs, Hb, Ha;
      (split; [exact Hid |]); (split; [exact Hname |]); rewrite Hs, Hb, Ha.
    + split; [split; [discriminate | reflexivity] | discriminate].
    + split; [split; [discriminate | congruence] |].
      intros alts [= <-]. eauto.
    + split; [split; [discriminate | congruence] | discriminate].
  - unfold r, simulateProviderCall.
    rewrite (simulateProviderCall_unknown directory todayStr tomorrowStr getTime getHours
               toLocaleStringUTC pid slot desc random Hp).
    cbn. split; [reflexivity |]. split; [reflexivity |].
    split; [split; [discriminate | congruence] | discriminate].
Qed.

(** X10. A simulated call lasts between 500 and 6100 ms, well below the
    15 s after which the orchestrator gives a call up by default, and its
    transcript has at most six lines; a booked call lasts 4800, 5400 or
    6100 ms and has exactly six. *)
Theorem call_duration_bounds :
  forall (pid slot : string) (desc : option string) (random : Q),
    let r := simulateProviderCall pid slot desc random in
    500 <= Receptionist.waitTime r <= 6100
    /\ Receptionist.waitTime r < Swarm.timeoutMs Swarm.DEFAULT_CONFIG
    /\ (1 <= List.length (Receptionist.transcript r) <= 6)%nat
    /\ (Receptionist.success r = true ->
        (Receptionist.waitTime r = 4800 \/ Receptionist.waitTime r = 5400
         \/ Receptionist.waitTime r = 6100)
        /\ List.length (Receptionist.transcript r) = 6%nat).
Proof.
  intros pid slot desc random r. cbn [Swarm.timeoutMs Swarm.DEFAULT_CONFIG].
  destruct (getProvider pid) as [p |] eqn:Hp.
  - pose proof (responseDelay_values (rating p)) as Hd. cbn zeta in Hd.
    destruct (simulateProviderCall_cases pid slot desc random p Hp)
      as (_ & _ & [(Hs & _ & _ & Hw & Hl) | [(Hs & _ & _ & Hw & Hl)
                                            | (Hs & _ & _ & Hw & Hl)]]);
      fold r in Hs, Hw, Hl; rewrite Hs, Hw, Hl;
      repeat split; try lia; try discriminate.
  - unfold r, simulateProviderCall.
    rewrite (simulateProviderCall_unknown directory todayStr tomorrowStr getTime getHours
               toLocaleStringUTC pid slot desc random Hp).
    cbn. repeat split; try lia; discriminate.
Qed.

(** X11. Whatever the provider's first slot, the alternative a failed
    call offers shows an hour of the day between 8 and 18, when its text
    shows an hour at all. *)
Theorem alternative_in_business_hours :
  forall (pid slot : string) (desc : option string) (random : Q)
         (alts : list string) (a : string) (h : Z),
    Receptionist.alternativeSlots (simulateProviderCall pid slot desc random) = Some alts ->
    In a alts ->
    hourOfText a = Some h ->
    8 <= h <= 18.
Proof.
  intros pid slot desc random alts a h Halts Ha Hh.
  unfold simulateProviderCall in Halts.
  destruct (getProvider pid) as [p |] eqn:Hp.
  - destruct (simulateProviderCall_known directory todayStr tomorrowStr getTime getHours
                toLocaleStringUTC pid slot desc random p Hp)
      as [_ [(_ & Hn & _) | [(_ & _ & s0 & rest & _ & Halt) | (_ & _ & _ & Hn)]]];
      try congruence.
    rewrite Halt in Halts. injection Halts as <-.
    destruct Ha as [<- | []]. now apply (alternativeFor_hour s0).
  - rewrite (simulateProviderCall_unknown directory todayStr tomorrowStr getTime getHours
               toLocaleStringUTC pid slot desc random Hp) in Halts.
    discriminate.
Qed.

End FurtherSimulator.

(** *** These properties on the sample directory *)

Lemma getProvider_resolves_witness :
  id Sample.harborDental = "dent_02"
  /\ (exists p, Sample.getProvider "synth_dentist_01" = Some p)
  /\ (exists q, Sample.getProvider (id Sample.brightSmile) = Some q
                /\ In q Sample.directory)
  /\ Sample.getProvider (id Sample.quickFix) = Some Sample.quickFix.
Proof.
  destruct (getProvider_resolves Sample.directory Sample.today Sample.tomorrow)
    as (H1 & H2 & H3 & H4).
  split; [apply (H1 "dent_02"); reflexivity |].
  split; [apply H2; reflexivity |].
  split; [apply H3; cbn; auto |].
  apply H4; [| cbn; auto].
  repeat constructor; cbn; intuition discriminate.
Defined.

Lemma call_succeeds_iff_witness :
  Receptionist.success
    (Sample.simulateProviderCall "dent_01" "2026-03-02T10:30:00" None 0) = true.
Proof.
  apply (proj2 (call_succeeds_iff Sample.directory Sample.today Sample.tomorrow
                  UTCHost.getTime UTCHost.getHours UTCHost.toLocaleStringUTC
                  "dent_01" "2026-03-02T10:30:00" None 0)).
  exists Sample.brightSmile, "2026-03-02T10:00:00".
  split; [reflexivity |]. split.
  { intros hour H. vm_compute in H. injection H as <-. unfold afterHours. lia. }
  split; [reflexivity |]. split; [discriminate |].
  repeat split; intros; reflexivity.
Defined.

Lemma call_result_consistent_witness :
  Receptionist.success
    (Sample.simulateProviderCall "dent_02" "2026-03-02T10:30:00" None 0) = false
  /\ exists a, ["2026-03-02T10:00:00"] = [a].
Proof.
  apply (proj2 (proj2 (proj2
           (call_result_consistent Sample.directory Sample.today Sample.tomorrow
              UTCHost.getTime UTCHost.getHours UTCHost.toLocaleStringUTC
              "dent_02" "2026-03-02T10:30:00" None 0)))).
  reflexivity.
Defined.

Lemma call_duration_bounds_witness :
  (Receptionist.waitTime
     (Sample.simulateProviderCall "dent_01" "2026-03-02T10:30:00" None 0) = 4800
   \/ Receptionist.waitTime
        (Sample.simulateProviderCall "dent_01" "2026-03-02T10:30:00" None 0) = 5400
   \/ Receptionist.waitTime
        (Sample.simulateProviderCall "dent_01" "2026-03-02T10:30:00" None 0) = 6100)
  /\ List.length
       (Receptionist.transcript
          (Sample.simulateProviderCall "dent_01" "2026-03-02T10:30:00" None 0)) = 6%nat.
Proof.
  apply (proj2 (proj2 (proj2
           (call_duration_bounds Sample.directory Sample.today Sample.tomorrow
              UTCHost.getTime UTCHost.getHours UTCHost.toLocaleStringUTC
              "dent_01" "2026-03-02T10:30:00" None 0)))).
  reflexivity.
Defined.

Lemma alternative_in_business_hours_witness : 8 <= 10 <= 18.
Proof.
  apply (alternative_in_business_hours Sample.directory Sample.today Sample.tomorrow
           UTCHost.getTime UTCHost.getHours UTCHost.toLocaleStringUTC
           "dent_02" "2026-03-02T10:30:00" None 0
           ["2026-03-02T10:00:00"] "2026-03-02T10:00:00" 10).
  - reflexivity.
  - now left.
  - reflexivity.
Defined.

(** ** Calling several providers at once ([simulateSwarmCalls]) *)

Lemma mapFrom_in {A B} (f : nat -> A -> B) (xs : list A) :
  forall (index : nat) (y : B),
    In y (SwarmCalls.mapFrom f index xs) -> exists j x, In x xs /\ y = f j x.
Proof.
  induction xs as [| x rest IH]; intros index y; cbn; [contradiction |].
  intros [<- | Hy]; [exists index, x; auto |].
  destruct (IH _ _ Hy) as (j & x' & Hx & ->). exists j, x'. auto.
Qed.

Lemma mapFrom_back {A B} (f : nat -> A -> B) (h : B -> A) (xs : list A) :
  (forall j x, h (f j x) = x) ->
  forall index, map h (SwarmCalls.mapFrom f index xs) = xs.
Proof.
  intro Hh. induction xs as [| x rest IH]; intro index; cbn; [reflexivity |].
  now rewrite Hh, IH.
Qed.

Lemma filter_all_false {A} (f : A -> bool) (l : list A) :
  filter f l = [] <-> forall x, In x l -> f x = false.
Proof.
  induction l as [| a rest IH]; cbn; [split; [contradiction | reflexivity] |].
  destruct (f a) eqn:E.
  - split; [discriminate |]. intro H. specialize (H a (or_introl eq_refl)). congruence.
  - rewrite IH. split.
    + intros H x [<- | Hx]; auto.
    + intros H x Hx. apply H. now right.
Qed.

Section SwarmCallsProperties.
Variable directory : list Provider.
Variables todayStr tomorrowStr : string.
Variable getTime : string -> option Z.
Variable getHours : string -> option Z.
Variable toLocaleStringUTC : list string -> list string -> string.
Variable Date_now : nat -> Z.
Variable randomAt : nat -> Q.

Let getProvider := Receptionist.getProvider directory todayStr tomorrowStr.
Let callOne :=
  SwarmCalls.callOne directory todayStr tomorrowStr getTime getHours
    toLocaleStringUTC randomAt.
Let bookedTime := SwarmCalls.bookedTime getTime.
Let better := SwarmCalls.better directory todayStr tomorrowStr getTime.
Let simulateSwarmCalls :=
  SwarmCalls.simulateSwarmCalls directory todayStr tomorrowStr getTime getHours
    toLocaleStringUTC Date_now randomAt.

(** The booked instant and the rating by which two results are compared. *)
Let rank (x : SwarmCalls.Outcome) : option (Z * Q) :=
  match bookedTime x, getProvider (SwarmCalls.providerId x) with
  | Some t, Some p => Some (t, rating p)
  | _, _ => None
  end.

Let beats (a b : SwarmCalls.Outcome) : Prop :=
  exists ta ra tb rb,
    rank a = Some (ta, ra) /\ rank b = Some (tb, rb)
    /\ (ta < tb \/ (ta = tb /\ (rb <= ra)%Q)).

Lemma callOne_providerId (range : TimeRange) (desc : option string)
    (index : nat) (pid : string) :
  SwarmCalls.providerId (callOne range desc index pid) = pid.
Proof.
  unfold callOne, SwarmCalls.callOne, SwarmCalls.getProvider. fold getProvider.
  destruct (getProvider pid) as [p |] eqn:Hp; [| reflexivity].
  cbn [SwarmCalls.providerId]. unfold SwarmCalls.simulateProviderCall.
  now destruct (simulateProviderCall_cases directory todayStr tomorrowStr getTime getHours
                  toLocaleStringUTC pid (SwarmCalls.slotToRequest getTime range p) desc
                  (randomAt index) p Hp) as (H & _).
Qed.

(** A successful element of [results] is a booked call to a provider that
    is found. *)
Lemma callOne_success (range : TimeRange) (desc : option string)
    (index : nat) (pid : string) :
  SwarmCalls.success (callOne range desc index pid) = true ->
  exists p s,
    getProvider pid = Some p
    /\ callOne range desc index pid
       = SwarmCalls.Called
           (Receptionist.simulateProviderCall directory todayStr tomorrowStr
              getTime getHours toLocaleStringUTC pid
              (SwarmCalls.slotToRequest getTime range p) desc (randomAt index))
    /\ find (Receptionist.withinFlexibility getTime
               (getTime (SwarmCalls.slotToRequest getTime range p)))
         (availableSlots p) = Some s
    /\ SwarmCalls.bookedSlot (callOne range desc index pid)
       = Some (JS.replace "Z" "" s).
Proof.
  unfold callOne, SwarmCalls.callOne, SwarmCalls.getProvider. fold getProvider.
  destruct (getProvider pid) as [p |] eqn:Hp; [| discriminate].
  cbn [SwarmCalls.success SwarmCalls.bookedSlot]. unfold SwarmCalls.simulateProviderCall.
  intro Hs.
  destruct (simulateProviderCall_known directory todayStr tomorrowStr getTime getHours
              toLocaleStringUTC pid (SwarmCalls.slotToRequest getTime range p) desc
              (randomAt index) p Hp)
    as [_ [(_ & _ & _ & s & Hf & Hb) | [(Hf & _) | (Hf & _)]]]; try congruence.
  exists p, s. auto.
Qed.

Lemma fold_better_in (rest : list SwarmCalls.Outcome) :
  forall first, In (fold_left better rest first) (first :: rest).
Proof.
  induction rest as [| x rest IH]; intro first; cbn [fold_left]; [now left |].
  destruct (IH (better first x)) as [H | H]; [| right; now right].
  rewrite <- H. unfold better, SwarmCalls.better.
  destruct (SwarmCalls.getProvider _ _ _ _) as [pb |]; [| now left].
  destruct (SwarmCalls.getProvider _ _ _ _) as [pc |]; [| now left].
  destruct (JS.num_lt _ _); [right; now left |].
  destruct (_ && _); [right; now left | now left].
Qed.

(** The best match is one of the successful results. *)
Lemma bestMatch_is_a_success (providerIds : list string) (range : TimeRange)
    (desc : option string) (b : SwarmCalls.Outcome) :
  SwarmCalls.bestMatch (simulateSwarmCalls providerIds range desc) = Some b ->
  In b (SwarmCalls.results (simulateSwarmCalls providerIds range desc))
  /\ SwarmCalls.success b = true
  /\ SwarmCalls.bookedSlot b <> None.
Proof.
  unfold simulateSwarmCalls, SwarmCalls.simulateSwarmCalls.
  cbn [SwarmCalls.results SwarmCalls.bestMatch]. fold callOne.
  set (results := SwarmCalls.mapFrom (callOne range desc) 0 providerIds).
  intro Hb.
  destruct (filter SwarmCalls.success results) as [| first rest] eqn:Hf; [discriminate |].
  injection Hb as <-.
  pose proof (fold_better_in rest first) as Hin. fold better.
  rewrite <- Hf in Hin. apply filter_In in Hin. destruct Hin as [Hin Hs].
  split; [exact Hin |]. split; [exact Hs |].
  apply mapFrom_in in Hin. destruct Hin as (j & pid & _ & He).
  rewrite He in Hs |- *.
  destruct (callOne_success range desc j pid Hs) as (p & s & _ & _ & _ & Hbk).
  rewrite Hbk. discriminate.
Qed.

(** X12. [simulateSwarmCalls] returns one result per provider id, in the
    order of the ids and each under its id.  The best match is [null]
    exactly when no call succeeded; otherwise it is one of the successful
    results, and it has a booked slot. *)
Theorem simulateSwarmCalls_results :
  forall (providerIds : list string) (range : TimeRange) (desc : option string),
    let out := simulateSwarmCalls providerIds range desc in
    map SwarmCalls.providerId (SwarmCalls.results out) = providerIds
    /\ (SwarmCalls.bestMatch out = None
        <-> forall x, In x (SwarmCalls.results out) -> SwarmCalls.success x = false)
    /\ (forall b, SwarmCalls.bestMatch out = Some b ->
                  In b (SwarmCalls.results out)
                  /\ SwarmCalls.success b = true
                  /\ SwarmCalls.bookedSlot b <> None).
Proof.
  intros providerIds range desc out.
  split; [| split; [| exact (bestMatch_is_a_success providerIds range desc)]];
    unfold out, simulateSwarmCalls, SwarmCalls.simulateSwarmCalls;
    cbn [SwarmCalls.results SwarmCalls.bestMatch]; fold callOne.
  - apply mapFrom_back. intros j x. apply callOne_providerId.
  - rewrite <- filter_all_false.
    destruct (filter SwarmCalls.success
                (SwarmCalls.mapFrom (callOne range desc) 0 providerIds));
      split; congruence.
Qed.

Lemma beats_refl (a : SwarmCalls.Outcome) (t : Z) (r : Q) :
  rank a = Some (t, r) -> beats a a.
Proof. intro H. exists t, r, t, r. repeat split; auto. right. split; [reflexivity | lra]. Qed.

Lemma beats_trans (a b c : SwarmCalls.Outcome) : beats a b -> beats b c -> beats a c.
Proof.
  intros (ta & ra & tb & rb & Ha & Hb & Hab) (tb' & rb' & tc & rc & Hb' & Hc & Hbc).
  rewrite Hb in Hb'. injection Hb' as <- <-.
  exists ta, ra, tc, rc. split; [exact Ha |]. split; [exact Hc |].
  destruct Hab as [Hab | [-> Hab]], Hbc as [Hbc | [-> Hbc]]; try (left; lia).
  right. split; [reflexivity | lra].
Qed.

Lemma better_spec (best current : SwarmCalls.Outcome) (tb tc : Z) (rb rc : Q) :
  rank best = Some (tb, rb) -> rank current = Some (tc, rc) ->
  beats (better best current) best /\ beats (better best current) current.
Proof.
  intros Hb Hc. pose proof Hb as Hb0. pose proof Hc as Hc0.
  unfold rank in Hb, Hc.
  destruct (bookedTime best) as [tb' |] eqn:Etb; [| discriminate].
  destruct (getProvider (SwarmCalls.providerId best)) as [pb |] eqn:Epb; [| discriminate].
  destruct (bookedTime current) as [tc' |] eqn:Etc; [| discriminate].
  destruct (getProvider (SwarmCalls.providerId current)) as [pc |] eqn:Epc;
    [| discriminate].
  injection Hb as -> Hrb. injection Hc as -> Hrc.
  assert (Hbetter : better best current
                    = if tc <? tb then current
                      else if (tc =? tb) && negb (Qle_bool (rating pc) (rating pb))
                           then current else best).
  { unfold better, SwarmCalls.better, SwarmCalls.getProvider.
    fold getProvider. fold bookedTime. now rewrite Epb, Epc, Etb, Etc. }
  rewrite Hbetter. clear Hbetter.
  destruct (tc <? tb) eqn:E1.
  - apply Z.ltb_lt in E1. split; [| now apply (beats_refl _ tc rc)].
    exists tc, rc, tb, rb. auto.
  - apply Z.ltb_ge in E1. destruct (tc =? tb) eqn:E2; cbn [andb].
    + apply Z.eqb_eq in E2. subst tc.
      destruct (Qle_bool (rating pc) (rating pb)) eqn:E3; cbn [negb].
      * apply Qle_bool_iff in E3. split; [now apply (beats_refl _ tb rb) |].
        exists tb, rb, tb, rc. repeat split; auto. right. split; [reflexivity |].
        now rewrite <- Hrb, <- Hrc.
      * assert (H : ~ (rating pc <= rating pb)%Q).
        { intro H. apply Qle_bool_iff in H. congruence. }
        split; [| now apply (beats_refl _ tb rc)].
        exists tb, rc, tb, rb. repeat split; auto. right. split; [reflexivity |].
        rewrite <- Hrb, <- Hrc. lra.
    + apply Z.eqb_neq in E2. split; [now apply (beats_refl _ tb rb) |].
      exists tb, rb, tc, rc. repeat split; auto. left. lia.
Qed.

Lemma fold_better_beats (rest : list SwarmCalls.Outcome) :
  forall first,
    (forall x, In x (first :: rest) -> rank x <> None) ->
    forall x, In x (first :: rest) -> beats (fold_left better rest first) x.
Proof.
  induction rest as [| y rest IH]; intros first Hall x Hx.
  - destruct Hx as [<- | []]. cbn.
    destruct (rank first) as [[t r] |] eqn:E; [now apply (beats_refl _ t r) |].
    exfalso. apply (Hall first); [now left | exact E].
  - cbn [fold_left].
    destruct (rank first) as [[tb rb] |] eqn:Eb;
      [| exfalso; apply (Hall first); [now left | exact Eb]].
    destruct (rank y) as [[tc rc] |] eqn:Ec;
      [| exfalso; apply (Hall y); [right; now left | exact Ec]].
    destruct (better_spec first y tb tc rb rc Eb Ec) as [H1 H2].
    assert (Hall' : forall z, In z (better first y :: rest) -> rank z <> None).
    { intros z [<- | Hz]; [| apply Hall; right; now right].
      destruct H1 as (t & r & _ & _ & E & _). congruence. }
    pose proof (IH (better first y) Hall' (better first y) (or_introl eq_refl)) as Hr.
    destruct Hx as [<- | [<- | Hx]].
    + exact (beats_trans _ _ _ Hr H1).
    + exact (beats_trans _ _ _ Hr H2).
    + apply IH; [exact Hall' | now right].
Qed.

(** X13. When the booked slot of every successful result denotes a date,
    the best match is at least as good as every successful result: it is
    booked earlier, or for the same instant with a provider whose rating
    is not lower. *)
Theorem simulateSwarmCalls_best_is_earliest :
  forall (providerIds : list string) (range : TimeRange) (desc : option string)
         (b : SwarmCalls.Outcome),
    let out := simulateSwarmCalls providerIds range desc in
    (forall x, In x (SwarmCalls.results out) -> SwarmCalls.success x = true ->
               bookedTime x <> None) ->
    SwarmCalls.bestMatch out = Some b ->
    forall x, In x (SwarmCalls.results out) -> SwarmCalls.success x = true ->
      exists tb tx pb px,
        bookedTime b = Some tb /\ bookedTime x = Some tx
        /\ getProvider (SwarmCalls.providerId b) = Some pb
        /\ getProvider (SwarmCalls.providerId x) = Some px
        /\ (tb < tx \/ (tb = tx /\ (rating px <= rating pb)%Q)).
Proof.
  intros providerIds range desc b out.
  unfold out, simulateSwarmCalls, SwarmCalls.simulateSwarmCalls.
  cbn [SwarmCalls.results SwarmCalls.bestMatch]. fold callOne. fold better.
  set (results := SwarmCalls.mapFrom (callOne range desc) 0 providerIds).
  intros Htimes Hb x Hx Hs.
  destruct (filter SwarmCalls.success results) as [| first rest] eqn:Hf; [discriminate |].
  injection Hb as <-.
  assert (Hrank : forall z, In z (first :: rest) -> rank z <> None).
  { intros z Hz. rewrite <- Hf in Hz. apply filter_In in Hz. destruct Hz as [Hz Hzs].
    pose proof (Htimes z Hz Hzs) as Ht.
    apply mapFrom_in in Hz. destruct Hz as (j & pid & _ & He).
    rewrite He in Hzs. destruct (callOne_success range desc j pid Hzs) as (p & s & Hp & _).
    unfold rank. rewrite He in Ht |- *. rewrite callOne_providerId, Hp.
    destruct (bookedTime (callOne range desc j pid)); congruence. }
  assert (Hin : In x (first :: rest)).
  { rewrite <- Hf. apply filter_In. auto. }
  destruct (fold_better_beats rest first Hrank x Hin)
    as (tb & rb & tx & rx & Hrb & Hrx & Hord).
  unfold rank in Hrb, Hrx.
  destruct (bookedTime (fold_left better rest first)) as [tb' |]; [| discriminate].
  destruct (getProvider (SwarmCalls.providerId (fold_left better rest first)))
    as [pb |]; [| discriminate].
  destruct (bookedTime x) as [tx' |]; [| discriminate].
  destruct (getProvider (SwarmCalls.providerId x)) as [px |]; [| discriminate].
  injection Hrb as -> <-. injection Hrx as -> <-.
  exists tb, tx, pb, px. auto.
Qed.

(** X14. With a preferred range whose two ends denote dates, start not
    after end, every booking made by [simulateSwarmCalls] is for a slot of
    the provider that lies at most one hour outside the range. *)
Theorem simulateSwarmCalls_books_near_range :
  forall (providerIds : list string) (range : TimeRange) (desc : option string)
         (x : SwarmCalls.Outcome) (lo hi : Z),
    getTime (range_start range) = Some lo ->
    getTime (range_end range) = Some hi ->
    lo <= hi ->
    In x (SwarmCalls.results (simulateSwarmCalls providerIds range desc)) ->
    SwarmCalls.success x = true ->
    exists p s t,
      getProvider (SwarmCalls.providerId x) = Some p
      /\ In s (availableSlots p)
      /\ SwarmCalls.bookedSlot x = Some (JS.replace "Z" "" s)
      /\ getTime s = Some t
      /\ lo - 3600000 <= t <= hi + 3600000.
Proof.
  intros providerIds range desc x lo hi Hlo Hhi Hle Hx Hs.
  unfold simulateSwarmCalls, SwarmCalls.simulateSwarmCalls in Hx.
  cbn [SwarmCalls.results] in Hx. fold callOne in Hx.
  apply mapFrom_in in Hx. destruct Hx as (j & pid & _ & ->).
  destruct (callOne_success range desc j pid Hs) as (p & s & Hp & _ & Hf & Hb).
  rewrite callOne_providerId. exists p, s.
  apply find_some in Hf. destruct Hf as [Hin Hw].
  unfold Receptionist.withinFlexibility in Hw.
  destruct (getTime s) as [t |]; [| discriminate].
  exists t. split; [exact Hp |]. split; [exact Hin |]. split; [exact Hb |].
  split; [reflexivity |].
  destruct (getTime (SwarmCalls.slotToRequest getTime range p)) as [tr |] eqn:Hr;
    [| discriminate].
  apply Z.leb_le in Hw.
  assert (Hreq : lo <= tr <= hi).
  { unfold SwarmCalls.slotToRequest in Hr.
    destruct (find (SwarmCalls.inRange getTime range) (availableSlots p)) as [m |] eqn:Hm.
    - destruct (Receptionist.truthy m).
      + apply find_some in Hm. destruct Hm as [_ Hm].
        unfold SwarmCalls.inRange, JS.num_ge, JS.num_le in Hm.
        rewrite Hr, Hlo, Hhi in Hm. apply andb_true_iff in Hm.
        destruct Hm as [H1 H2]. apply Z.leb_le in H1, H2. lia.
      + rewrite Hlo in Hr. injection Hr as <-. lia.
    - rewrite Hlo in Hr. injection Hr as <-. lia. }
  lia.
Qed.

End SwarmCallsProperties.

Lemma simulateSwarmCalls_results_witness :
  In sampleBest (SwarmCalls.results sampleSwarmCalls)
  /\ SwarmCalls.success sampleBest = true
  /\ SwarmCalls.bookedSlot sampleBest <> None.
Proof.
  apply (proj2 (proj2 (simulateSwarmCalls_results Sample.directory Sample.today
                         Sample.tomorrow UTCHost.getTime UTCHost.getHours
                         UTCHost.toLocaleStringUTC UTCHost.Date_now (fun _ => 0%Q)
                         ["dent_03"; "dent_02"; "dent_01"]
                         (preferredTimeRange Sample.morning) None)) sampleBest).
  reflexivity.
Defined.

Example sample_best_is_the_better_rated :
  SwarmCalls.providerId sampleBest = "dent_01".
Proof. reflexivity. Qed.

Lemma simulateSwarmCalls_best_is_earliest_witness :
  exists tb tx pb px,
    SwarmCalls.bookedTime UTCHost.getTime sampleBest = Some tb
    /\ SwarmCalls.bookedTime UTCHost.getTime sampleBest = Some tx
    /\ Sample.getProvider (SwarmCalls.providerId sampleBest) = Some pb
    /\ Sample.getProvider (SwarmCalls.providerId sampleBest) = Some px
    /\ (tb < tx \/ (tb = tx /\ (rating px <= rating pb)%Q)).
Proof.
  apply (simulateSwarmCalls_best_is_earliest Sample.directory Sample.today
           Sample.tomorrow UTCHost.getTime UTCHost.getHours
           UTCHost.toLocaleStringUTC UTCHost.Date_now (fun _ => 0%Q)
           ["dent_03"; "dent_02"; "dent_01"]
           (preferredTimeRange Sample.morning) None sampleBest).
  - intros x [<- | [<- | [<- | []]]] Hs; try discriminate Hs; vm_compute; discriminate.
  - reflexivity.
  - right. right. left. reflexivity.
  - reflexivity.
Defined.

Lemma simulateSwarmCalls_books_near_range_witness :
  exists lo hi,
    UTCHost.getTime (range_start (preferredTimeRange Sample.morning)) = Some lo
    /\ UTCHost.getTime (range_end (preferredTimeRange Sample.morning)) = Some hi
    /\ exists p s t,
         Sample.getProvider (SwarmCalls.providerId sampleBest) = Some p
         /\ In s (availableSlots p)
         /\ SwarmCalls.bookedSlot sampleBest = Some (JS.replace "Z" "" s)
         /\ UTCHost.getTime s = Some t
         /\ lo - 3600000 <= t <= hi + 3600000.
Proof.
  eexists. eexists.
  assert (H : forall A B C : Prop, A -> B -> (A -> B -> C) -> A /\ B /\ C) by tauto.
  apply H; [reflexivity | reflexivity |]. intros Hlo Hhi.
  apply (simulateSwarmCalls_books_near_range Sample.directory Sample.today
           Sample.tomorrow UTCHost.getTime UTCHost.getHours
           UTCHost.toLocaleStringUTC UTCHost.Date_now (fun _ => 0%Q)
           ["dent_03"; "dent_02"; "dent_01"]
           (preferredTimeRange Sample.morning) None sampleBest _ _ Hlo Hhi).
  - vm_compute. discriminate.
  - right. right. left. reflexivity.
  - reflexivity.
Defined.

(** ** The webhook's answer to a swarm request ([handleSwarmCalls]) *)

Lemma mapFrom_length {A B} (f : nat -> A -> B) (xs : list A) :
  forall index, List.length (SwarmCalls.mapFrom f index xs) = List.length xs.
Proof. induction xs as [| x rest IH]; intro index; cbn; [reflexivity | now rewrite IH]. Qed.

Lemma filter_split_length {A} (f : A -> bool) (l : list A) :
  (List.length (filter f l) + List.length (filter (fun x => negb (f x)) l)
   = List.length l)%nat.
Proof. induction l as [| a rest IH]; cbn; [reflexivity |]. destruct (f a); cbn; lia. Qed.

Section WebhookProperties.
Variable directory : list Provider.
Variables todayStr tomorrowStr : string.
Variable getTime : string -> option Z.
Variable getHours : string -> option Z.
Variable toLocaleStringUTC : list string -> list string -> string.
Variable toLocaleStringYear : list string -> list string -> string.
Variable Date_now : nat -> Z.
Variable randomAt : nat -> Q.

Let handleSwarmCalls :=
  Webhook.handleSwarmCalls directory todayStr tomorrowStr getTime getHours
    toLocaleStringUTC toLocaleStringYear Date_now randomAt.
Let simulateSwarmCalls :=
  SwarmCalls.simulateSwarmCalls directory todayStr tomorrowStr getTime getHours
    toLocaleStringUTC Date_now randomAt.

Lemma results_booked_are_successes (providerIds : list string) (range : TimeRange)
    (desc : option string) (x : SwarmCalls.Outcome) :
  In x (SwarmCalls.results (simulateSwarmCalls providerIds range desc)) ->
  SwarmCalls.bookedSlot x <> None -> SwarmCalls.success x = true.
Proof.
  intros Hx Hb. cbn in Hx. apply mapFrom_in in Hx. destruct Hx as (j & pid & _ & ->).
  revert Hb. unfold SwarmCalls.callOne, SwarmCalls.getProvider.
  destruct (Receptionist.getProvider directory todayStr tomorrowStr pid) as [p |] eqn:Hp;
    [| cbn; congruence].
  cbn [SwarmCalls.bookedSlot SwarmCalls.success]. unfold SwarmCalls.simulateProviderCall.
  destruct (simulateProviderCall_cases directory todayStr tomorrowStr getTime getHours
              toLocaleStringUTC pid (SwarmCalls.slotToRequest getTime range p) desc
              (randomAt j) p Hp)
    as (_ & _ & [(Hs & _) | [(_ & Hb & _) | (_ & Hb & _)]]); congruence.
Qed.

(** X15. [handleSwarmCalls] answers every request (it never throws on a
    best match without a slot): one line per provider id, in order; the
    counts of successes and of failures add up to the number of calls;
    the answer names a best match exactly when at least one call
    succeeded; and only successful lines show a booked slot. *)
Theorem handleSwarmCalls_responds :
  forall (provider_ids : list string) (range : TimeRange) (desc : option string),
    exists resp,
      handleSwarmCalls provider_ids range desc = Some resp
      /\ Webhook.total_calls resp = List.length provider_ids
      /\ (Webhook.successful_bookings resp + Webhook.failed_or_unavailable resp
          = Webhook.total_calls resp)%nat
      /\ map Webhook.provider_id (Webhook.response_results resp) = provider_ids
      /\ (Webhook.best_match resp = None <-> Webhook.successful_bookings resp = 0%nat)
      /\ (forall line, In line (Webhook.response_results resp) ->
                       Webhook.booked_slot_iso line <> None ->
                       Webhook.line_success line = true).
Proof.
  intros provider_ids range desc.
  pose proof (bestMatch_is_a_success directory todayStr tomorrowStr getTime getHours
                toLocaleStringUTC Date_now randomAt provider_ids range desc) as Hsome.
  pose proof (results_booked_are_successes provider_ids range desc) as Hbooked.
  unfold handleSwarmCalls, Webhook.handleSwarmCalls.
  fold simulateSwarmCalls in Hsome |- *.
  set (out := simulateSwarmCalls provider_ids range desc) in *.
  assert (Hids : map SwarmCalls.providerId (SwarmCalls.results out) = provider_ids).
  { unfold out, simulateSwarmCalls, SwarmCalls.simulateSwarmCalls.
    cbn [SwarmCalls.results]. apply mapFrom_back. intros j x.
    apply (callOne_providerId directory todayStr tomorrowStr getTime getHours
             toLocaleStringUTC randomAt). }
  assert (Hnone : SwarmCalls.bestMatch out = None
                  <-> forall x, In x (SwarmCalls.results out) ->
                                SwarmCalls.success x = false).
  { rewrite <- filter_all_false.
    unfold out, simulateSwarmCalls, SwarmCalls.simulateSwarmCalls.
    cbn [SwarmCalls.results SwarmCalls.bestMatch].
    destruct (filter SwarmCalls.success _); split; congruence. }
  assert (Hlen : List.length (SwarmCalls.results out) = List.length provider_ids).
  { unfold out, simulateSwarmCalls, SwarmCalls.simulateSwarmCalls.
    cbn [SwarmCalls.results]. apply mapFrom_length. }
  assert (Hsum : (List.length (filter SwarmCalls.success (SwarmCalls.results out))
                  + List.length (filter (fun r => negb (SwarmCalls.success r))
                                   (SwarmCalls.results out))
                  = List.length provider_ids)%nat).
  { rewrite <- Hlen. apply filter_split_length. }
  assert (Hlines : forall line,
             In line
               (map (fun r =>
                       {| Webhook.provider_id := SwarmCalls.providerId r;
                          Webhook.provider_name := SwarmCalls.providerName r;
                          Webhook.line_success := SwarmCalls.success r;
                          Webhook.booked_slot :=
                            Webhook.whenBooked (SwarmCalls.bookedSlot r)
                              (Webhook.formatForUser toLocaleStringYear);
                          Webhook.booked_slot_iso :=
                            Webhook.whenBooked (SwarmCalls.bookedSlot r)
                              Webhook.stripTzSuffix;
                          Webhook.line_message := SwarmCalls.message r |})
                  (SwarmCalls.results out)) ->
             Webhook.booked_slot_iso line <> None -> Webhook.line_success line = true).
  { intros line Hl. apply in_map_iff in Hl. destruct Hl as (r & <- & Hr).
    cbn [Webhook.booked_slot_iso Webhook.line_success]. intro Hb.
    apply (Hbooked r Hr). intro Hn. apply Hb. now rewrite Hn. }
  assert (Hzero : SwarmCalls.bestMatch out = None
                  <-> List.length (filter SwarmCalls.success (SwarmCalls.results out))
                      = 0%nat).
  { rewrite Hnone, <- filter_all_false.
    destruct (filter SwarmCalls.success (SwarmCalls.results out)); split;
      cbn; congruence. }
  destruct (SwarmCalls.bestMatch out) as [b |] eqn:Hb.
  - destruct (Hsome b eq_refl) as (_ & _ & Hslot).
    destruct (SwarmCalls.bookedSlot b) as [slot |]; [| congruence].
    eexists. split; [reflexivity |].
    cbn [Webhook.total_calls Webhook.successful_bookings Webhook.failed_or_unavailable
         Webhook.response_results Webhook.best_match].
    split; [reflexivity |]. split; [exact Hsum |].
    split; [now rewrite map_map |]. split; [| exact Hlines].
    rewrite <- Hzero. split; discriminate.
  - eexists. split; [reflexivity |].
    cbn [Webhook.total_calls Webhook.successful_bookings Webhook.failed_or_unavailable
         Webhook.response_results Webhook.best_match].
    split; [reflexivity |]. split; [exact Hsum |].
    split; [now rewrite map_map |]. split; [| exact Hlines].
    rewrite <- Hzero. split; reflexivity.
Qed.

End WebhookProperties.

Lemma handleSwarmCalls_responds_witness :
  exists resp,
    Webhook.handleSwarmCalls Sample.directory Sample.today Sample.tomorrow
      UTCHost.getTime UTCHost.getHours UTCHost.toLocaleStringUTC
      UTCHost.toLocaleStringUTC UTCHost.Date_now (fun _ => 0%Q)
      ["dent_03"; "dent_02"; "dent_01"] (preferredTimeRange Sample.morning) None
    = Some resp
    /\ Webhook.successful_bookings resp = 2%nat
    /\ Webhook.failed_or_unavailable resp = 1%nat
    /\ Webhook.best_match resp <> None.
Proof.
  destruct (handleSwarmCalls_responds Sample.directory Sample.today Sample.tomorrow
              UTCHost.getTime UTCHost.getHours UTCHost.toLocaleStringUTC
              UTCHost.toLocaleStringUTC UTCHost.Date_now (fun _ => 0%Q)
              ["dent_03"; "dent_02"; "dent_01"] (preferredTimeRange Sample.morning) None)
    as (resp & Hrun & _ & _ & _ & Hbest & _).
  exists resp. split; [exact Hrun |].
  vm_compute in Hrun. injection Hrun as <-.
  split; [reflexivity |]. split; [reflexivity |]. discriminate.
Defined.

(** ** More on a run of the orchestrator *)


Lemma selectBestMatch_member (directory : list Provider) (todayStr tomorrowStr : string)
    (getTime : string -> option Z) (all : list Swarm.SwarmCallStatus) :
  (forall b, Swarm.selectBestMatch directory todayStr tomorrowStr getTime all = Some b ->
             In b (filter Swarm.hasBooking all))
  /\ (Swarm.selectBestMatch directory todayStr tomorrowStr getTime all = None
      <-> filter Swarm.hasBooking all = []).
Proof.
  unfold Swarm.selectBestMatch.
  pose proof (Array_sort_perm (Swarm.bestCompare directory todayStr tomorrowStr getTime)
                (filter Swarm.hasBooking all)) as Hperm.
  destruct (filter Swarm.hasBooking all) as [| x rest] eqn:E.
  - split; [discriminate | split; reflexivity].
  - rewrite <- E in *.
    destruct (Array_sort _ (filter Swarm.hasBooking all)) as [| y sorted] eqn:Es.
    + apply Permutation_length in Hperm. rewrite E in Hperm. discriminate.
    + cbn [hd_error]. split.
      * intros b [= <-]. apply (Permutation_in y Hperm). now left.
      * split; [discriminate | rewrite E; discriminate].
Qed.

Section FurtherSwarm.
Variable directory : list Provider.
Variables todayStr tomorrowStr : string.
Variable getTime : string -> option Z.
Variable getHours : string -> option Z.
Variable toLocaleStringUTC : list string -> list string -> string.
Variable Date_now : nat -> Z.
Variable race : string -> Swarm.RaceOutcome.
Variable config : Swarm.SwarmConfig.
Variable requestedSlot : string.
Variable serviceDescription : option string.

Let launchedBatches :=
  Swarm.launchedBatches directory todayStr tomorrowStr getTime getHours
    toLocaleStringUTC race config requestedSlot serviceDescription.
Let executeSwarm :=
  Swarm.executeSwarm directory todayStr tomorrowStr getTime getHours
    toLocaleStringUTC Date_now race config.





(** X18. The best match of a run is one of its successful bookings and
    carries the result of a call that succeeded, with a booked slot that
    is not empty; without successful bookings there is none.  With a
    [Date] that still reads a slot once its [Z] is taken out, there is a
    best match as soon as one call succeeds. *)
Theorem bestMatch_among_successes :
  forall (providers : list Provider) (fuel : nat)
         (res : Swarm.SwarmResult) (o : Swarm.Orchestrator),
    executeSwarm fuel providers requestedSlot serviceDescription = Some (res, o) ->
    (forall b, Swarm.bestMatch res = Some b ->
               In b (Swarm.successfulBookings res)
               /\ exists r slot,
                    Swarm.result b = Some r
                    /\ Receptionist.success r = true
                    /\ Receptionist.bookedSlot r = Some slot
                    /\ slot <> EmptyString)
    /\ (Swarm.successfulBookings res = [] -> Swarm.bestMatch res = None)
    /\ ((forall slot t,
            getTime slot = Some t ->
            JS.replace "Z" "" slot <> EmptyString
            /\ exists t', getTime (JS.replace "Z" "" slot) = Some t') ->
        Swarm.successfulBookings res <> [] -> Swarm.bestMatch res <> None).
Proof.
  intros providers fuel res o Hrun.
  pose proof (executeSwarm_bestMatch directory todayStr tomorrowStr getTime getHours
                toLocaleStringUTC Date_now race config requestedSlot serviceDescription
                fuel providers res o Hrun) as Hbest.
  pose proof (executeSwarm_success_carries_result directory todayStr tomorrowStr getTime
                getHours toLocaleStringUTC Date_now race config requestedSlot
                serviceDescription fuel providers res o Hrun) as Hgood.
  assert (Hsucc : Swarm.successfulBookings res
                  = filter (fun s => Swarm.CallState_eqb (Swarm.status s) Swarm.success)
                      (Swarm.callStatuses res)).
  { unfold executeSwarm, Swarm.executeSwarm in Hrun.
    destruct (Swarm.createBatches fuel providers (Swarm.maxConcurrentCalls config));
      [| discriminate].
    injection Hrun as <- _. reflexivity. }
  destruct (selectBestMatch_member directory todayStr tomorrowStr getTime
              (Swarm.callStatuses res)) as [Hhd Hnone].
  rewrite <- Hbest in Hhd, Hnone.
  split; [| split].
  - intros b Hb. apply Hhd in Hb. apply filter_In in Hb. destruct Hb as [Hin Hhas].
    unfold Swarm.hasBooking in Hhas. apply andb_true_iff in Hhas.
    destruct Hhas as [Hst Hslot]. split.
    + rewrite Hsucc. apply filter_In. auto.
    + apply CallState_eqb_true in Hst. rewrite Forall_forall in Hgood.
      destruct (Hgood b Hin Hst) as (pid & random & Hres & Hok).
      rewrite Hres in Hslot |- *.
      destruct (Receptionist.bookedSlot _) as [slot |] eqn:Hbk; [| discriminate].
      eexists. exists slot. split; [reflexivity |]. split; [exact Hok |].
      split; [exact Hbk |]. now apply truthy_nonempty.
  - intro Hempty. apply Hnone.
    apply filter_all_false. intros s Hs. unfold Swarm.hasBooking.
    rewrite Hsucc in Hempty.
    rewrite (proj1 (filter_all_false _ _) Hempty s Hs). reflexivity.
  - intros Hhost Hne Hno. apply Hnone in Hno. apply Hne. rewrite Hsucc.
    apply filter_all_false. intros s Hin.
    destruct (Swarm.CallState_eqb (Swarm.status s) Swarm.success) eqn:Hst;
      [| reflexivity].
    exfalso. apply CallState_eqb_true in Hst.
    pose proof (executeSwarm_statuses_wellBooked directory todayStr tomorrowStr getTime
                  getHours toLocaleStringUTC Date_now race config requestedSlot
                  serviceDescription fuel providers res o Hhost Hrun s Hin Hst) as Hw.
    destruct Hw as (r & slot & t & Hr & Hsl & Hnes & _).
    pose proof (proj1 (filter_all_false _ _) Hno s Hin) as Hf.
    unfold Swarm.hasBooking in Hf. rewrite Hst, Hr, Hsl in Hf. cbn in Hf.
    apply truthy_nonempty in Hnes. congruence.
Qed.

End FurtherSwarm.



Lemma bestMatch_among_successes_witness :
  exists res o b,
    Sample.executeSwarm Sample.allAtOnce 4 Sample.callOrder "2026-03-02T10:30:00" None
    = Some (res, o)
    /\ Swarm.bestMatch res = Some b
    /\ In b (Swarm.successfulBookings res)
    /\ exists r slot,
         Swarm.result b = Some r
         /\ Receptionist.success r = true
         /\ Receptionist.bookedSlot r = Some slot
         /\ slot <> EmptyString.
Proof.
  destruct (Sample.executeSwarm Sample.allAtOnce 4 Sample.callOrder
              "2026-03-02T10:30:00" None) as [[res o] |] eqn:Hrun;
    [| vm_compute in Hrun; discriminate].
  destruct (Swarm.bestMatch res) as [b |] eqn:Hb.
  - exists res, o, b. split; [reflexivity |]. split; [exact Hb |].
    exact (proj1 (bestMatch_among_successes Sample.directory Sample.today Sample.tomorrow
                    UTCHost.getTime UTCHost.getHours UTCHost.toLocaleStringUTC
                    UTCHost.Date_now Sample.race Sample.allAtOnce "2026-03-02T10:30:00"
                    None Sample.callOrder 4 res o Hrun) b Hb).
  - exfalso. vm_compute in Hrun. injection Hrun as <- _. discriminate Hb.
Defined.

(** *** Aborting *)

Section AbortProperties.
Variable keys : list string.
Hypothesis keys_distinct : NoDup keys.






End AbortProperties.


(** *** The one-off call ([executeSwarmCalls]) *)

Section ConvenienceCall.
Variable directory : list Provider.
Variables todayStr tomorrowStr : string.
Variable getTime : string -> option Z.
Variable getHours : string -> option Z.
Variable toLocaleStringUTC : list string -> list string -> string.
Variable Date_now : nat -> Z.
Variable race : string -> Swarm.RaceOutcome.

Let executeSwarmCalls :=
  SwarmApi.executeSwarmCalls directory todayStr tomorrowStr getTime getHours
    toLocaleStringUTC Date_now race.



End ConvenienceCall.


(** *** Statuses and the results they carry *)

Lemma Map_get_value (m : Swarm.StatusMap) (k : string) (s : Swarm.SwarmCallStatus) :
  Swarm.Map_get m k = Some s -> In s (Swarm.Map_values m).
Proof.
  induction m as [| [k0 v] rest IH]; cbn; [discriminate |].
  destruct (String.eqb k0 k); [intros [= <-]; now left | intro H; right; now apply IH].
Qed.

Lemma initialStatuses_blank (ps : list Provider) :
  Forall (fun s =>
            (Swarm.status s = Swarm.success ->
             exists r, Swarm.result s = Some r /\ Receptionist.success r = true)
            /\ (Swarm.status s = Swarm.failed ->
                exists r, Swarm.result s = Some r /\ Receptionist.success r = false)
            /\ (Swarm.status s = Swarm.pending \/ Swarm.status s = Swarm.cancelled ->
                Swarm.startedAt s = None /\ Swarm.completedAt s = None
                /\ Swarm.result s = None)
            /\ (Swarm.status s = Swarm.success \/ Swarm.status s = Swarm.failed
                \/ Swarm.status s = Swarm.timeout ->
                Swarm.completedAt s <> None))
    (Swarm.Map_values (Swarm.initialStatuses ps)).
Proof.
  unfold Swarm.initialStatuses.
  set (P := fun s : Swarm.SwarmCallStatus => _).
  assert (H : forall m,
             Forall P (Swarm.Map_values m) ->
             Forall P
               (Swarm.Map_values
                  (fold_left (fun m p =>
                                Swarm.Map_set m (id p)
                                  {| Swarm.providerId := id p;
                                     Swarm.providerName := name p;
                                     Swarm.status := Swarm.pending;
                                     Swarm.startedAt := None;
                                     Swarm.completedAt := None;
                                     Swarm.result := None |}) ps m))).
  { induction ps as [| p rest IH]; intros m Hm; cbn; [exact Hm |].
    apply IH. apply Map_set_Forall; [exact Hm |].
    unfold P. repeat split; cbn; intros; intuition discriminate. }
  apply H. constructor.
Qed.

Section StatusRecords.
Variable directory : list Provider.
Variables todayStr tomorrowStr : string.
Variable getTime : string -> option Z.
Variable getHours : string -> option Z.
Variable toLocaleStringUTC : list string -> list string -> string.
Variable Date_now : nat -> Z.
Variable race : string -> Swarm.RaceOutcome.
Variable config : Swarm.SwarmConfig.
Variable requestedSlot : string.
Variable serviceDescription : option string.

Let coherent (s : Swarm.SwarmCallStatus) : Prop :=
  (Swarm.status s = Swarm.success ->
   exists r, Swarm.result s = Some r /\ Receptionist.success r = true)
  /\ (Swarm.status s = Swarm.failed ->
      exists r, Swarm.result s = Some r /\ Receptionist.success r = false)
  /\ (Swarm.status s = Swarm.pending \/ Swarm.status s = Swarm.cancelled ->
      Swarm.startedAt s = None /\ Swarm.completedAt s = None /\ Swarm.result s = None)
  /\ (Swarm.status s = Swarm.success \/ Swarm.status s = Swarm.failed
      \/ Swarm.status s = Swarm.timeout ->
      Swarm.completedAt s <> None).
Let allCoherent (o : Swarm.Orchestrator) : Prop :=
  Forall coherent (Swarm.Map_values (Swarm.statuses o)).

Lemma updateStatus_coherent (o : Swarm.Orchestrator) (v : Swarm.SwarmCallStatus) :
  allCoherent o -> coherent v -> allCoherent (Swarm.updateStatus o v).
Proof. intros Ho Hv. unfold allCoherent. cbn. now apply Map_set_Forall. Qed.

Lemma launchCall_coherent (o : Swarm.Orchestrator) (p : Provider) :
  allCoherent o -> allCoherent (Swarm.launchCall Date_now o p).
Proof.
  intro Ho. unfold Swarm.launchCall.
  destruct (Swarm.Map_get (Swarm.statuses o) (id p)) as [s |]; [| exact Ho].
  apply updateStatus_coherent; [exact Ho |].
  repeat split; cbn; intros; intuition discriminate.
Qed.

Lemma settleCall_coherent (o : Swarm.Orchestrator) (p : Provider) :
  allCoherent o ->
  allCoherent (Swarm.settleCall directory todayStr tomorrowStr getTime getHours
                 toLocaleStringUTC Date_now race requestedSlot serviceDescription o p).
Proof.
  intro Ho. unfold Swarm.settleCall.
  destruct (Swarm.Map_get (Swarm.statuses o) (id p)) as [s |]; [| exact Ho].
  destruct (race (id p)) as [| random].
  - apply updateStatus_coherent; [exact Ho |].
    repeat split; cbn; intros; intuition discriminate.
  - apply updateStatus_coherent; [exact Ho |].
    destruct (Receptionist.success
                (Swarm.simulateProviderCall directory todayStr tomorrowStr getTime
                   getHours toLocaleStringUTC (id p) requestedSlot serviceDescription
                   random)) eqn:E;
      (split; [| split; [| split]]); cbn; intros; try intuition discriminate.
    + eexists. split; [reflexivity | exact E].
    + eexists. split; [reflexivity | exact E].
Qed.

Lemma fold_coherent {A} (step : Swarm.Orchestrator -> A -> Swarm.Orchestrator)
    (xs : list A) :
  (forall o x, allCoherent o -> allCoherent (step o x)) ->
  forall o, allCoherent o -> allCoherent (fold_left step xs o).
Proof.
  intro Hstep. induction xs as [| x rest IH]; intros o Ho; cbn; [exact Ho |].
  apply IH, Hstep, Ho.
Qed.

Lemma cancelRemainingCalls_coherent (o : Swarm.Orchestrator) :
  allCoherent o -> allCoherent (Swarm.cancelRemainingCalls o).
Proof.
  intro Ho. unfold Swarm.cancelRemainingCalls, allCoherent. cbn [Swarm.statuses].
  apply (fold_coherent _ (Swarm.statuses o)); [| exact Ho].
  intros acc entry Hacc.
  destruct (Swarm.Map_get (Swarm.statuses acc) (fst entry)) as [s |] eqn:Hget;
    [| exact Hacc].
  destruct (Swarm.CallState_eqb (Swarm.status s) Swarm.pending) eqn:Ep; [| exact Hacc].
  apply updateStatus_coherent; [exact Hacc |].
  apply CallState_eqb_true in Ep.
  unfold allCoherent in Hacc. rewrite Forall_forall in Hacc.
  destruct (Hacc s (Map_get_value _ _ _ Hget)) as (_ & _ & Hnone & _).
  specialize (Hnone (or_introl Ep)).
  repeat split; cbn; intros; try intuition discriminate; apply Hnone.
Qed.

Lemma scanResults_coherent (results : list Swarm.SwarmCallStatus) :
  forall (o : Swarm.Orchestrator) (fs : option Swarm.SwarmCallStatus),
    allCoherent o -> allCoherent (fst (Swarm.scanResults config results o fs)).
Proof.
  induction results as [| r rest IH]; intros o fs Ho; cbn; [exact Ho |].
  destruct (Swarm.CallState_eqb (Swarm.status r) Swarm.success); [| now apply IH].
  destruct fs; [now apply IH |].
  destruct (Swarm.stopOnFirstSuccess config); [| now apply IH].
  cbn. now apply cancelRemainingCalls_coherent.
Qed.

Lemma runBatches_coherent (batches : list (list Provider)) :
  forall (o : Swarm.Orchestrator) (fs : option Swarm.SwarmCallStatus),
    allCoherent o ->
    allCoherent (Swarm.runBatches directory todayStr tomorrowStr getTime getHours
                   toLocaleStringUTC Date_now race config requestedSlot
                   serviceDescription batches o fs).
Proof.
  induction batches as [| batch rest IH]; intros o fs Ho; cbn; [exact Ho |].
  destruct (Swarm.aborted o); [exact Ho |].
  destruct (Swarm.stopOnFirstSuccess config
            && match fs with Some _ => true | None => false end); [exact Ho |].
  set (o1 := Swarm.executeBatch _ _ _ _ _ _ _ _ _ _ o batch).
  assert (H1 : allCoherent o1).
  { unfold o1, Swarm.executeBatch.
    apply fold_coherent; [intros; now apply settleCall_coherent |].
    apply fold_coherent; [intros; now apply launchCall_coherent | exact Ho]. }
  pose proof (scanResults_coherent (Swarm.batchResults o1 batch) o1 fs H1) as H2.
  destruct (Swarm.scanResults config (Swarm.batchResults o1 batch) o1 fs) as [o2 fs'].
  now apply IH.
Qed.

(** X21. In the statuses a run returns, the state agrees with the rest of
    the record: a [success] carries a result that succeeded and a
    [failed] one that did not; a call that is [cancelled] (or still
    [pending]) was never started and has no start time, end time or
    result; and every settled call has an end time. *)
Theorem statuses_agree_with_results :
  forall (fuel : nat) (providers : list Provider)
         (res : Swarm.SwarmResult) (o : Swarm.Orchestrator),
    Swarm.executeSwarm directory todayStr tomorrowStr getTime getHours
      toLocaleStringUTC Date_now race config fuel providers requestedSlot
      serviceDescription = Some (res, o) ->
    forall s, In s (Swarm.callStatuses res) ->
      (Swarm.status s = Swarm.success ->
       exists r, Swarm.result s = Some r /\ Receptionist.success r = true)
      /\ (Swarm.status s = Swarm.failed ->
          exists r, Swarm.result s = Some r /\ Receptionist.success r = false)
      /\ (Swarm.status s = Swarm.pending \/ Swarm.status s = Swarm.cancelled ->
          Swarm.startedAt s = None /\ Swarm.completedAt s = None
          /\ Swarm.result s = None)
      /\ (Swarm.status s = Swarm.success \/ Swarm.status s = Swarm.failed
          \/ Swarm.status s = Swarm.timeout ->
          Swarm.completedAt s <> None).
Proof.
  intros fuel providers res o Hrun.
  assert (Hall : Forall coherent (Swarm.callStatuses res)).
  { unfold Swarm.executeSwarm in Hrun.
    destruct (Swarm.createBatches fuel providers (Swarm.maxConcurrentCalls config))
      as [batches |]; [| discriminate].
    injection Hrun as <- _. cbn [Swarm.callStatuses].
    apply runBatches_coherent. unfold allCoherent. cbn [Swarm.statuses].
    eapply Forall_impl; [| apply initialStatuses_blank]. intros s Hs. exact Hs. }
  intros s Hs. rewrite Forall_forall in Hall. exact (Hall s Hs).
Qed.

End StatusRecords.

Lemma statuses_agree_with_results_witness :
  exists res o,
    Sample.executeSwarm Sample.oneByOne 4 Sample.callOrder "2026-03-02T10:30:00" None
    = Some (res, o)
    /\ Swarm.cancelledCalls res <> []
    /\ forall s, In s (Swarm.cancelledCalls res) ->
                 Swarm.startedAt s = None /\ Swarm.completedAt s = None
                 /\ Swarm.result s = None.
Proof.
  destruct (Sample.executeSwarm Sample.oneByOne 4 Sample.callOrder
              "2026-03-02T10:30:00" None) as [[res o] |] eqn:Hrun;
    [| vm_compute in Hrun; discriminate].
  exists res, o. split; [reflexivity |].
  pose proof (statuses_agree_with_results Sample.directory Sample.today Sample.tomorrow
                UTCHost.getTime UTCHost.getHours UTCHost.toLocaleStringUTC
                UTCHost.Date_now Sample.race Sample.oneByOne "2026-03-02T10:30:00" None
                4 Sample.callOrder res o Hrun) as Hall.
  vm_compute in Hrun. injection Hrun as <- _.
  split; [discriminate |].
  intros s Hs. apply (Hall s).
  - cbn in Hs |- *. intuition.
  - right. cbn in Hs. destruct Hs as [<- | [<- | []]]; reflexivity.
Defined.

(** ** Zone designators ([stripTzSuffix], and the same pattern in
    [formatSlot]) *)

Lemma append_assoc (a b c : string) : (a ++ b) ++ c = a ++ (b ++ c).
Proof. induction a as [| x a IH]; cbn; [reflexivity | now rewrite IH]. Qed.

Lemma append_empty (a : string) : a ++ EmptyString = a.
Proof. induction a as [| x a IH]; cbn; [reflexivity | now rewrite IH]. Qed.

Lemma rev_string_acc (s acc : string) :
  JS.rev_string s acc = JS.rev_string s EmptyString ++ acc.
Proof.
  revert acc. induction s as [| c s IH]; intro acc; cbn; [reflexivity |].
  rewrite (IH (String c acc)), (IH (String c EmptyString)), append_assoc. reflexivity.
Qed.

Lemma rev_string_twice (s : string) :
  JS.rev_string (JS.rev_string s EmptyString) EmptyString = s.
Proof.
  induction s as [| c s IH]; cbn; [reflexivity |].
  rewrite (rev_string_acc s (String c EmptyString)), rev_string_app, IH. reflexivity.
Qed.

Lemma rev_string_append (a b : string) :
  JS.rev_string (a ++ b) EmptyString
  = JS.rev_string b EmptyString ++ JS.rev_string a EmptyString.
Proof. now rewrite rev_string_app, rev_string_acc. Qed.

Lemma chars_append (a b : string) :
  list_ascii_of_string (a ++ b) = (list_ascii_of_string a ++ list_ascii_of_string b)%list.
Proof. induction a as [| x a IH]; cbn; [reflexivity | now rewrite IH]. Qed.

Lemma chars_rev_string (s : string) :
  list_ascii_of_string (JS.rev_string s EmptyString) = rev (list_ascii_of_string s).
Proof.
  induction s as [| c s IH]; cbn; [reflexivity |].
  now rewrite (rev_string_acc s (String c EmptyString)), chars_append, IH.
Qed.

Lemma dropDigits_suffix (r : string) : exists f, r = f ++ JS.dropDigits r.
Proof.
  induction r as [| c r IH]; cbn; [now exists EmptyString |].
  destruct (JS.isDigit c); [| now exists EmptyString].
  destruct IH as [f Hf]. exists (String c f). cbn. now rewrite <- Hf.
Qed.

Lemma dropFractionRev_suffix (r : string) : exists f, r = f ++ JS.dropFractionRev r.
Proof.
  unfold JS.dropFractionRev. destruct r as [| c r']; [now exists EmptyString |].
  destruct (JS.isDigit c); [| now exists EmptyString].
  destruct (dropDigits_suffix (String c r')) as [f Hf].
  destruct (JS.dropDigits (String c r')) as [| dot rest]; [now exists EmptyString |].
  destruct (Ascii.eqb dot "."); [| now exists EmptyString].
  exists (f ++ String dot EmptyString). now rewrite append_assoc.
Qed.

Lemma dropZoneRev_suffix (r0 r : string) :
  JS.dropZoneRev r0 = Some r -> exists z, r0 = z ++ r.
Proof.
  unfold JS.dropZoneRev. destruct r0 as [| z r1]; [discriminate |].
  destruct (Ascii.eqb z "Z" || Ascii.eqb z "z").
  - intros [= <-]. now exists (String z EmptyString).
  - destruct r1 as [| m1 [| colon [| h2 [| h1 [| sign r6]]]]]; try discriminate.
    destruct (_ && _); [| discriminate]. intros [= <-].
    now exists (String z (String m1 (String colon (String h2 (String h1
                 (String sign EmptyString)))))).
Qed.

(** Without a dot there is no fraction to drop. *)
Lemma dropFractionRev_no_dot (r : string) :
  ~ In "."%char (list_ascii_of_string r) -> JS.dropFractionRev r = r.
Proof.
  intro Hno. unfold JS.dropFractionRev. destruct r as [| c r']; [reflexivity |].
  destruct (JS.isDigit c); [| reflexivity].
  destruct (dropDigits_suffix (String c r')) as [f Hf].
  destruct (JS.dropDigits (String c r')) as [| dot rest]; [reflexivity |].
  destruct (Ascii.eqb dot ".") eqn:E; [| reflexivity].
  apply Ascii.eqb_eq in E. subst dot. exfalso. apply Hno.
  rewrite Hf, chars_append. apply in_or_app. right. now left.
Qed.

Lemma dropDigits_run (d : string) (c : ascii) (rest : string) :
  forallb JS.isDigit (list_ascii_of_string d) = true -> JS.isDigit c = false ->
  JS.dropDigits (d ++ String c rest) = String c rest.
Proof.
  intros Hd Hc. induction d as [| x d IH]; cbn in *.
  - now rewrite Hc.
  - apply andb_true_iff in Hd. destruct Hd as [Hx Hd]. rewrite Hx. now apply IH.
Qed.

Lemma digit_is_no_zone_letter (c : ascii) :
  JS.isDigit c = true -> Ascii.eqb c "Z" || Ascii.eqb c "z" = false.
Proof.
  intro H. destruct (Ascii.eqb c "Z") eqn:E1.
  - apply Ascii.eqb_eq in E1. subst. discriminate H.
  - destruct (Ascii.eqb c "z") eqn:E2; [| reflexivity].
    apply Ascii.eqb_eq in E2. subst. discriminate H.
Qed.

(** X22. [stripTzSuffix] only ever cuts the end of its argument off.  It
    takes off a final [Z] together with a fraction of a second before it,
    and a final offset such as [-05:00]; what is left of a text without a
    dot is the text before the designator. *)
Theorem stripTzSuffix_cuts_the_zone :
  (forall dt, exists suffix, dt = Webhook.stripTzSuffix dt ++ suffix)
  /\ (forall base digits,
         digits <> EmptyString ->
         forallb JS.isDigit (list_ascii_of_string digits) = true ->
         Webhook.stripTzSuffix (base ++ "." ++ digits ++ "Z") = base)
  /\ (forall base,
         ~ In "."%char (list_ascii_of_string base) ->
         Webhook.stripTzSuffix (base ++ "Z") = base
         /\ Webhook.stripTzSuffix (base ++ "z") = base)
  /\ (forall base sign h1 h2 m1 m2,
         ~ In "."%char (list_ascii_of_string base) ->
         sign = "+"%char \/ sign = "-"%char ->
         forallb JS.isDigit [h1; h2; m1; m2] = true ->
         Webhook.stripTzSuffix
           (base ++ String sign (String h1 (String h2 (String ":"
                      (String m1 (String m2 EmptyString))))))
         = base).
Proof.
  unfold Webhook.stripTzSuffix, JS.stripZone.
  assert (Hrev_no_dot : forall base,
             ~ In "."%char (list_ascii_of_string base) ->
             ~ In "."%char (list_ascii_of_string (JS.rev_string base EmptyString))).
  { intros base H. rewrite chars_rev_string, <- in_rev. exact H. }
  split; [| split; [| split]].
  - intro dt.
    destruct (JS.dropZoneRev (JS.rev_string dt EmptyString)) as [r |] eqn:E.
    + apply dropZoneRev_suffix in E. destruct E as [z Hz].
      destruct (dropFractionRev_suffix r) as [f Hf].
      exists (JS.rev_string f EmptyString ++ JS.rev_string z EmptyString).
      assert (Hdt : dt = JS.rev_string (z ++ (f ++ JS.dropFractionRev r)) EmptyString).
      { rewrite <- Hf, <- Hz. symmetry. apply rev_string_twice. }
      rewrite Hdt at 1. rewrite !rev_string_append, append_assoc. reflexivity.
    + exists EmptyString. now rewrite append_empty.
  - intros base digits Hne Hd.
    set (rd := JS.rev_string digits EmptyString).
    set (rb := JS.rev_string base EmptyString).
    assert (Hr : JS.rev_string (base ++ "." ++ digits ++ "Z") EmptyString
                 = String "Z" (rd ++ String "." rb)).
    { rewrite rev_string_append. fold rb. cbn [append JS.rev_string].
      rewrite rev_string_acc, rev_string_append. fold rd. cbn [append JS.rev_string].
      now rewrite append_assoc. }
    rewrite Hr. cbn [JS.dropZoneRev Ascii.eqb Bool.eqb orb andb].
    assert (Hrd : forallb JS.isDigit (list_ascii_of_string rd) = true).
    { unfold rd. rewrite chars_rev_string. rewrite forallb_forall in *.
      intros c Hc. apply Hd. now apply in_rev. }
    assert (Hrne : rd <> EmptyString).
    { unfold rd. intro H. apply Hne. rewrite <- (rev_string_twice digits), H. reflexivity. }
    unfold JS.dropFractionRev.
    rewrite (dropDigits_run rd "." rb Hrd eq_refl).
    destruct rd as [| c rd']; [congruence |]. cbn [append].
    cbn [list_ascii_of_string forallb] in Hrd. apply andb_true_iff in Hrd.
    rewrite (proj1 Hrd), Ascii.eqb_refl. apply rev_string_twice.
  - intros base Hno. specialize (Hrev_no_dot base Hno).
    rewrite !rev_string_append. cbn [append JS.rev_string JS.dropZoneRev
                                     Ascii.eqb Bool.eqb orb andb].
    rewrite dropFractionRev_no_dot by exact Hrev_no_dot.
    split; apply rev_string_twice.
  - intros base sign h1 h2 m1 m2 Hno Hsign Hd. specialize (Hrev_no_dot base Hno).
    cbn [forallb] in Hd. rewrite !andb_true_iff in Hd.
    destruct Hd as (H1 & H2 & H3 & H4 & _).
    rewrite rev_string_append. cbn [append JS.rev_string JS.dropZoneRev].
    rewrite (digit_is_no_zone_letter m2 H4), H4, H3, H2, H1, Ascii.eqb_refl.
    assert (Hs : Ascii.eqb sign "+" || Ascii.eqb sign "-" = true).
    { destruct Hsign as [-> | ->]; reflexivity. }
    rewrite Hs. cbn [andb].
    rewrite dropFractionRev_no_dot by exact Hrev_no_dot.
    apply rev_string_twice.
Qed.

Lemma stripTzSuffix_cuts_the_zone_witness :
  Webhook.stripTzSuffix "2026-02-09T10:00:00.000Z" = "2026-02-09T10:00:00"
  /\ Webhook.stripTzSuffix "2026-02-09T10:00:00Z" = "2026-02-09T10:00:00"
  /\ Webhook.stripTzSuffix "2026-02-09T10:00:00-05:00" = "2026-02-09T10:00:00".
Proof.
  destruct stripTzSuffix_cuts_the_zone as (_ & Hfrac & Hz & Hoff).
  split; [| split].
  - apply (Hfrac "2026-02-09T10:00:00" "000"); [discriminate | reflexivity].
  - apply (Hz "2026-02-09T10:00:00"). cbn. intuition discriminate.
  - apply (Hoff "2026-02-09T10:00:00" "-"%char "0"%char "5"%char "0"%char "0"%char).
    + cbn. intuition discriminate.
    + now right.
    + reflexivity.
Defined.

(** ** The webhook's answer to a single call ([handleProviderCall]) *)

Section ProviderCallAnswer.
Variable directory : list Provider.
Variables todayStr tomorrowStr : string.
Variable getTime : string -> option Z.
Variable getHours : string -> option Z.
Variable toLocaleStringUTC : list string -> list string -> string.
Variable toLocaleStringYear : list string -> list string -> string.

Let handleProviderCall :=
  Webhook.handleProviderCall directory todayStr tomorrowStr getTime getHours
    toLocaleStringUTC toLocaleStringYear.

(** X23. The answer to [initiate_provider_call] names the provider id it
    was asked about and says to confirm exactly when the call succeeded.
    It shows a booked slot only for a success.  When it lists
    alternatives there is exactly one and it says to ask about them; a
    failure without alternatives says to try the next provider.  The
    duration it reports is between 500 and 6100 ms. *)
Theorem handleProviderCall_answer :
  forall (pid requestedSlot : string) (desc : option string) (random : Q),
    let a := handleProviderCall pid requestedSlot desc random in
    Webhook.line_id (Webhook.call_provider a) = pid
    /\ (Webhook.call_success a = true
        <-> Webhook.call_next_action a
            = "Use confirm_booking to finalize and add to calendar")
    /\ (Webhook.call_booked_slot_iso a <> None -> Webhook.call_success a = true)
    /\ (forall alts, Webhook.alternative_slots a = Some alts ->
                     Webhook.call_success a = false
                     /\ List.length alts = 1%nat
                     /\ Webhook.call_next_action a
                        = "Ask user about alternative slots or try next provider")
    /\ (Webhook.call_success a = false -> Webhook.alternative_slots a = None ->
        Webhook.call_next_action a = "Try the next provider in the list")
    /\ 500 <= Webhook.call_duration_ms a <= 6100.
Proof.
  intros pid requestedSlot desc random a. subst a.
  unfold handleProviderCall, Webhook.handleProviderCall.
  cbn [Webhook.line_id Webhook.call_provider Webhook.call_success
       Webhook.call_next_action Webhook.call_booked_slot_iso Webhook.alternative_slots
       Webhook.call_duration_ms].
  set (r := Receptionist.simulateProviderCall _ _ _ _ _ _ pid requestedSlot desc random).
  split; [reflexivity |].
  destruct (Receptionist.getProvider directory todayStr tomorrowStr pid) as [p |] eqn:Hp.
  - pose proof (responseDelay_values (rating p)) as Hd. cbn zeta in Hd.
    destruct (simulateProviderCall_cases directory todayStr tomorrowStr getTime getHours
                toLocaleStringUTC pid requestedSlot desc random p Hp)
      as (_ & _ & [(Hs & [b Hb] & Ha & Hw & _) | [(Hs & Hb & [x Ha] & Hw & _)
                                                 | (Hs & Hb & Ha & Hw & _)]]);
      fold r in Hs, Hb, Ha, Hw;
      set (d := Receptionist.responseDelay _) in Hd, Hw; clearbody d;
      rewrite Hs, Hb, Ha, Hw;
      cbn [option_map map List.length Nat.eqb negb Webhook.whenBooked].
    + repeat split; intros; try discriminate; try congruence; lia.
    + repeat split; intros; try discriminate; try congruence; try lia.
      match goal with H : Some _ = Some _ |- _ => injection H as <- end. reflexivity.
    + repeat split; intros; try discriminate; try congruence; lia.
  - unfold r.
    rewrite (simulateProviderCall_unknown directory todayStr tomorrowStr getTime getHours
               toLocaleStringUTC pid requestedSlot desc random Hp).
    cbn. repeat split; intros; try discriminate; try congruence; lia.
Qed.

End ProviderCallAnswer.

Lemma handleProviderCall_answer_witness :
  let a := Webhook.handleProviderCall Sample.directory Sample.today Sample.tomorrow
             UTCHost.getTime UTCHost.getHours UTCHost.toLocaleStringUTC
             UTCHost.toLocaleStringUTC "dent_02" "2026-03-02T10:30:00" None 0 in
  Webhook.call_success a = false
  /\ List.length [ {| Webhook.display :=
                        Webhook.formatForUser UTCHost.toLocaleStringUTC
                          "2026-03-02T10:00:00";
                      Webhook.iso := "2026-03-02T10:00:00" |} ] = 1%nat
  /\ Webhook.call_next_action a
     = "Ask user about alternative slots or try next provider".
Proof.
  apply (proj1 (proj2 (proj2 (proj2
           (handleProviderCall_answer Sample.directory Sample.today Sample.tomorrow
              UTCHost.getTime UTCHost.getHours UTCHost.toLocaleStringUTC
              UTCHost.toLocaleStringUTC "dent_02" "2026-03-02T10:30:00" None 0))))).
  reflexivity.
Defined.

(** ** Synthetic provider ids *)






(** ** The ranking does not depend on the order of the input *)




(** ** Time stamps of a run *)

Lemma initialStatuses_unstarted (ps : list Provider) :
  Forall (fun s => Swarm.startedAt s = None /\ Swarm.completedAt s = None)
    (Swarm.Map_values (Swarm.initialStatuses ps)).
Proof.
  unfold Swarm.initialStatuses.
  assert (H : forall m,
             Forall (fun s => Swarm.startedAt s = None /\ Swarm.completedAt s = None)
               (Swarm.Map_values m) ->
             Forall (fun s => Swarm.startedAt s = None /\ Swarm.completedAt s = None)
               (Swarm.Map_values
                  (fold_left (fun m p =>
                                Swarm.Map_set m (id p)
                                  {| Swarm.providerId := id p;
                                     Swarm.providerName := name p;
                                     Swarm.status := Swarm.pending;
                                     Swarm.startedAt := None;
                                     Swarm.completedAt := None;
                                     Swarm.result := None |}) ps m))).
  { induction ps as [| p rest IH]; intros m Hm; cbn; [exact Hm |].
    apply IH. apply Map_set_Forall; [exact Hm | split; reflexivity]. }
  apply H. constructor.
Qed.

Section TimeStamps.
Variable directory : list Provider.
Variables todayStr tomorrowStr : string.
Variable getTime : string -> option Z.
Variable getHours : string -> option Z.
Variable toLocaleStringUTC : list string -> list string -> string.
Variable Date_now : nat -> Z.
Variable race : string -> Swarm.RaceOutcome.
Variable config : Swarm.SwarmConfig.
Variable requestedSlot : string.
Variable serviceDescription : option string.
(** The clock never runs backwards. *)
Hypothesis Date_now_monotone : forall i j, (i <= j)%nat -> Date_now i <= Date_now j.

(** With [n] readings of the clock taken so far: the time stamps of the
    status are among them, and a settled call ended after it started. *)
Let stamped (n : nat) (s : Swarm.SwarmCallStatus) : Prop :=
  (forall t, Swarm.startedAt s = Some t -> exists i, (i < n)%nat /\ t = Date_now i)
  /\ (forall t, Swarm.completedAt s = Some t -> exists i, (i < n)%nat /\ t = Date_now i)
  /\ (Swarm.status s = Swarm.success \/ Swarm.status s = Swarm.failed
      \/ Swarm.status s = Swarm.timeout ->
      forall t t', Swarm.startedAt s = Some t -> Swarm.completedAt s = Some t' ->
                   t <= t').
Let allStamped (o : Swarm.Orchestrator) : Prop :=
  Forall (stamped (Swarm.clock o)) (Swarm.Map_values (Swarm.statuses o)).

Lemma stamped_later (n m : nat) (s : Swarm.SwarmCallStatus) :
  (n <= m)%nat -> stamped n s -> stamped m s.
Proof.
  intros Hnm (Hs & Hc & Ho). split; [| split; [| exact Ho]].
  - intros t Ht. destruct (Hs t Ht) as (i & Hi & ->). exists i. split; [lia | reflexivity].
  - intros t Ht. destruct (Hc t Ht) as (i & Hi & ->). exists i. split; [lia | reflexivity].
Qed.

Lemma updateStatus_tick_stamped (o : Swarm.Orchestrator) (v : Swarm.SwarmCallStatus) :
  allStamped o -> stamped (S (Swarm.clock o)) v ->
  allStamped (Swarm.updateStatus (Swarm.tick o) v).
Proof.
  intros Ho Hv. unfold allStamped. cbn. apply Map_set_Forall; [| exact Hv].
  eapply Forall_impl; [| exact Ho]. intros s Hs.
  apply (stamped_later (Swarm.clock o)); [lia | exact Hs].
Qed.

Lemma launchCall_stamped (o : Swarm.Orchestrator) (p : Provider) :
  allStamped o -> allStamped (Swarm.launchCall Date_now o p).
Proof.
  intro Ho. unfold Swarm.launchCall.
  destruct (Swarm.Map_get (Swarm.statuses o) (id p)) as [s |] eqn:Hget; [| exact Ho].
  apply updateStatus_tick_stamped; [exact Ho |].
  unfold allStamped in Ho. rewrite Forall_forall in Ho.
  destruct (Ho s (Map_get_value _ _ _ Hget)) as (_ & Hc & _).
  split; [| split]; cbn.
  - intros t [= <-]. exists (Swarm.clock o). split; [lia | reflexivity].
  - intros t Ht. destruct (Hc t Ht) as (i & Hi & ->). exists i. split; [lia | reflexivity].
  - intros [H | [H | H]]; discriminate H.
Qed.

Lemma settleCall_stamped (o : Swarm.Orchestrator) (p : Provider) :
  allStamped o ->
  allStamped (Swarm.settleCall directory todayStr tomorrowStr getTime getHours
                toLocaleStringUTC Date_now race requestedSlot serviceDescription o p).
Proof.
  intro Ho. unfold Swarm.settleCall.
  destruct (Swarm.Map_get (Swarm.statuses o) (id p)) as [s |] eqn:Hget; [| exact Ho].
  pose proof Ho as Hall. unfold allStamped in Hall. rewrite Forall_forall in Hall.
  destruct (Hall s (Map_get_value _ _ _ Hget)) as (Hs & _ & _).
  assert (Hv : forall c r,
             stamped (S (Swarm.clock o))
               {| Swarm.providerId := Swarm.providerId s;
                  Swarm.providerName := Swarm.providerName s;
                  Swarm.status := c;
                  Swarm.startedAt := Swarm.startedAt s;
                  Swarm.completedAt := Some (Date_now (Swarm.clock o));
                  Swarm.result := r |}).
  { intros c r. split; [| split]; cbn.
    - intros t Ht. destruct (Hs t Ht) as (i & Hi & ->). exists i. split; [lia | reflexivity].
    - intros t [= <-]. exists (Swarm.clock o). split; [lia | reflexivity].
    - intros _ t t' Ht [= <-]. destruct (Hs t Ht) as (i & Hi & ->).
      apply Date_now_monotone. lia. }
  destruct (race (id p)) as [| random]; apply updateStatus_tick_stamped; auto.
Qed.

Lemma fold_stamped {A} (step : Swarm.Orchestrator -> A -> Swarm.Orchestrator)
    (xs : list A) :
  (forall o x, allStamped o -> allStamped (step o x)) ->
  forall o, allStamped o -> allStamped (fold_left step xs o).
Proof.
  intro Hstep. induction xs as [| x rest IH]; intros o Ho; cbn; [exact Ho |].
  apply IH, Hstep, Ho.
Qed.

Lemma cancelRemainingCalls_stamped (o : Swarm.Orchestrator) :
  allStamped o -> allStamped (Swarm.cancelRemainingCalls o).
Proof.
  intro Ho. unfold Swarm.cancelRemainingCalls, allStamped. cbn [Swarm.statuses Swarm.clock].
  apply (fold_stamped _ (Swarm.statuses o)); [| exact Ho].
  intros acc entry Hacc.
  destruct (Swarm.Map_get (Swarm.statuses acc) (fst entry)) as [s |] eqn:Hget;
    [| exact Hacc].
  destruct (Swarm.CallState_eqb (Swarm.status s) Swarm.pending); [| exact Hacc].
  pose proof Hacc as Hall. unfold allStamped in Hall. rewrite Forall_forall in Hall.
  destruct (Hall s (Map_get_value _ _ _ Hget)) as (Hs & Hc & _).
  unfold allStamped. cbn. apply Map_set_Forall; [exact Hacc |].
  split; [exact Hs | split; [exact Hc |]]. cbn.
  intros [H | [H | H]]; discriminate H.
Qed.

Lemma scanResults_stamped (results : list Swarm.SwarmCallStatus) :
  forall (o : Swarm.Orchestrator) (fs : option Swarm.SwarmCallStatus),
    allStamped o -> allStamped (fst (Swarm.scanResults config results o fs)).
Proof.
  induction results as [| r rest IH]; intros o fs Ho; cbn; [exact Ho |].
  destruct (Swarm.CallState_eqb (Swarm.status r) Swarm.success); [| now apply IH].
  destruct fs; [now apply IH |].
  destruct (Swarm.stopOnFirstSuccess config); [| now apply IH].
  cbn. now apply cancelRemainingCalls_stamped.
Qed.

Lemma runBatches_stamped (batches : list (list Provider)) :
  forall (o : Swarm.Orchestrator) (fs : option Swarm.SwarmCallStatus),
    allStamped o ->
    allStamped (Swarm.runBatches directory todayStr tomorrowStr getTime getHours
                  toLocaleStringUTC Date_now race config requestedSlot
                  serviceDescription batches o fs).
Proof.
  induction batches as [| batch rest IH]; intros o fs Ho; cbn; [exact Ho |].
  destruct (Swarm.aborted o); [exact Ho |].
  destruct (Swarm.stopOnFirstSuccess config
            && match fs with Some _ => true | None => false end); [exact Ho |].
  set (o1 := Swarm.executeBatch _ _ _ _ _ _ _ _ _ _ o batch).
  assert (H1 : allStamped o1).
  { unfold o1, Swarm.executeBatch.
    apply fold_stamped; [intros; now apply settleCall_stamped |].
    apply fold_stamped; [intros; now apply launchCall_stamped | exact Ho]. }
  pose proof (scanResults_stamped (Swarm.batchResults o1 batch) o1 fs H1) as H2.
  destruct (Swarm.scanResults config (Swarm.batchResults o1 batch) o1 fs) as [o2 fs'].
  now apply IH.
Qed.

(** X26. With a clock that never runs backwards, the time stamps of a run
    are in order: every start and end time in the returned statuses lies
    between the start of the run and its end (the start plus
    [totalDurationMs]), a settled call ended no earlier than it started,
    and [totalDurationMs] is not negative. *)
Theorem timestamps_in_order :
  forall (fuel : nat) (providers : list Provider)
         (res : Swarm.SwarmResult) (o : Swarm.Orchestrator),
    Swarm.executeSwarm directory todayStr tomorrowStr getTime getHours
      toLocaleStringUTC Date_now race config fuel providers requestedSlot
      serviceDescription = Some (res, o) ->
    0 <= Swarm.totalDurationMs res
    /\ forall s, In s (Swarm.callStatuses res) ->
         (forall t, Swarm.startedAt s = Some t ->
                    Date_now 0 <= t <= Date_now 0 + Swarm.totalDurationMs res)
         /\ (forall t, Swarm.completedAt s = Some t ->
                       Date_now 0 <= t <= Date_now 0 + Swarm.totalDurationMs res)
         /\ (Swarm.status s = Swarm.success \/ Swarm.status s = Swarm.failed
             \/ Swarm.status s = Swarm.timeout ->
             forall t t', Swarm.startedAt s = Some t -> Swarm.completedAt s = Some t' ->
                          t <= t').
Proof.
  intros fuel providers res o Hrun. unfold Swarm.executeSwarm in Hrun.
  destruct (Swarm.createBatches fuel providers (Swarm.maxConcurrentCalls config))
    as [batches |]; [| discriminate].
  injection Hrun as <- _. cbn [Swarm.callStatuses Swarm.totalDurationMs].
  set (o0 := {| Swarm.statuses := Swarm.initialStatuses providers;
                Swarm.aborted := false; Swarm.notified := []; Swarm.clock := 1%nat |}).
  assert (H0 : allStamped o0).
  { unfold allStamped. cbn [Swarm.statuses Swarm.clock o0].
    eapply Forall_impl; [| apply (initialStatuses_unstarted providers)].
    intros s [Hs Hc]. split; [| split].
    - intros t Ht. congruence.
    - intros t Ht. congruence.
    - intros _ t t' Ht. congruence. }
  pose proof (runBatches_stamped batches o0 None H0) as Hfin.
  set (o1 := Swarm.runBatches _ _ _ _ _ _ _ _ _ _ _ batches o0 None) in *.
  unfold allStamped in Hfin. rewrite Forall_forall in Hfin.
  assert (Hwindow : forall i, (i < Swarm.clock o1)%nat ->
                      Date_now 0 <= Date_now i
                      <= Date_now 0 + (Date_now (Swarm.clock o1) - Date_now 0)).
  { intros i Hi.
    pose proof (Date_now_monotone 0 i ltac:(lia)).
    pose proof (Date_now_monotone i (Swarm.clock o1) ltac:(lia)). lia. }
  split.
  - pose proof (Date_now_monotone 0 (Swarm.clock o1) ltac:(lia)). lia.
  - intros s Hs. destruct (Hfin s Hs) as (Ha & Hb & Hc). split; [| split; [| exact Hc]].
    + intros t Ht. destruct (Ha t Ht) as (i & Hi & ->). now apply Hwindow.
    + intros t Ht. destruct (Hb t Ht) as (i & Hi & ->). now apply Hwindow.
Qed.

End TimeStamps.

Lemma timestamps_in_order_witness :
  exists res o,
    Sample.executeSwarm Sample.allAtOnce 4 Sample.callOrder "2026-03-02T10:30:00" None
    = Some (res, o)
    /\ 0 <= Swarm.totalDurationMs res
    /\ forall s, In s (Swarm.callStatuses res) ->
         (forall t, Swarm.startedAt s = Some t ->
                    UTCHost.Date_now 0 <= t
                    <= UTCHost.Date_now 0 + Swarm.totalDurationMs res)
         /\ (forall t, Swarm.completedAt s = Some t ->
                       UTCHost.Date_now 0 <= t
                       <= UTCHost.Date_now 0 + Swarm.totalDurationMs res)
         /\ (Swarm.status s = Swarm.success \/ Swarm.status s = Swarm.failed
             \/ Swarm.status s = Swarm.timeout ->
             forall t t', Swarm.startedAt s = Some t -> Swarm.completedAt s = Some t' ->
                          t <= t').
Proof.
  destruct (Sample.executeSwarm Sample.allAtOnce 4 Sample.callOrder
              "2026-03-02T10:30:00" None) as [[res o] |] eqn:Hrun;
    [| vm_compute in Hrun; discriminate].
  exists res, o. split; [reflexivity |].
  apply (timestamps_in_order Sample.directory Sample.today Sample.tomorrow
           UTCHost.getTime UTCHost.getHours UTCHost.toLocaleStringUTC UTCHost.Date_now
           Sample.race Sample.allAtOnce "2026-03-02T10:30:00" None)
    with (fuel := 4%nat) (providers := Sample.callOrder) (o := o).
  - intros i j Hij. unfold UTCHost.Date_now. lia.
  - exact Hrun.
Defined.
